(** * Gravitas: vector-field engine and particle feedback loop

  A shallow embedding of the compute core of the Gravitas repository and the
  properties its specification states about it.  The embedded sources are

  - src/gravitas/compute/cpu_vector_field.py  (module [CPU]),
  - src/gravitas/compute/gpu_vector_field.py  (module [GPU]: the
    initialisation and the host side of the compute methods; the kernels
    are OpenCL programs and enter as parameters),
  - src/gravitas/compute/vector_field.py      (module [Dispatcher]),
  - src/plugins/marker_system.py              (modules [MarkerSystem] and
    [Routed], the latter with the dispatcher in the loop),
  - src/gravitas/core/app.py, [GridManager.load_grid] and [save_grid]
    (module [GridManager]),
  - src/gravitas/core/state.py                (module [StateManager]),
  - src/gravitas/core/events.py               (module [EventBus]),
  - src/gravitas/core/config.py               (module [ConfigManager]),
  - src/plugins/controller.py, the picking of a marker
    (module [Controller]).

  Numbers.  A Python float and a numpy float scalar are modelled by an exact
  real number extended with the three special values of IEEE 754 arithmetic
  (+inf, -inf, nan): arithmetic on finite values is exact (rounding, overflow
  and the sign of zero are outside the model), arithmetic that leaves the
  reals (a numpy division by zero, inf - inf, 0 * inf) produces the special
  value IEEE 754 prescribes.  Theorems about ordinary inputs quantify over
  real numbers and inject them with [Fin].  A theorem whose conclusion an
  overflow or an underflow of the floating-point code would contradict
  takes its inputs of moderate size ([GridSpec.moderate],
  [GridSpec.sizeable]): at most [2 ^ 20] in absolute value, magnitudes and
  the cell size at least [2 ^ -20], so that no intermediate result leaves
  the range of the floats.

  Precision of the grid.  The grid is an array of 32-bit floats
  ([create_vector_grid] allocates it with [dtype=np.float32]).  Module
  [Float32] defines the rounding to the nearest 32-bit float, and
  [NumPy.iadd_item_float32], [CPU.add_vector_at_position_float32] are the
  in-place addition and the splat with that rounding at every store; the
  statement about the precision of a stored vector is made about them.

  Exceptions.  A computation that may raise returns a [result]; a [try]
  block is [try_except] around the result of its body.

  Mutable data.  A numpy array is a shape and a function from indices to
  cells, and an in-place update returns the updated array.  The lists and
  dicts of the particle set are objects in a store, addressed by reference,
  so that two references to one dict observe each other's writes.

  The file has three parts: the program, the vocabulary of the statements,
  and the facts. *)

From Stdlib Require Import Reals Lra Lia ZArith Bool List.
From Stdlib Require Import Zfloor.
From stdpp Require Import base option list gmap strings.

Local Open Scope Z_scope.

(* ===================================================================== *)
(** * Python exceptions *)
(* ===================================================================== *)

Module Py.

(** The exception classes the modelled code can meet. *)
Inductive exn : Type :=
| IndexError
| ValueError
| OverflowError
| ZeroDivisionError
| RuntimeError
| TypeError.

(** Outcome of evaluating a Python expression or statement. *)
Inductive result (A : Type) : Type :=
| Ok (a : A)
| Raise (e : exn).
Arguments Ok {A} a.
Arguments Raise {A} e.

Definition bind {A B} (r : result A) (k : A -> result B) : result B :=
  match r with
  | Ok a => k a
  | Raise e => Raise e
  end.

(** [try: body / except Exception: handler]. *)
Definition try_except {A} (body : result A) (handler : exn -> A) : A :=
  match body with
  | Ok a => a
  | Raise e => handler e
  end.

End Py.
Export Py.

#[global] Instance result_ret : MRet result := @Ok.
#[global] Instance result_bind : MBind result := fun A B k r => Py.bind r k.

(* ===================================================================== *)
(** * Numbers: exact reals with the IEEE 754 special values *)
(* ===================================================================== *)

Module Num.

Inductive xreal : Type :=
| Fin (r : R)
| PInf
| NInf
| NaN.

Definition Rltb (a b : R) : bool := if Rlt_dec a b then true else false.
Definition Reqb (a b : R) : bool := if Req_dec_T a b then true else false.

Definition of_Z (z : Z) : xreal := Fin (IZR z).
Definition of_nat (n : nat) : xreal := Fin (INR n).

Definition xopp (a : xreal) : xreal :=
  match a with
  | Fin r => Fin (- r)
  | PInf => NInf
  | NInf => PInf
  | NaN => NaN
  end.

(** [a + b] *)
Definition xadd (a b : xreal) : xreal :=
  match a, b with
  | NaN, _ | _, NaN => NaN
  | Fin r, Fin s => Fin (r + s)
  | PInf, NInf | NInf, PInf => NaN
  | PInf, _ | _, PInf => PInf
  | NInf, _ | _, NInf => NInf
  end.

(** [a - b] *)
Definition xsub (a b : xreal) : xreal := xadd a (xopp b).

(** An infinity of the sign of [s] times the sign of the finite [r];
    [inf * 0] is nan. *)
Definition inf_times (positive : bool) (r : R) : xreal :=
  if Reqb r 0 then NaN
  else if xorb positive (Rltb r 0) then PInf else NInf.

(** [a * b] *)
Definition xmul (a b : xreal) : xreal :=
  match a, b with
  | NaN, _ | _, NaN => NaN
  | Fin r, Fin s => Fin (r * s)
  | PInf, Fin r | Fin r, PInf => inf_times true r
  | NInf, Fin r | Fin r, NInf => inf_times false r
  | PInf, PInf | NInf, NInf => PInf
  | PInf, NInf | NInf, PInf => NInf
  end.

(** IEEE 754 division, as numpy's true_divide performs it: a finite value
    divided by zero is an infinity of the dividend's sign, [0 / 0] is nan;
    no exception is raised. *)
Definition xdiv (a b : xreal) : xreal :=
  match a, b with
  | NaN, _ | _, NaN => NaN
  | Fin r, Fin s =>
      if Reqb s 0
      then (if Reqb r 0 then NaN else if Rltb r 0 then NInf else PInf)
      else Fin (r / s)
  | Fin _, (PInf | NInf) => Fin 0
  | PInf, Fin s => if Rltb s 0 then NInf else PInf
  | NInf, Fin s => if Rltb s 0 then PInf else NInf
  | (PInf | NInf), (PInf | NInf) => NaN
  end.

(** [a < b]; every comparison with nan is false. *)
Definition xltb (a b : xreal) : bool :=
  match a, b with
  | NaN, _ | _, NaN => false
  | Fin r, Fin s => Rltb r s
  | NInf, (Fin _ | PInf) => true
  | Fin _, PInf => true
  | _, _ => false
  end.

(** [a == 0] *)
Definition xis_zero (a : xreal) : bool :=
  match a with Fin r => Reqb r 0 | _ => false end.

(** [a ** 0.5] on a float: the square root; nan for a negative base, as
    numpy's power returns. *)
Definition xpow_half (a : xreal) : xreal :=
  match a with
  | Fin r => if Rltb r 0 then NaN else Fin (sqrt r)
  | PInf | NInf => PInf
  | NaN => NaN
  end.

(** [a ** 2] *)
Definition xsquare (a : xreal) : xreal := xmul a a.

(** [int(np.floor(a))]: the conversion to [int] raises on nan
    (ValueError) and on an infinity (OverflowError). *)
Definition floor_int (a : xreal) : result Z :=
  match a with
  | Fin r => Ok (Zfloor r)
  | PInf | NInf => Raise OverflowError
  | NaN => Raise ValueError
  end.

(** The builtins [max(a, b)] and [min(a, b)]: the first argument is kept
    unless the second compares strictly greater (smaller).  With a nan
    second argument the first one is returned. *)
Definition py_max (a b : xreal) : xreal := if xltb a b then b else a.
Definition py_min (a b : xreal) : xreal := if xltb b a then b else a.

End Num.
Export Num.

(* ===================================================================== *)
(** * 32-bit floats: the dtype of the grid *)
(* ===================================================================== *)

(** [create_vector_grid] allocates the grid with [dtype=np.float32], so a
    value written to a cell is converted to the nearest 32-bit float
    (round to nearest, ties to even; 24 significant bits, exponents from
    -126 to 127, subnormal numbers below). *)

Module Float32.
Local Open Scope R_scope.

(** The integer nearest to [t]; a tie goes to the even one. *)
Definition rne (t : R) : Z :=
  let f := Zfloor t in
  if Rlt_dec (t - IZR f) (1 / 2) then f
  else if Rlt_dec (1 / 2) (t - IZR f) then (f + 1)%Z
  else if Z.even f then f else (f + 1)%Z.

(** The first [k] among [e], [e - 1], ..., [e - n + 1] with [2 ^ k <= a],
    and [e - n] if there is none. *)
Fixpoint binade (n : nat) (e : Z) (a : R) : Z :=
  match n with
  | O => e
  | S n => if Rle_dec (powerRZ 2 e) a then e else binade n (e - 1)%Z a
  end.

(** The exponent of [r]: the largest [e] of [-126 .. 127] with
    [2 ^ e <= |r|], and [-126] for the subnormal numbers and zero. *)
Definition exponent (r : R) : Z := binade 253 127 (Rabs r).

(** The spacing of the 32-bit floats around [r]: 24 significant bits. *)
Definition quantum (r : R) : R := powerRZ 2 (exponent r - 23).

(** The multiple of the spacing nearest to [r]. *)
Definition nearest (r : R) : R := IZR (rne (r / quantum r)) * quantum r.

(** [np.float32(r)]: the nearest 32-bit float, an infinity beyond the
    largest one. *)
Definition round (r : R) : xreal :=
  let v := nearest r in
  if Rle_dec (powerRZ 2 128) v then PInf
  else if Rle_dec v (- powerRZ 2 128) then NInf
  else Fin v.

(** The conversion of a value to the dtype of the array that stores it. *)
Definition cast (a : xreal) : xreal :=
  match a with
  | Fin r => round r
  | _ => a
  end.

End Float32.

(* ===================================================================== *)
(** * numpy arrays of shape (H, W, 2) *)
(* ===================================================================== *)

Module NumPy.

(** One cell of the field: the two components along the last axis. *)
Definition vec2 : Type := (xreal * xreal)%type.

(** Index along the last axis: [0] or [1]. *)
Inductive component : Type := C0 | C1.

Definition get_component (c : component) (v : vec2) : xreal :=
  match c with C0 => v.1 | C1 => v.2 end.

Definition set_component (c : component) (a : xreal) (v : vec2) : vec2 :=
  match c with C0 => (a, v.2) | C1 => (v.1, a) end.

(** An array of shape [(height, width, 2)]: [cell a i j] is [a[i, j]] for
    [i < height] and [j < width]; row index first, as numpy stores it. *)
Record ndarray : Type := {
  height : nat;
  width : nat;
  cell : nat -> nat -> vec2
}.

(** numpy's treatment of an integer index on an axis of length [n]:
    a negative index counts from the end, anything outside [-n, n) raises
    IndexError. *)
Definition index (n : nat) (i : Z) : result nat :=
  if (0 <=? i) && (i <? Z.of_nat n) then Ok (Z.to_nat i)
  else if (- Z.of_nat n <=? i) && (i <? 0) then Ok (Z.to_nat (i + Z.of_nat n))
  else Raise IndexError.

Definition update_cell (f : nat -> nat -> vec2) (i j : nat) (v : vec2)
  : nat -> nat -> vec2 :=
  fun i' j' => if (i' =? i)%nat && (j' =? j)%nat then v else f i' j'.

(** [a[y, x, c]] *)
Definition getitem (a : ndarray) (y x : Z) (c : component) : result xreal :=
  i ← index (height a) y;
  j ← index (width a) x;
  Ok (get_component c (cell a i j)).

(** [a[y, x, c] += d], in place. *)
Definition iadd_item (a : ndarray) (y x : Z) (c : component) (d : xreal)
  : result ndarray :=
  i ← index (height a) y;
  j ← index (width a) x;
  let old := cell a i j in
  Ok {| height := height a; width := width a;
        cell := update_cell (cell a) i j
                  (set_component c (xadd (get_component c old) d) old) |}.

(** [a[y, x, c] += d], in place, on an array of dtype float32: the sum is
    converted to the dtype of the array when it is stored.  (Depending on
    its promotion rules numpy may also convert the addend before it adds;
    the stored value is the same when the cell or the addend is zero,
    which is how the facts below use this store.) *)
Definition iadd_item_float32 (a : ndarray) (y x : Z) (c : component) (d : xreal)
  : result ndarray :=
  i ← index (height a) y;
  j ← index (width a) x;
  let old := cell a i j in
  Ok {| height := height a; width := width a;
        cell := update_cell (cell a) i j
                  (set_component c (Float32.cast (xadd (get_component c old) d)) old) |}.

(** [np.zeros((h, w, 2))] *)
Definition zeros (h w : nat) : ndarray :=
  {| height := h; width := w; cell := fun _ _ => (Fin 0, Fin 0) |}.

(** [a[:, :, 0] = v0; a[:, :, 1] = v1] *)
Definition fill (a : ndarray) (v : vec2) : ndarray :=
  {| height := height a; width := width a; cell := fun _ _ => v |}.

(** [np.pad(a, ((1, 1), (1, 1), (0, 0)), mode='edge')]: one more row and
    column on each side, holding the value of the nearest cell of [a].
    numpy refuses to extend an empty axis in this mode (ValueError). *)
Definition pad_edge (a : ndarray) : result ndarray :=
  if (height a =? 0)%nat || (width a =? 0)%nat then Raise ValueError
  else Ok {| height := height a + 2; width := width a + 2;
             cell := fun i j => cell a (Nat.min (i - 1) (height a - 1))
                                       (Nat.min (j - 1) (width a - 1)) |}.

(** The basic slice [a[r0 : height - r1, c0 : width - c1]]. *)
Definition slice (a : ndarray) (r0 r1 c0 c1 : nat) : ndarray :=
  {| height := height a - r0 - r1; width := width a - c0 - c1;
     cell := fun i j => cell a (i + r0) (j + c0) |}.

(** [a * k] for a Python float [k]. *)
Definition scale (a : ndarray) (k : xreal) : ndarray :=
  {| height := height a; width := width a;
     cell := fun i j => (xmul (cell a i j).1 k, xmul (cell a i j).2 k) |}.

(** [a + b] on arrays of one shape (other shapes do not occur here and are
    answered with numpy's ValueError). *)
Definition add (a b : ndarray) : result ndarray :=
  if (height a =? height b)%nat && (width a =? width b)%nat
  then Ok {| height := height a; width := width a;
             cell := fun i j => (xadd (cell a i j).1 (cell b i j).1,
                                 xadd (cell a i j).2 (cell b i j).2) |}
  else Raise ValueError.

End NumPy.
Export NumPy.

(* ===================================================================== *)
(** * CPUVectorFieldCalculator  (src/gravitas/compute/cpu_vector_field.py) *)
(* ===================================================================== *)

Module CPU.

(** [0 <= x < w and 0 <= y < h] *)
Definition in_bounds (grid : ndarray) (x y : Z) : bool :=
  (0 <=? x) && (x <? Z.of_nat (width grid)) &&
  (0 <=? y) && (y <? Z.of_nat (height grid)).

(** The neighbour offsets [(dx, dy)] in the order of the source. *)
Definition neighbors : list (Z * Z) := [(0, -1); (0, 1); (-1, 0); (1, 0)].

(** One round of [sum_x += vx * weight; sum_y += vy * weight]. *)
Definition accumulate (sum : vec2) (v : vec2) (weight : xreal) : vec2 :=
  (xadd sum.1 (xmul v.1 weight), xadd sum.2 (xmul v.2 weight)).

(** [sum_adjacent_vectors(grid, x, y, self_weight, neighbor_weight)] *)
Definition sum_adjacent_vectors (grid : ndarray) (x y : Z)
    (self_weight neighbor_weight : xreal) : vec2 :=
  let sum := (Fin 0, Fin 0) in
  let sum :=
    if in_bounds grid x y
    then accumulate sum (cell grid (Z.to_nat y) (Z.to_nat x)) self_weight
    else sum in
  fold_left
    (fun sum '(dx, dy) =>
       let nx := x + dx in
       let ny := y + dy in
       if in_bounds grid nx ny
       then accumulate sum (cell grid (Z.to_nat ny) (Z.to_nat nx)) neighbor_weight
       else sum)
    neighbors sum.

(** [update_grid_with_adjacent_sum(grid)]; the two weights are what the
    state manager holds under "vector_neighbor_weight" and
    "vector_self_weight".  The result is the content of [grid] after
    [grid[:] = result]. *)
Definition update_grid_with_adjacent_sum (grid : ndarray)
    (self_weight neighbor_weight : xreal) : result ndarray :=
  padded_grid ← pad_edge grid;
  let up_neighbors := scale (slice padded_grid 2 0 1 1) neighbor_weight in
  let down_neighbors := scale (slice padded_grid 0 2 1 1) neighbor_weight in
  let left_neighbors := scale (slice padded_grid 1 1 2 0) neighbor_weight in
  let right_neighbors := scale (slice padded_grid 1 1 0 2) neighbor_weight in
  r ← add up_neighbors down_neighbors;
  r ← add r left_neighbors;
  result ← add r right_neighbors;
  result ← add result (scale grid self_weight);
  if (height result =? height grid)%nat && (width result =? width grid)%nat
  then Ok {| height := height grid; width := width grid; cell := cell result |}
  else Raise ValueError.

(** [create_vector_grid(width, height, default)] *)
Definition create_vector_grid (width height : nat) (default : vec2) : ndarray :=
  let grid := zeros height width in
  if xis_zero default.1 && xis_zero default.2 then grid else fill grid default.

(** [max(0.0, min(n - 1.0, float(x)))] *)
Definition clamp_coordinate (n : nat) (x : xreal) : xreal :=
  py_max (Fin 0) (py_min (xsub (of_nat n) (Fin 1)) x).

(** The eight statements of the [try] block of [add_vector_at_position]. *)
Definition splat_statements (y0 y1 x0 x1 : Z) (w00 w01 w10 w11 vx vy : xreal)
  : list (ndarray -> result ndarray) :=
  [ (fun g => iadd_item g y0 x0 C0 (xmul w00 vx));
    (fun g => iadd_item g y0 x0 C1 (xmul w00 vy));
    (fun g => iadd_item g y0 x1 C0 (xmul w01 vx));
    (fun g => iadd_item g y0 x1 C1 (xmul w01 vy));
    (fun g => iadd_item g y1 x0 C0 (xmul w10 vx));
    (fun g => iadd_item g y1 x0 C1 (xmul w10 vy));
    (fun g => iadd_item g y1 x1 C0 (xmul w11 vx));
    (fun g => iadd_item g y1 x1 C1 (xmul w11 vy)) ].

(** [try: s1; ...; sn / except Exception: pass] over statements that update
    the array in place: the statements before the one that raises have taken
    effect, the remaining ones are skipped. *)
Fixpoint try_pass (body : list (ndarray -> result ndarray)) (g : ndarray)
  : ndarray :=
  match body with
  | [] => g
  | s :: rest =>
      match s g with
      | Ok g' => try_pass rest g'
      | Raise _ => g
      end
  end.

(** [add_vector_at_position(grid, x, y, vx, vy)]: the array after the call,
    or the exception that reaches the caller. *)
Definition add_vector_at_position (grid : ndarray) (x y vx vy : xreal)
  : result ndarray :=
  let h := height grid in
  let w := width grid in
  let x := clamp_coordinate w x in
  let y := clamp_coordinate h y in
  x0 ← floor_int x;
  let x1 := Z.min (x0 + 1) (Z.of_nat w - 1) in
  y0 ← floor_int y;
  let y1 := Z.min (y0 + 1) (Z.of_nat h - 1) in
  let wx := xsub x (of_Z x0) in
  let wy := xsub y (of_Z y0) in
  let w00 := xmul (xsub (Fin 1) wx) (xsub (Fin 1) wy) in
  let w01 := xmul wx (xsub (Fin 1) wy) in
  let w10 := xmul (xsub (Fin 1) wx) wy in
  let w11 := xmul wx wy in
  Ok (try_pass (splat_statements y0 y1 x0 x1 w00 w01 w10 w11 vx vy) grid).

(** The eight statements of the [try] block of [add_vector_at_position] on
    a grid of dtype float32. *)
Definition splat_statements_float32 (y0 y1 x0 x1 : Z)
    (w00 w01 w10 w11 vx vy : xreal) : list (ndarray -> result ndarray) :=
  [ (fun g => iadd_item_float32 g y0 x0 C0 (xmul w00 vx));
    (fun g => iadd_item_float32 g y0 x0 C1 (xmul w00 vy));
    (fun g => iadd_item_float32 g y0 x1 C0 (xmul w01 vx));
    (fun g => iadd_item_float32 g y0 x1 C1 (xmul w01 vy));
    (fun g => iadd_item_float32 g y1 x0 C0 (xmul w10 vx));
    (fun g => iadd_item_float32 g y1 x0 C1 (xmul w10 vy));
    (fun g => iadd_item_float32 g y1 x1 C0 (xmul w11 vx));
    (fun g => iadd_item_float32 g y1 x1 C1 (xmul w11 vy)) ].

(** [add_vector_at_position(grid, x, y, vx, vy)] on a grid of dtype
    float32, the grid [create_vector_grid] returns: the same statements,
    with the precision of the stored cells kept. *)
Definition add_vector_at_position_float32 (grid : ndarray) (x y vx vy : xreal)
  : result ndarray :=
  let h := height grid in
  let w := width grid in
  let x := clamp_coordinate w x in
  let y := clamp_coordinate h y in
  x0 ← floor_int x;
  let x1 := Z.min (x0 + 1) (Z.of_nat w - 1) in
  y0 ← floor_int y;
  let y1 := Z.min (y0 + 1) (Z.of_nat h - 1) in
  let wx := xsub x (of_Z x0) in
  let wy := xsub y (of_Z y0) in
  let w00 := xmul (xsub (Fin 1) wx) (xsub (Fin 1) wy) in
  let w01 := xmul wx (xsub (Fin 1) wy) in
  let w10 := xmul (xsub (Fin 1) wx) wy in
  let w11 := xmul wx wy in
  Ok (try_pass (splat_statements_float32 y0 y1 x0 x1 w00 w01 w10 w11 vx vy) grid).

(** The axis offsets visited by
    [for dy in [-1, 0, 1]: for dx in [-1, 0, 1]: if abs(dx) + abs(dy) == 1]. *)
Definition cross_offsets : list (Z * Z) :=
  filter (fun d => Z.abs d.1 + Z.abs d.2 = 1)
    (dy ← [-1; 0; 1]; dx ← [-1; 0; 1]; [(dx, dy)]).

(** The loop body shared by [create_tiny_vector] and
    [create_tiny_vectors_batch]. *)
Definition splat_cross (grid : ndarray) (x y mag : xreal) : result ndarray :=
  let h := height grid in
  let w := width grid in
  let x := clamp_coordinate w x in
  let y := clamp_coordinate h y in
  foldl
    (fun acc '(dx, dy) =>
       g ← acc;
       add_vector_at_position g (xadd x (of_Z dx)) (xadd y (of_Z dy))
         (xmul (of_Z dx) mag) (xmul (of_Z dy) mag))
    (Ok grid) cross_offsets.

(** [create_tiny_vector(grid, x, y, mag)] *)
Definition create_tiny_vector (grid : ndarray) (x y mag : xreal)
  : result ndarray :=
  splat_cross grid x y mag.

(** [create_tiny_vectors_batch(grid, positions)] *)
Definition create_tiny_vectors_batch (grid : ndarray)
    (positions : list (xreal * xreal * xreal)) : result ndarray :=
  foldl (fun acc '(x, y, mag) => g ← acc; splat_cross g x y mag)
    (Ok grid) positions.

(** [fit_vector_at_position(grid, x, y)] *)
Definition fit_vector_at_position (grid : ndarray) (x y : xreal)
  : result vec2 :=
  let h := height grid in
  let w := width grid in
  let x := clamp_coordinate w x in
  let y := clamp_coordinate h y in
  x0 ← floor_int x;
  let x1 := Z.min (x0 + 1) (Z.of_nat w - 1) in
  y0 ← floor_int y;
  let y1 := Z.min (y0 + 1) (Z.of_nat h - 1) in
  v00x ← getitem grid y0 x0 C0; v00y ← getitem grid y0 x0 C1;
  v01x ← getitem grid y0 x1 C0; v01y ← getitem grid y0 x1 C1;
  v10x ← getitem grid y1 x0 C0; v10y ← getitem grid y1 x0 C1;
  v11x ← getitem grid y1 x1 C0; v11y ← getitem grid y1 x1 C1;
  let wx := xsub x (of_Z x0) in
  let wy := xsub y (of_Z y0) in
  let bilinear (v00 v01 v10 v11 : xreal) :=
    xadd (xadd (xadd (xmul (xmul (xsub (Fin 1) wx) (xsub (Fin 1) wy)) v00)
                     (xmul (xmul wx (xsub (Fin 1) wy)) v01))
               (xmul (xmul (xsub (Fin 1) wx) wy) v10))
         (xmul (xmul wx wy) v11) in
  Ok (bilinear v00x v01x v10x v11x, bilinear v00y v01y v10y v11y).

(** [fit_vectors_at_positions_batch(grid, positions)] *)
Definition fit_vectors_at_positions_batch (grid : ndarray)
    (positions : list (xreal * xreal)) : result (list vec2) :=
  match positions with
  | [] => Ok []
  | _ => foldr (fun '(x, y) acc =>
                  v ← fit_vector_at_position grid x y; vs ← acc; Ok (v :: vs))
           (Ok []) positions
  end.

End CPU.

(* ===================================================================== *)
(** * Python float objects and numpy scalars *)
(* ===================================================================== *)

Module Scalar.

(** A number as the interpreter holds it: a builtin [float], or a numpy
    scalar ([numpy.float32], [numpy.float64]).  The two kinds hold the same
    values and differ in one operator: [/] on builtin floats raises
    ZeroDivisionError on a zero divisor, while as soon as one operand is a
    numpy scalar the division is numpy's true_divide, which follows
    IEEE 754, emits a RuntimeWarning and raises nothing. *)
Record scalar : Type := {
  is_numpy : bool;
  value : xreal
}.

Definition py_float (v : xreal) : scalar := {| is_numpy := false; value := v |}.
Definition np_float (v : xreal) : scalar := {| is_numpy := true; value := v |}.

(** The result of a binary operator is a numpy scalar as soon as one operand
    is. *)
Definition binop (f : xreal -> xreal -> xreal) (a b : scalar) : scalar :=
  {| is_numpy := is_numpy a || is_numpy b; value := f (value a) (value b) |}.

Definition add := binop xadd.
Definition mul := binop xmul.

(** [a / b] *)
Definition truediv (a b : scalar) : result scalar :=
  if negb (is_numpy a || is_numpy b) && xis_zero (value b)
  then Raise ZeroDivisionError
  else Ok (binop xdiv a b).

(** [a ** 2] and [a ** 0.5] *)
Definition square (a : scalar) : scalar :=
  {| is_numpy := is_numpy a; value := xsquare (value a) |}.
Definition pow_half (a : scalar) : scalar :=
  {| is_numpy := is_numpy a; value := xpow_half (value a) |}.

(** [a > b] *)
Definition gtb (a b : scalar) : bool := xltb (value b) (value a).

(** [max(a, b)] and [min(a, b)] return one of their arguments. *)
Definition max (a b : scalar) : scalar := if xltb (value a) (value b) then b else a.
Definition min (a b : scalar) : scalar := if xltb (value b) (value a) then b else a.

End Scalar.
Export Scalar.

(* ===================================================================== *)
(** * MarkerSystem  (src/plugins/marker_system.py) *)
(* ===================================================================== *)

Module MarkerSystem.

(** The dict [{"x": .., "y": .., "mag": .., "vx": .., "vy": ..}] that
    [add_marker] builds. *)
Record marker : Type := {
  key_x : scalar;
  key_y : scalar;
  key_mag : scalar;
  key_vx : scalar;
  key_vy : scalar
}.

(** Object identities. *)
Definition loc : Type := positive.

(** The mutable objects of the particle set: list objects, whose items are
    references, and marker dicts. *)
Inductive pyobj : Type :=
| PyList (items : list loc)
| PyDict (d : marker).

(** The object store, the attribute [self.markers] and the entry "markers"
    of [app_core.state_manager] ([None] when the key is absent). *)
Record state : Type := {
  heap : gmap loc pyobj;
  markers : loc;
  state_markers : option loc
}.

(** Allocation of a new object. *)
Definition alloc (h : gmap loc pyobj) (o : pyobj) : loc * gmap loc pyobj :=
  let l := fresh (dom h) in (l, <[l := o]> h).

(** The items of the list object at [l]. *)
Definition list_items (h : gmap loc pyobj) (l : loc) : result (list loc) :=
  match h !! l with
  | Some (PyList items) => Ok items
  | _ => Raise TypeError
  end.

(** The marker dict at [l]. *)
Definition marker_at (h : gmap loc pyobj) (l : loc) : result marker :=
  match h !! l with
  | Some (PyDict d) => Ok d
  | _ => Raise TypeError
  end.

(** [list(l)]: a new list object with the items of [l]. *)
Definition list_copy (h : gmap loc pyobj) (l : loc)
  : result (loc * gmap loc pyobj) :=
  items ← list_items h l;
  Ok (alloc h (PyList items)).

(** [MarkerSystem(app_core)] on a state manager that has no entry
    "markers" yet: [self.markers = []]. *)
Definition new : state :=
  let '(l, h) := alloc ∅ (PyList []) in
  {| heap := h; markers := l; state_markers := None |}.

(** [_sync_to_state_manager()] *)
Definition _sync_to_state_manager (s : state) : state :=
  try_except
    ('(l, h) ← list_copy (heap s) (markers s);
     Ok {| heap := h; markers := markers s; state_markers := Some l |})
    (fun _ => s).

(** [add_marker(x, y, mag, vx, vy)] *)
Definition add_marker (s : state) (x y mag vx vy : xreal) : result state :=
  let marker := {| key_x := py_float x; key_y := py_float y;
                   key_mag := py_float mag;
                   key_vx := py_float vx; key_vy := py_float vy |} in
  let '(m, h) := alloc (heap s) (PyDict marker) in
  items ← list_items h (markers s);
  let h := <[markers s := PyList (items ++ [m])]> h in
  Ok (_sync_to_state_manager
        {| heap := h; markers := markers s; state_markers := state_markers s |}).

(** [clear_markers()] *)
Definition clear_markers (s : state) : state :=
  let '(l, h) := alloc (heap s) (PyList []) in
  _sync_to_state_manager
    {| heap := h; markers := l; state_markers := state_markers s |}.

(** [get_markers()]: the reference it returns, and the state afterwards. *)
Definition get_markers (s : state) : result (loc * state) :=
  '(l, h) ← list_copy (heap s) (markers s);
  Ok (l, {| heap := h; markers := markers s; state_markers := state_markers s |}).

(** [_sync_markers_from_state()] *)
Definition _sync_markers_from_state (s : state) : state :=
  try_except
    (match state_markers s with
     | Some stored =>
         '(l, h) ← list_copy (heap s) stored;
         Ok {| heap := h; markers := l; state_markers := state_markers s |}
     | None => Ok s
     end)
    (fun _ => s).

(** [[(m["x"], m["y"]) for m in self.markers]] *)
Definition _collect_marker_positions (s : state) : result (list (scalar * scalar)) :=
  items ← list_items (heap s) (markers s);
  mapM (fun l => m ← marker_at (heap s) l; Ok (key_x m, key_y m)) items.

(** [_fit_vectors_batch(grid, positions)], with the sequential backend
    active in the dispatcher.  The sampled components are numpy scalars:
    [fit_vector_at_position] computes them as sums of products of Python
    floats with array elements (tests/test_vector_field.py checks
    [isinstance(vx, float)] on a float32 grid, which holds of a
    [numpy.float64] and of no other numpy type). *)
Definition _fit_vectors_batch (grid : ndarray) (positions : list (scalar * scalar))
  : result (list (scalar * scalar)) :=
  vs ← CPU.fit_vectors_at_positions_batch grid
         (map (fun p => (value p.1, value p.2)) positions);
  Ok (map (fun v : vec2 => (np_float v.1, np_float v.2)) vs).

(** [_clamp_velocity(vx, vy, cell_size)] *)
Definition _clamp_velocity (vx vy cell_size : scalar) : result (scalar * scalar) :=
  let speed := pow_half (Scalar.add (square vx) (square vy)) in
  if gtb speed cell_size
  then
    qx ← truediv vx speed;
    let vx := mul qx cell_size in
    qy ← truediv vy speed;
    let vy := mul qy cell_size in
    Ok (vx, vy)
  else Ok (vx, vy).

(** [_update_position(x, y, vx, vy, dt, w, h)] *)
Definition _update_position (x y vx vy dt : scalar) (w h : nat) : scalar * scalar :=
  let new_x := Scalar.max (py_float (Fin 0))
                 (Scalar.min (py_float (xsub (of_nat w) (Fin 1)))
                    (Scalar.add x (mul vx dt))) in
  let new_y := Scalar.max (py_float (Fin 0))
                 (Scalar.min (py_float (xsub (of_nat h) (Fin 1)))
                    (Scalar.add y (mul vy dt))) in
  (new_x, new_y).

(** [_apply_physics(vx, vy, gravity, speed_factor, dt)] *)
Definition _apply_physics (vx vy gravity speed_factor dt : scalar) : scalar * scalar :=
  let vy := Scalar.add vy (mul gravity dt) in
  let vx := mul vx speed_factor in
  let vy := mul vy speed_factor in
  (vx, vy).

(** The [try] block of [_update_single_marker]: the new content of the
    dict, or the exception that leaves the block before the dict is
    assigned to. *)
Definition update_single_marker_body (marker : marker) (fitted_vector : scalar * scalar)
    (dt gravity speed_factor cell_size : scalar) (w h : nat) : result MarkerSystem.marker :=
  let '(x, y, mag, vx, vy) :=
    (key_x marker, key_y marker, key_mag marker, key_vx marker, key_vy marker) in
  let '(fitted_vx, fitted_vy) := fitted_vector in
  qx ← truediv fitted_vx mag;
  let vx := Scalar.add vx qx in
  qy ← truediv fitted_vy mag;
  let vy := Scalar.add vy qy in
  '(vx, vy) ← _clamp_velocity vx vy cell_size;
  let '(x, y) := _update_position x y vx vy dt w h in
  let '(vx, vy) := _apply_physics vx vy gravity speed_factor dt in
  Ok {| key_x := x; key_y := y; key_mag := mag; key_vx := vx; key_vy := vy |}.

(** [_update_single_marker(marker, fitted_vector, dt, gravity, speed_factor,
    cell_size, w, h)] on the content of the dict: both branches return the
    dict that was passed in, updated in place in the first one and untouched
    in the [except] branch. *)
Definition _update_single_marker (marker : marker) (fitted_vector : scalar * scalar)
    (dt gravity speed_factor cell_size : scalar) (w h : nat) : MarkerSystem.marker :=
  try_except
    (update_single_marker_body marker fitted_vector dt gravity speed_factor cell_size w h)
    (fun _ => marker).

(** The loop of [update_markers]: every dict of [self.markers] is updated in
    place with the vector sampled for its index and appended to
    [new_markers] (the test [if updated_marker] holds of every dict with
    keys). *)
Fixpoint update_loop (h : gmap loc pyobj) (items : list loc)
    (fitted_vectors : list (scalar * scalar))
    (dt gravity speed_factor cell_size : scalar) (gw gh : nat)
    (new_markers : list loc) : result (gmap loc pyobj * list loc) :=
  match items, fitted_vectors with
  | [], _ => Ok (h, new_markers)
  | _ :: _, [] => Raise IndexError
  | l :: items, fv :: fitted_vectors =>
      marker ← marker_at h l;
      let updated := _update_single_marker marker fv dt gravity speed_factor
                       cell_size gw gh in
      update_loop (<[l := PyDict updated]> h) items fitted_vectors
        dt gravity speed_factor cell_size gw gh (new_markers ++ [l])
  end.

(** [_update_markers_list(new_markers)] *)
Definition _update_markers_list (s : state) (new_markers : list loc) : state :=
  let '(l, h) := alloc (heap s) (PyList new_markers) in
  _sync_to_state_manager
    {| heap := h; markers := l; state_markers := state_markers s |}.

(** [update_markers(grid, dt, gravity, speed_factor)]; [cell_size] is the
    entry "cell_size" of the state manager.  An [ndarray] always passes
    [_is_valid_grid]. *)
Definition update_markers (s : state) (grid : ndarray)
    (dt gravity speed_factor cell_size : scalar) : result state :=
  let s := _sync_markers_from_state s in
  let h := height grid in
  let w := width grid in
  marker_positions ← _collect_marker_positions s;
  fitted_vectors ← _fit_vectors_batch grid marker_positions;
  items ← list_items (heap s) (markers s);
  '(hp, new_markers) ← update_loop (heap s) items fitted_vectors
                         dt gravity speed_factor cell_size w h [];
  Ok (_update_markers_list
        {| heap := hp; markers := markers s; state_markers := state_markers s |}
        new_markers).

(** [batch_create_tiny_vectors_from_markers(grid, markers)], with the
    sequential backend active in the dispatcher. *)
Definition batch_create_tiny_vectors_from_markers (s : state) (grid : ndarray)
    (markers : loc) : result ndarray :=
  items ← list_items (heap s) markers;
  tiny_vector_positions ←
    mapM (fun l => m ← marker_at (heap s) l;
                   Ok (value (key_x m), value (key_y m), value (key_mag m))) items;
  match tiny_vector_positions with
  | [] => Ok grid
  | _ => CPU.create_tiny_vectors_batch grid tiny_vector_positions
  end.

(** [update_field_and_markers(grid, dt, gravity, speed_factor)]: the grid
    and the particle set after the tick. *)
Definition update_field_and_markers (s : state) (grid : ndarray)
    (dt gravity speed_factor cell_size : scalar) : result (ndarray * state) :=
  grid ← batch_create_tiny_vectors_from_markers s grid (markers s);
  s ← update_markers s grid dt gravity speed_factor cell_size;
  Ok (grid, s).

(** What the particle set holds: the content of the dicts that
    [self.markers] refers to, in order. *)
Definition stored_particles (s : state) : result (list marker) :=
  items ← list_items (heap s) (markers s);
  mapM (marker_at (heap s)) items.

End MarkerSystem.

(* ===================================================================== *)
(** * GPUVectorFieldCalculator  (src/gravitas/compute/gpu_vector_field.py) *)
(* ===================================================================== *)

Module GPU.

(** What one OpenCL platform answers to [get_devices]: the number of
    devices of each type, or the exception pyopencl raises. *)
Record platform : Type := {
  gpu_devices : result nat;
  cpu_devices : result nat
}.

(** The OpenCL installation as [_init_opencl] observes it. *)
Record opencl : Type := {
  get_platforms : result (list platform);
  create_context : result unit;
  create_queue : result unit;
  build_programs : result unit
}.

(** The part of the object the dispatcher depends on. *)
Record calculator : Type := {
  _initialized : bool
}.

(** The [try] block of [_init_opencl]. *)
Definition init_opencl_body (cl : opencl) : result unit :=
  platforms ← get_platforms cl;
  match platforms with
  | [] => Raise RuntimeError
  | platform :: _ =>
      devices ← gpu_devices platform;
      devices ← (if (devices =? 0)%nat
                 then devices ← cpu_devices platform;
                      if (devices =? 0)%nat then Raise RuntimeError else Ok devices
                 else Ok devices);
      _ ← create_context cl;
      _ ← create_queue cl;
      _ ← build_programs cl;
      Ok ()
  end.

(** [_init_opencl()]: every exception is caught and recorded in
    [_initialized]. *)
Definition _init_opencl (cl : opencl) : calculator :=
  try_except (_ ← init_opencl_body cl; Ok {| _initialized := true |})
             (fun _ => {| _initialized := false |}).

(** [GPUVectorFieldCalculator()]: the constructor sets the fields and calls
    [_init_opencl]; the event bus catches what the handlers of the published
    events raise. *)
Definition new (cl : opencl) : result calculator := Ok (_init_opencl cl).

(** ** The compute methods

    [add_vector_at_position], [create_tiny_vector] and
    [fit_vector_at_position] are the statements of the sequential backend
    behind a test of [_initialized].  The batch methods hand the work to
    OpenCL kernels, whose programs are not Python: what a kernel leaves in
    its output buffer (or the exception pyopencl raises) is a parameter. *)

(** [add_vector_at_position(grid, x, y, vx, vy)] *)
Definition add_vector_at_position (c : calculator) (grid : ndarray) (x y vx vy : xreal)
  : result ndarray :=
  if negb (_initialized c) then Ok grid
  else CPU.add_vector_at_position grid x y vx vy.

(** [create_tiny_vector(grid, x, y, mag)] *)
Definition create_tiny_vector (c : calculator) (grid : ndarray) (x y mag : xreal)
  : result ndarray :=
  if negb (_initialized c) then Ok grid
  else
    let x := CPU.clamp_coordinate (width grid) x in
    let y := CPU.clamp_coordinate (height grid) y in
    foldl
      (fun acc '(dx, dy) =>
         g ← acc;
         add_vector_at_position c g (xadd x (of_Z dx)) (xadd y (of_Z dy))
           (xmul (of_Z dx) mag) (xmul (of_Z dy) mag))
      (Ok grid) CPU.cross_offsets.

(** [fit_vector_at_position(grid, x, y)] *)
Definition fit_vector_at_position (c : calculator) (grid : ndarray) (x y : xreal)
  : result vec2 :=
  if negb (_initialized c) then Raise RuntimeError
  else CPU.fit_vector_at_position grid x y.

Section Kernels.

(** The cells the kernel [create_tiny_vectors_batch_kernel] leaves in the
    temporary buffer of a [w x h] grid. *)
Variable seed_kernel :
  nat -> nat -> list (xreal * xreal * xreal) -> result (nat -> nat -> vec2).

(** The rows the kernel [fit_vectors_at_positions_batch_kernel] leaves in
    the result buffer. *)
Variable sample_kernel : ndarray -> list (xreal * xreal) -> result (nat -> vec2).

(** [create_tiny_vectors_batch(grid, positions)]: [grid += temp_grid] at
    the end. *)
Definition create_tiny_vectors_batch (c : calculator) (grid : ndarray)
    (positions : list (xreal * xreal * xreal)) : result ndarray :=
  if negb (_initialized c) then Raise RuntimeError
  else
    match positions with
    | [] => Ok grid
    | _ =>
        temp ← seed_kernel (width grid) (height grid) positions;
        NumPy.add grid {| height := height grid; width := width grid; cell := temp |}
    end.

(** [fit_vectors_at_positions_batch(grid, positions)] *)
Definition fit_vectors_at_positions_batch (c : calculator) (grid : ndarray)
    (positions : list (xreal * xreal)) : result (list vec2) :=
  if negb (_initialized c) then Raise RuntimeError
  else
    match positions with
    | [] => Ok []
    | _ =>
        results ← sample_kernel grid positions;
        Ok (map results (seq 0 (length positions)))
    end.

End Kernels.

End GPU.

(* ===================================================================== *)
(** * VectorFieldCalculator  (src/gravitas/compute/vector_field.py) *)
(* ===================================================================== *)

Module Dispatcher.

(** The events the dispatcher publishes: [APP_INITIALIZED] with
    [{"device": device}]. *)
Inductive event : Type :=
| DeviceEvent (device : string).

Record calculator : Type := {
  _gpu_calculator : option GPU.calculator;
  _current_device : string;
  (** the entry "compute_device" of the configuration manager *)
  config_compute_device : string;
  (** the events handed to the subscribers of the event bus so far *)
  published : list event
}.

(** [VectorFieldCalculator()] *)
Definition new (cl : GPU.opencl) (compute_device : string) : calculator :=
  {| _gpu_calculator :=
       try_except (g ← GPU.new cl; Ok (Some g)) (fun _ => None);
     _current_device := compute_device;
     config_compute_device := compute_device;
     published := [] |}.

(** [set_device(device)].  [budget] is the number of nested [publish] calls
    the event bus still accepts ([_max_recursion_depth - _recursion_depth],
    10 outside any handler): the dispatcher subscribes to the very event it
    publishes, and its [handle] calls [set_device] again. *)
Fixpoint set_device (budget : nat) (d : calculator) (device : string)
  : bool * calculator :=
  if negb (bool_decide (device ∈ ["cpu"; "gpu"]))
  then (false, d)
  else if bool_decide (device = "gpu") && bool_decide (_gpu_calculator d = None)
  then (false, d)
  else
    let d := {| _gpu_calculator := _gpu_calculator d;
                _current_device := device;
                config_compute_device := device;
                published := published d |} in
    let d :=
      match budget with
      | O => d
      | S budget =>
          let d := {| _gpu_calculator := _gpu_calculator d;
                      _current_device := _current_device d;
                      config_compute_device := config_compute_device d;
                      published := published d ++ [DeviceEvent device] |} in
          (set_device budget d device).2
      end in
    (true, d).

(** The backend a compute call is routed to:
    [self._gpu_calculator if self._current_device == "gpu" and
     self._gpu_calculator else self._cpu_calculator]. *)
Inductive backend : Type :=
| Sequential
| Accelerated (g : GPU.calculator).

Definition active_calculator (d : calculator) : backend :=
  match _gpu_calculator d with
  | Some g => if bool_decide (_current_device d = "gpu") then Accelerated g
              else Sequential
  | None => Sequential
  end.

(** ** The compute calls

    Every compute method selects the backend with the expression modelled
    by [active_calculator]; both backend classes have the batch methods, so
    the [hasattr] tests hold. *)
Section Kernels.

Variable seed_kernel :
  nat -> nat -> list (xreal * xreal * xreal) -> result (nat -> nat -> vec2).
Variable sample_kernel : ndarray -> list (xreal * xreal) -> result (nat -> vec2).

(** [create_tiny_vectors_batch(grid, positions)] *)
Definition create_tiny_vectors_batch (d : calculator) (grid : ndarray)
    (positions : list (xreal * xreal * xreal)) : result ndarray :=
  match active_calculator d with
  | Sequential => CPU.create_tiny_vectors_batch grid positions
  | Accelerated g => GPU.create_tiny_vectors_batch seed_kernel g grid positions
  end.

(** [fit_vectors_at_positions_batch(grid, positions)] *)
Definition fit_vectors_at_positions_batch (d : calculator) (grid : ndarray)
    (positions : list (xreal * xreal)) : result (list vec2) :=
  match active_calculator d with
  | Sequential => CPU.fit_vectors_at_positions_batch grid positions
  | Accelerated g => GPU.fit_vectors_at_positions_batch sample_kernel g grid positions
  end.

End Kernels.

(** [add_vector_at_position(grid, x, y, vx, vy)] *)
Definition add_vector_at_position (d : calculator) (grid : ndarray) (x y vx vy : xreal)
  : result ndarray :=
  match active_calculator d with
  | Sequential => CPU.add_vector_at_position grid x y vx vy
  | Accelerated g => GPU.add_vector_at_position g grid x y vx vy
  end.

(** [fit_vector_at_position(grid, x, y)] *)
Definition fit_vector_at_position (d : calculator) (grid : ndarray) (x y : xreal)
  : result vec2 :=
  match active_calculator d with
  | Sequential => CPU.fit_vector_at_position grid x y
  | Accelerated g => GPU.fit_vector_at_position g grid x y
  end.

(** The branch of [handle] for a CONFIG_CHANGED event whose data holds
    [key] under "key" and the string [new_value] under "new_value" ([None]
    for an absent entry); an empty string is falsy. *)
Definition handle_config_changed (d : calculator) (key new_value : option string)
  : calculator :=
  if bool_decide (key = Some "compute_device")
  then
    match new_value with
    | Some new_device =>
        if negb (bool_decide (new_device = "")) &&
           negb (bool_decide (new_device = _current_device d))
        then
          if bool_decide (new_device = "gpu") && bool_decide (_gpu_calculator d = None)
          then d
          else {| _gpu_calculator := _gpu_calculator d;
                  _current_device := new_device;
                  config_compute_device := config_compute_device d;
                  published := published d |}
        else d
    | None => d
    end
  else d.

End Dispatcher.

(* ===================================================================== *)
(** * GridManager.load_grid  (src/gravitas/core/app.py) *)
(* ===================================================================== *)

Module GridManager.

(** A numpy array as [np.load] returns it: any shape, the elements in
    row-major order. *)
Record array : Type := {
  arr_shape : list nat;
  arr_data : list xreal
}.

Inductive event : Type :=
| GRID_LOADED (file_path : string) (shape : list nat).

Record manager : Type := {
  _grid : option array;
  (** entries of the state manager *)
  grid_width : nat;
  grid_height : nat;
  grid_updated : bool;
  (** events published so far *)
  published : list event
}.

(** The file system as [load_grid] observes it: [None] when
    [os.path.exists] is false, otherwise what [np.load] does. *)
Definition files : Type := string -> option (result array).

(** [shape[i]] on a tuple *)
Definition shape_item (shape : list nat) (i : nat) : result nat :=
  match shape !! i with
  | Some n => Ok n
  | None => Raise IndexError
  end.

(** The statements of [load_grid] under the lock.  The manager is updated
    in place as they run, so it is returned together with the outcome. *)
Definition load_grid_locked (m : manager) (file_path : string) (loaded_grid : array)
  : manager * result bool :=
  let mismatch :=
    match _grid m with
    | Some grid => negb (bool_decide (arr_shape loaded_grid = arr_shape grid))
    | None => false
    end in
  if mismatch then (m, Ok false)
  else
    let m := {| _grid := Some loaded_grid;
                grid_width := grid_width m; grid_height := grid_height m;
                grid_updated := grid_updated m; published := published m |} in
    match shape_item (arr_shape loaded_grid) 1 with
    | Raise e => (m, Raise e)
    | Ok w =>
        match shape_item (arr_shape loaded_grid) 0 with
        | Raise e => (m, Raise e)
        | Ok h =>
            ({| _grid := _grid m; grid_width := w; grid_height := h;
                grid_updated := true;
                published := published m
                               ++ [GRID_LOADED file_path (arr_shape loaded_grid)] |},
             Ok true)
        end
    end.

(** [load_grid(file_path)] *)
Definition load_grid (fs : files) (m : manager) (file_path : string)
  : bool * manager :=
  match fs file_path with
  | None => (false, m)
  | Some (Raise _) => (false, m)
  | Some (Ok loaded_grid) =>
      let '(m, r) := load_grid_locked m file_path loaded_grid in
      (try_except r (fun _ => false), m)
  end.

(** ** [save_grid] *)

(** [s.endswith(suffix)] *)
Fixpoint endswith (s suffix : string) : bool :=
  (String.eqb s suffix ||
   match s with
   | EmptyString => false
   | String _ s' => endswith s' suffix
   end)%bool.

(** The file [np.save(file, arr)] writes for a file name: numpy appends
    ".npy" to a name that does not end with it. *)
Definition npy_name (file : string) : string :=
  if endswith file ".npy" then file else (file ++ ".npy")%string.

(** [np.save(file_path, arr)] on a file system where the files [writable]
    can be written: the file system afterwards, or [None] when the call
    raises. *)
Definition np_save (writable : string -> bool) (fs : files) (file_path : string)
    (arr : array) : option files :=
  if writable (npy_name file_path)
  then Some (fun p => if String.eqb p (npy_name file_path) then Some (Ok arr) else fs p)
  else None.

(** The event [save_grid] publishes: [GRID_SAVED] with the file path and
    the shape. *)
Inductive save_event : Type :=
| GRID_SAVED (file_path : string) (shape : list nat).

(** [save_grid(file_path)]: the value returned, the file system afterwards
    and the event published, if any.  The manager itself is not
    assigned to. *)
Definition save_grid (writable : string -> bool) (fs : files) (m : manager)
    (file_path : string) : bool * files * option save_event :=
  match _grid m with
  | Some grid =>
      match np_save writable fs file_path grid with
      | Some fs' => (true, fs', Some (GRID_SAVED file_path (arr_shape grid)))
      | None => (false, fs, None)
      end
  | None => (false, fs, None)
  end.

End GridManager.

(* ===================================================================== *)
(** * MarkerSystem over the dispatcher *)
(* ===================================================================== *)

(** The methods of src/plugins/marker_system.py that call
    [self.vector_calculator], with the dispatcher in an arbitrary state
    instead of the sequential backend that module [MarkerSystem] fixes. *)
Module Routed.
Import MarkerSystem.

Section Kernels.

Variable seed_kernel :
  nat -> nat -> list (xreal * xreal * xreal) -> result (nat -> nat -> vec2).
Variable sample_kernel : ndarray -> list (xreal * xreal) -> result (nat -> vec2).
Variable d : Dispatcher.calculator.

(** [_fit_vectors_batch(grid, positions)] *)
Definition _fit_vectors_batch (grid : ndarray) (positions : list (scalar * scalar))
  : result (list (scalar * scalar)) :=
  vs ← Dispatcher.fit_vectors_at_positions_batch sample_kernel d grid
         (map (fun p => (value p.1, value p.2)) positions);
  Ok (map (fun v : vec2 => (np_float v.1, np_float v.2)) vs).

(** [update_markers(grid, dt, gravity, speed_factor)] *)
Definition update_markers (s : state) (grid : ndarray)
    (dt gravity speed_factor cell_size : scalar) : result state :=
  let s := _sync_markers_from_state s in
  let h := height grid in
  let w := width grid in
  marker_positions ← _collect_marker_positions s;
  fitted_vectors ← _fit_vectors_batch grid marker_positions;
  items ← list_items (heap s) (markers s);
  '(hp, new_markers) ← update_loop (heap s) items fitted_vectors
                         dt gravity speed_factor cell_size w h [];
  Ok (_update_markers_list
        {| heap := hp; markers := markers s; state_markers := state_markers s |}
        new_markers).

(** [batch_create_tiny_vectors_from_markers(grid, markers)] *)
Definition batch_create_tiny_vectors_from_markers (s : state) (grid : ndarray)
    (markers : loc) : result ndarray :=
  items ← list_items (heap s) markers;
  tiny_vector_positions ←
    mapM (fun l => m ← marker_at (heap s) l;
                   Ok (value (key_x m), value (key_y m), value (key_mag m))) items;
  match tiny_vector_positions with
  | [] => Ok grid
  | _ => Dispatcher.create_tiny_vectors_batch seed_kernel d grid tiny_vector_positions
  end.

(** [update_field_and_markers(grid, dt, gravity, speed_factor)] *)
Definition update_field_and_markers (s : state) (grid : ndarray)
    (dt gravity speed_factor cell_size : scalar) : result (ndarray * state) :=
  grid ← batch_create_tiny_vectors_from_markers s grid (markers s);
  s ← update_markers s grid dt gravity speed_factor cell_size;
  Ok (grid, s).

End Kernels.

End Routed.

(* ===================================================================== *)
(** * StateManager  (src/gravitas/core/state.py) *)
(* ===================================================================== *)

(** The state manager behind [app_core.state_manager]: a dict of values, a
    bounded history of changes, and listeners per key.  A stored value is
    [None] (Python's None) or [Some v]; values are compared with equality,
    which is what [!=] is on values other than nan and arrays.  Listeners
    are callbacks that do not call the state manager themselves; a call of
    a listener is recorded in [calls], and what the callback raises is
    caught by [_notify_listeners].  Time stamps are left out. *)
Module StateManager.

(** A stored value is None or a value of [V]. *)
Definition pyval (V : Type) : Type := option V.

(** Python's [a != b] on the stored values.  It is whatever the objects
    make of it: a float nan differs from itself, 1 does not differ from
    1.0 or from True. *)
Class PyNe (V : Type) : Type := py_ne : pyval V -> pyval V -> bool.

(** The ints, as an instance. *)
#[export] Instance int_ne : PyNe Z := fun a b => negb (bool_decide (a = b)).

Section Values.

(** The values and the callbacks; a callback is looked up in a list of
    callbacks with [in], and is called without the manager at hand: a
    listener does not write to the manager it listens to. *)
Context {V C : Type} `{PyNe V} `{EqDecision C}.

Record StateChange : Type := {
  key : string;
  old_value : pyval V;
  new_value : pyval V
}.

Record manager : Type := {
  _state : gmap string (pyval V);
  _listeners : gmap string (list C);
  _change_history : list StateChange;
  _max_history_size : nat;
  (** the calls [callback(key, old_value, new_value)] made so far *)
  calls : list (C * string * pyval V * pyval V)
}.

(** [StateManager()] *)
Definition new : manager :=
  {| _state := ∅; _listeners := ∅; _change_history := [];
     _max_history_size := 100; calls := [] |}.

(** [get(key, default)] *)
Definition get (m : manager) (key : string) (default : pyval V) : pyval V :=
  match _state m !! key with
  | Some v => v
  | None => default
  end.

(** [contains(key)] *)
Definition contains (m : manager) (key : string) : bool :=
  bool_decide (is_Some (_state m !! key)).

(** [_notify_listeners(key, old_value, new_value)] *)
Definition _notify_listeners (m : manager) (key : string) (old_value new_value : pyval V)
  : manager :=
  match _listeners m !! key with
  | Some callbacks =>
      {| _state := _state m; _listeners := _listeners m;
         _change_history := _change_history m;
         _max_history_size := _max_history_size m;
         calls := calls m ++ map (fun cb => (cb, key, old_value, new_value)) callbacks |}
  | None => m
  end.

(** [set(key, value, notify)] *)
Definition set (m : manager) (key : string) (value : pyval V) (notify : bool) : manager :=
  let old_value := get m key None in
  let history := _change_history m
                   ++ [{| key := key; old_value := old_value; new_value := value |}] in
  let history := if (_max_history_size m <? length history)%nat
                 then tail history else history in
  let m := {| _state := <[key := value]> (_state m); _listeners := _listeners m;
              _change_history := history;
              _max_history_size := _max_history_size m; calls := calls m |} in
  if notify && py_ne old_value value
  then _notify_listeners m key old_value value
  else m.

(** [update(updates, notify)]; [updates] lists the items of the dict in
    its order. *)
Definition update (m : manager) (updates : list (string * pyval V)) (notify : bool)
  : manager :=
  foldl (fun m '(key, value) => set m key value notify) m updates.

(** [remove(key)] *)
Definition remove (m : manager) (key : string) : bool * manager :=
  match _state m !! key with
  | Some old_value =>
      let m := {| _state := delete key (_state m); _listeners := _listeners m;
                  _change_history :=
                    _change_history m
                      ++ [{| key := key; old_value := old_value; new_value := None |}];
                  _max_history_size := _max_history_size m; calls := calls m |} in
      (true, match old_value with
             | Some _ => _notify_listeners m key old_value None
             | None => m
             end)
  | None => (false, m)
  end.

(** [add_listener(key, callback)] *)
Definition add_listener (m : manager) (key : string) (callback : C) : manager :=
  let callbacks := match _listeners m !! key with Some l => l | None => [] end in
  {| _state := _state m;
     _listeners := <[key := if bool_decide (callback ∈ callbacks) then callbacks
                            else callbacks ++ [callback]]> (_listeners m);
     _change_history := _change_history m;
     _max_history_size := _max_history_size m; calls := calls m |}.

(** [l.remove(x)]: the first occurrence goes. *)
Fixpoint list_remove_first (x : C) (l : list C) : list C :=
  match l with
  | [] => []
  | y :: l => if bool_decide (x = y) then l else y :: list_remove_first x l
  end.

(** [remove_listener(key, callback)] *)
Definition remove_listener (m : manager) (key : string) (callback : C) : manager :=
  match _listeners m !! key with
  | Some callbacks =>
      if bool_decide (callback ∈ callbacks)
      then {| _state := _state m;
              _listeners := <[key := list_remove_first callback callbacks]> (_listeners m);
              _change_history := _change_history m;
              _max_history_size := _max_history_size m; calls := calls m |}
      else m
  | None => m
  end.

(** [[change for change in history if change.key == k]] *)
Definition changes_of (k : string) (history : list StateChange) : list StateChange :=
  filter (fun change => key change = k) history.

(** [get_change_history(key, limit)]: [history[-limit:]] keeps the last
    [limit] entries, all of them when there are fewer. *)
Definition get_change_history (m : manager) (key : option string) (limit : option Z)
  : list StateChange :=
  let history := _change_history m in
  let history :=
    match key with
    | Some k => changes_of k history
    | None => history
    end in
  match limit with
  | Some n => if (0 <? n)%Z then drop (length history - Z.to_nat n) history else history
  | None => history
  end.

End Values.

Arguments StateChange : clear implicits.
Arguments manager : clear implicits.

End StateManager.

(* ===================================================================== *)
(** * EventBus  (src/gravitas/core/events.py) *)
(* ===================================================================== *)

(** The synchronous part of the event bus.  Handlers are objects with an
    identity; what a handler does when it is called is a parameter: it
    works on a world of its own, it may publish events itself, and it may
    raise.  It does not subscribe or unsubscribe while an event is being
    dispatched.  A computation is described by the world it leaves and
    the exception it ends with, if any, since what was done before an
    exception stays done. *)
Module EventBus.

Inductive EventType : Type :=
| GRID_UPDATED | GRID_UPDATE_REQUEST | GRID_CLEARED | GRID_LOADED | GRID_SAVED
| TOGGLE_GRID | CLEAR_GRID
| VECTOR_UPDATED | SET_MAGNITUDE | TOGGLE_REVERSE_VECTOR
| VIEW_CHANGED | VIEW_RESET | RESET_VIEW
| SET_BRUSH_SIZE
| APP_INITIALIZED | APP_SHUTDOWN
| CONFIG_CHANGED
| ASYNC_EVENT_PROCESSED
| GPU_COMPUTE_STARTED | GPU_COMPUTE_COMPLETED | GPU_COMPUTE_ERROR
| MOUSE_CLICKED | MOUSE_MOVED | MOUSE_SCROLLED
| KEY_PRESSED | KEY_RELEASED.

#[global] Instance EventType_eq_dec : EqDecision EventType.
Proof. solve_decision. Defined.

(** The world a computation leaves, and the exception it raises. *)
Definition outcome (W : Type) : Type := (W * option exn)%type.

Section Bus.

(** Handler objects, the data dicts of events, the world of the
    handlers. *)
Context {H D W : Type} `{EqDecision H}.

Record Event : Type := {
  type : EventType;
  data : option D;
  source : option string
}.

(** The method [filter(event)] of a filter object. *)
Definition EventFilter : Type := Event -> result bool.

(** [_handlers] and [_filters]: an event type without entry has the empty
    list, which is how every method reads the two dicts. *)
Record bus : Type := {
  _handlers : EventType -> list H;
  _filters : EventType -> list EventFilter;
  _async_enabled : bool
}.

(** [EventBus()] *)
Definition new : bus :=
  {| _handlers := fun _ => []; _filters := fun _ => []; _async_enabled := true |}.

(** [d[event_type] = l] *)
Definition assign {A} (d : EventType -> A) (event_type : EventType) (l : A)
  : EventType -> A :=
  fun t => if bool_decide (t = event_type) then l else d t.

(** [subscribe(event_type, handler, filter)] *)
Definition subscribe (b : bus) (event_type : EventType) (handler : H)
    (filter : option EventFilter) : bus :=
  if bool_decide (handler ∈ _handlers b event_type) then b
  else
    {| _handlers := assign (_handlers b) event_type (_handlers b event_type ++ [handler]);
       _filters :=
         match filter with
         | Some f => assign (_filters b) event_type (_filters b event_type ++ [f])
         | None => _filters b
         end;
       _async_enabled := _async_enabled b |}.

(** [l.remove(x)]: the first occurrence goes. *)
Fixpoint list_remove_first (x : H) (l : list H) : list H :=
  match l with
  | [] => []
  | y :: l => if bool_decide (x = y) then l else y :: list_remove_first x l
  end.

(** [unsubscribe(event_type, handler)] *)
Definition unsubscribe (b : bus) (event_type : EventType) (handler : H) : bus :=
  if bool_decide (handler ∈ _handlers b event_type)
  then
    let handlers := list_remove_first handler (_handlers b event_type) in
    {| _handlers := assign (_handlers b) event_type handlers;
       _filters := match handlers with
                   | [] => assign (_filters b) event_type []
                   | _ => _filters b
                   end;
       _async_enabled := _async_enabled b |}
  else b.

(** [clear()] *)
Definition clear (b : bus) : bus :=
  {| _handlers := fun _ => []; _filters := fun _ => [];
     _async_enabled := _async_enabled b |}.

(** [enable_async(enabled)] *)
Definition enable_async (b : bus) (enabled : bool) : bus :=
  {| _handlers := _handlers b; _filters := _filters b; _async_enabled := enabled |}.

(** [get_handler_count(event_type)] *)
Definition get_handler_count (b : bus) (event_type : EventType) : nat :=
  length (_handlers b event_type).

(** The loop [for filter in filters: if not filter.filter(event): return]:
    whether the event passes. *)
Fixpoint passes (filters : list EventFilter) (event : Event) : result bool :=
  match filters with
  | [] => Ok true
  | f :: filters =>
      accepted ← f event;
      if accepted : bool then passes filters event else Ok false
  end.

(** What [handler.handle(event)] does to the world, given what [publish]
    does: a handler may publish events of its own, at the depth it runs
    at.  The subscriptions are those of the bus for the whole dispatch: the
    handlers subscribe in their constructors, not while they handle. *)
Variable handle : H -> (Event -> W -> outcome W) -> Event -> W -> outcome W.

(** The data dicts of the two events the bus builds itself, from the
    string forms of the original event and of the exception. *)
Variable error_data : Event -> exn -> D.
Variable async_data : Event -> D.

Definition error_event (original_event : Event) (error : exn) : Event :=
  {| type := GPU_COMPUTE_ERROR; data := Some (error_data original_event error);
     source := Some "EventBus" |}.

Definition async_event (event : Event) : Event :=
  {| type := ASYNC_EVENT_PROCESSED; data := Some (async_data event);
     source := Some "EventBus" |}.

(** [publish(event)].  [budget] is the number of nested dispatches the bus
    still accepts, [_max_recursion_depth - _recursion_depth]: the depth
    grows by one around the handlers and is restored by the [finally]. *)
Fixpoint publish (budget : nat) (b : bus) (event : Event) (w : W) : outcome W :=
  match budget with
  | O => (w, None)
  | S budget =>
      match passes (_filters b (type event)) event with
      | Raise e => (w, Some e)
      | Ok false => (w, None)
      | Ok true =>
          let w :=
            fold_left
              (fun w handler =>
                 match handle handler (publish budget b) event w with
                 | (w, None) => w
                 | (w, Some e) =>
                     (* _publish_error_event: try: publish / except: pass *)
                     (publish budget b (error_event event e) w).1
                 end)
              (_handlers b (type event)) w in
          if _async_enabled b &&
             negb (bool_decide (type event ∈ [ASYNC_EVENT_PROCESSED; APP_INITIALIZED]))
          then publish budget b (async_event event) w
          else (w, None)
      end
  end.

End Bus.

Arguments Event : clear implicits.
Arguments EventFilter : clear implicits.
Arguments bus : clear implicits.

End EventBus.

(* ------------------------------------------------------------------ *)
(** ** [ConfigManager] (gravitas/core/config.py) *)

Module ConfigManager.

Import StateManager (pyval, PyNe, py_ne).
Import Stdlib.Strings.Ascii.

(** The classes [_validate_value] tests a value against; [int_float] is
    the pair [(int, float)]. *)
Inductive pyclass : Type := bool_ | int_float | list_ | dict_ | str_.

(** What the manager asks of a value that is not None: [isinstance], and
    [<] and [>] against the bounds of a number option. *)
Class PyValue (V : Type) : Type := {
  isinstance : V -> pyclass -> bool;
  py_lt : V -> V -> bool;
  py_gt : V -> V -> bool
}.

(** [s.replace(a, b)] for single characters. *)
Fixpoint replace (s : string) (a b : Ascii.ascii) : string :=
  match s with
  | EmptyString => EmptyString
  | String c s => String (if Ascii.eqb c a then b else c) (replace s a b)
  end.

Section Values.

Context {V C : Type} `{PyNe V} `{PyValue V} `{EqDecision C}.

Record ConfigOption : Type := {
  key : string;
  value : pyval V;
  default : pyval V;
  description : string;
  type : string;
  options : list (pyval V);
  min_value : option V;
  max_value : option V
}.

(** The [CONFIG_CHANGED] event of [set], with its data dict. *)
Record ConfigChanged : Type := {
  changed_key : string;
  changed_old_value : pyval V;
  changed_new_value : pyval V
}.

Record manager : Type := {
  _config_file : option string;
  _options : gmap string ConfigOption;
  _state_manager : StateManager.manager V C;
  (** the events handed to the event bus so far; the subscribers of
      [CONFIG_CHANGED] do not write to the configuration *)
  published : list ConfigChanged;
  (** the calls of [save_to_file] so far: the file, and the state to dump *)
  saved : list (string * gmap string (pyval V))
}.

(** [register_option(key, default, description, type, options, min_value,
    max_value)] *)
Definition register_option (m : manager) (key : string) (default : pyval V)
    (description type : string) (options : option (list (pyval V)))
    (min_value max_value : option V) : manager :=
  let option :=
    match _options m !! key with
    | Some (Build_ConfigOption key0 value0 default0 _ _ options0 _ _) =>
        (* the metadata of an existing option is updated *)
        {| key := key0; value := value0; default := default0;
           description := description; type := type;
           options := match options with Some l => l | None => options0 end;
           min_value := min_value; max_value := max_value |}
    | None =>
        {| key := key; value := default; default := default;
           description := description; type := type;
           options := match options with Some l => l | None => [] end;
           min_value := min_value; max_value := max_value |}
    end in
  {| _config_file := _config_file m;
     _options := <[key := option]> (_options m);
     _state_manager :=
       if StateManager.contains (_state_manager m) key then _state_manager m
       else StateManager.set (_state_manager m) key default false;
     published := published m; saved := saved m |}.

(** [get(key, default)] *)
Definition get (m : manager) (key : string) (default : pyval V) : pyval V :=
  let flat_key := replace key "."%char "_"%char in
  match _options m !! flat_key with
  | Some option => StateManager.get (_state_manager m) flat_key (value option)
  | None => StateManager.get (_state_manager m) flat_key default
  end.

(** [isinstance(value, cls)]; None is an instance of none of the
    classes. *)
Definition is_a (value : pyval V) (cls : pyclass) : bool :=
  match value with
  | Some v => isinstance v cls
  | None => false
  end.

(** [_validate_value(value, option)] *)
Definition _validate_value (value : pyval V) (option : ConfigOption) : bool :=
  if String.eqb (type option) "boolean" then is_a value bool_
  else if String.eqb (type option) "number" then
    match value with
    | Some v =>
        if negb (isinstance v int_float) then false
        else if match min_value option with Some lo => py_lt v lo | None => false end
        then false
        else if match max_value option with Some hi => py_gt v hi | None => false end
        then false
        else true
    | None => false
    end
  else if String.eqb (type option) "array" then is_a value list_
  else if String.eqb (type option) "object" then is_a value dict_
  else is_a value str_.

(** [if self._config_file: self.save_to_file(self._config_file)]; what
    [save_to_file] does with the file system stays inside its [try]. *)
Definition save (m : manager) : manager :=
  match _config_file m with
  | Some file =>
      if String.eqb file "" then m
      else {| _config_file := _config_file m; _options := _options m;
              _state_manager := _state_manager m; published := published m;
              saved := saved m ++ [(file, StateManager._state (_state_manager m))] |}
  | None => m
  end.

(** [option.value] *)
Definition option_value (option : ConfigOption) : pyval V := value option.

(** [set(key, value)]; None stands for the [KeyError] of
    [self._options[flat_key]]. *)
Definition set (m : manager) (key : string) (value : pyval V)
  : option (bool * manager) :=
  let flat_key := replace key "."%char "_"%char in
  let m :=
    match _options m !! flat_key with
    | Some _ => m
    | None => register_option m flat_key value ("Dynamic option: " ++ key) "string"
                None None None
    end in
  option ← _options m !! flat_key;
  if negb (_validate_value value option) then Some (false, m)
  else
    let old_value := StateManager.get (_state_manager m) flat_key (option_value option) in
    let m := {| _config_file := _config_file m; _options := _options m;
                _state_manager := StateManager.set (_state_manager m) flat_key value true;
                published :=
                  if py_ne old_value value
                  then published m
                         ++ [{| changed_key := key; changed_old_value := old_value;
                                changed_new_value := value |}]
                  else published m;
                saved := saved m |} in
    Some (true, save m).

End Values.

Arguments ConfigOption : clear implicits.
Arguments ConfigChanged : clear implicits.
Arguments manager : clear implicits.

End ConfigManager.

(* ------------------------------------------------------------------ *)
(** ** [Controller] (plugins/controller.py) *)

Module Controller.

Import MarkerSystem.

(** The entries of the state manager that [_screen_to_grid] reads, each
    with the default of its [get] where the entry is missing. *)
Record camera : Type := {
  cam_x : scalar;
  cam_y : scalar;
  cam_zoom : scalar;
  viewport_width : scalar;
  viewport_height : scalar;
  cell_size : scalar
}.

(** [a - b] *)
Definition sub : scalar -> scalar -> scalar := binop xsub.

(** [a >= b]; false when one of the two is nan. *)
Definition xgeb (a b : xreal) : bool :=
  match a, b with
  | NaN, _ | _, NaN => false
  | _, _ => negb (xltb a b)
  end.

(** [_screen_to_grid(mx, my)] *)
Definition _screen_to_grid (c : camera) (mx my : scalar) : result (scalar * scalar) :=
  half_width ← truediv (viewport_width c) (py_float (Fin 2));
  offset_x ← truediv (sub mx half_width) (cam_zoom c);
  let world_x := add (cam_x c) offset_x in
  half_height ← truediv (viewport_height c) (py_float (Fin 2));
  offset_y ← truediv (sub my half_height) (cam_zoom c);
  let world_y := add (cam_y c) offset_y in
  gx ← truediv world_x (cell_size c);
  gy ← truediv world_y (cell_size c);
  Ok (gx, gy).

(** [gx < 0 or gx >= w or gy < 0 or gy >= h] *)
Definition off_grid (grid : ndarray) (gx gy : scalar) : bool :=
  xltb (value gx) (Fin 0) || xgeb (value gx) (of_nat (width grid))
  || xltb (value gy) (Fin 0) || xgeb (value gy) (of_nat (height grid)).

(** [((marker_x - gx) ** 2 + (marker_y - gy) ** 2) ** 0.5] *)
Definition distance (m : marker) (gx gy : scalar) : scalar :=
  pow_half (add (square (sub (key_x m) gx)) (square (sub (key_y m) gy))).

(** The loop of [handle_mouse_left_press] over the marker dicts. *)
Fixpoint closest (h : gmap loc pyobj) (gx gy : scalar) (markers : list loc)
    (min_dist : scalar) (closest_marker : option loc)
  : result (scalar * option loc) :=
  match markers with
  | [] => Ok (min_dist, closest_marker)
  | marker :: markers =>
      m ← marker_at h marker;
      let dist := distance m gx gy in
      if xltb (value dist) (value min_dist)
      then closest h gx gy markers dist (Some marker)
      else closest h gx gy markers min_dist closest_marker
  end.

(** [handle_mouse_left_press(mx, my)]: the dict it returns, by reference,
    or None; and the particle set afterwards.  Every exception ends in
    [return None]. *)
Definition handle_mouse_left_press (c : camera) (grid : ndarray) (s : state)
    (mx my : scalar) : option loc * state :=
  match _screen_to_grid c mx my with
  | Raise _ => (None, s)
  | Ok (gx, gy) =>
      if off_grid grid gx gy then (None, s)
      else
        match get_markers s with
        | Raise _ => (None, s)
        | Ok (snapshot, s) =>
            (try_except
               (markers ← list_items (heap s) snapshot;
                match markers with
                | [] => Ok None
                | _ =>
                    '(min_dist, closest_marker) ←
                      closest (heap s) gx gy markers (py_float PInf) None;
                    let threshold := py_float (Fin 5) in
                    match closest_marker with
                    | None => Ok None
                    | Some marker =>
                        if gtb min_dist threshold then Ok None else Ok (Some marker)
                    end
                end)
               (fun _ => None),
             s)
        end
  end.

End Controller.

(* ===================================================================== *)
(** * Vocabulary of the statements *)
(* ===================================================================== *)

Module GridSpec.

(** The corner cells of a splat at clamped coordinates [(cx, cy)]. *)
Definition corner (h w : nat) (cx cy : R) (i j : nat) : Prop :=
  let x0 := Zfloor cx in
  let x1 := Z.min (x0 + 1) (Z.of_nat w - 1) in
  let y0 := Zfloor cy in
  let y1 := Z.min (y0 + 1) (Z.of_nat h - 1) in
  (Z.of_nat i = y0 \/ Z.of_nat i = y1) /\ (Z.of_nat j = x0 \/ Z.of_nat j = x1) /\
  (i < h)%nat /\ (j < w)%nat.

(** A grid whose cells all hold finite values, given by two real-valued
    functions. *)
Definition holds (g : ndarray) (fx fy : nat -> nat -> R) : Prop :=
  forall i j, cell g i j = (Fin (fx i j), Fin (fy i j)).

(** [f] with [d] added at [(i, j)]. *)
Definition bump (f : nat -> nat -> R) (i j : nat) (d : R) : nat -> nat -> R :=
  fun i' j' => if (i' =? i)%nat && (j' =? j)%nat then (f i' j' + d)%R else f i' j'.

(** The index [k] of an axis of length [n], clamped to the axis: what
    edge-replicated padding makes of a neighbour index. *)
Definition edge_clamp (n : nat) (k : Z) : nat :=
  Z.to_nat (Z.max 0 (Z.min k (Z.of_nat n - 1))).

(** The weighted sum of a cell and of its four axis neighbours, a
    neighbour index outside the grid being replaced by the nearest index
    inside (edge replication); the terms are added in the order of
    [update_grid_with_adjacent_sum]. *)
Definition diffused (g : ndarray) (self_weight neighbor_weight : xreal) (i j : nat) : vec2 :=
  let at_offset (di dj : Z) :=
    cell g (edge_clamp (height g) (Z.of_nat i + di))
           (edge_clamp (width g) (Z.of_nat j + dj)) in
  let total (p : vec2 -> xreal) :=
    xadd (xadd (xadd (xadd (xmul (p (at_offset 1%Z 0%Z)) neighbor_weight)
                           (xmul (p (at_offset (-1)%Z 0%Z)) neighbor_weight))
                     (xmul (p (at_offset 0%Z 1%Z)) neighbor_weight))
               (xmul (p (at_offset 0%Z (-1)%Z)) neighbor_weight))
         (xmul (p (cell g i j)) self_weight) in
  (total fst, total snd).

(** Numbers of moderate size, at most [2^20] in absolute value, and
    numbers that are moreover not tiny, at least [2^-20].  On such data no
    intermediate result of the code comes near the overflow or underflow
    threshold of a 32-bit or 64-bit float, so that the exact arithmetic of
    this development differs from the code's by rounding only. *)
Definition moderate (r : R) : Prop := (Rabs r <= 1048576)%R.


(** Two ways to read a field at a row [i] and a column [j] that may lie
    outside the grid: as zero there, or as the value of the nearest cell
    of the grid (edge replication). *)
Definition zero_outside (h w : nat) (f : nat -> nat -> R) (i j : Z) : R :=
  if bool_decide (0 <= i < Z.of_nat h /\ 0 <= j < Z.of_nat w)
  then f (Z.to_nat i) (Z.to_nat j)
  else 0%R.

Definition edge_replicated (h w : nat) (f : nat -> nat -> R) (i j : Z) : R :=
  f (edge_clamp h i) (edge_clamp w j).

(** The weighted sum of a field at [(i, j)] and at its four axis
    neighbours. *)
Definition five_point (field : Z -> Z -> R) (self_weight neighbor_weight : R)
    (i j : Z) : R :=
  (self_weight * field i j
   + neighbor_weight * (field (i - 1)%Z j + field (i + 1)%Z j
                        + field i (j - 1)%Z + field i (j + 1)%Z))%R.

(** The grid of [test_sum_adjacent_vectors]. *)
Definition test_grid : ndarray :=
  {| height := 5; width := 5;
     cell := update_cell (update_cell (update_cell (update_cell (update_cell
               (cell (zeros 5 5))
               1 1 (Fin 1, Fin 0)) 0 1 (Fin 0, Fin 1)) 2 1 (Fin 0, Fin (-1)))
               1 0 (Fin (-1), Fin 0)) 1 2 (Fin 2, Fin 0) |}.


(** A coordinate clamped into [[0, n - 1]]. *)
Definition clamp (n : nat) (r : R) : R := Rmax 0 (Rmin (INR n - 1) r).

(** [splat(x, y, v)] on one component [f] of the field: the coordinates
    are clamped, the value is distributed over the four surrounding cells
    with the bilinear weights, and the "+1" index is clamped to the last
    index, so that on the last row or column a cell receives several
    shares. *)
Definition spec_splat (h w : nat) (f : nat -> nat -> R) (x y v : R)
  : nat -> nat -> R :=
  let cx := clamp w x in
  let cy := clamp h y in
  let x0 := Zfloor cx in
  let x1 := Z.min (x0 + 1) (Z.of_nat w - 1) in
  let y0 := Zfloor cy in
  let y1 := Z.min (y0 + 1) (Z.of_nat h - 1) in
  let wx := (cx - IZR x0)%R in
  let wy := (cy - IZR y0)%R in
  bump (bump (bump (bump f (Z.to_nat y0) (Z.to_nat x0) ((1 - wx) * (1 - wy) * v)%R)
                (Z.to_nat y0) (Z.to_nat x1) (wx * (1 - wy) * v)%R)
          (Z.to_nat y1) (Z.to_nat x0) ((1 - wx) * wy * v)%R)
    (Z.to_nat y1) (Z.to_nat x1) (wx * wy * v)%R.

(** [splat_cross(x, y, mag)] on one component of the field: four splats,
    at the four axis neighbours of the clamped position, each of the
    offset's own component times the magnitude.  [axis] is [fst] for the x
    component of the field and [snd] for its y component. *)
Definition spec_splat_cross (h w : nat) (axis : Z * Z -> Z) (f : nat -> nat -> R)
    (x y mag : R) : nat -> nat -> R :=
  fold_left
    (fun f d => spec_splat h w f (clamp w x + IZR d.1)%R (clamp h y + IZR d.2)%R
                  (IZR (axis d) * mag)%R)
    [(0, -1); (-1, 0); (1, 0); (0, 1)] f.

(** The field after the seeds [(x, y, mag)] of a list of particles, in
    their order. *)
Definition spec_seeded (h w : nat) (axis : Z * Z -> Z) (f : nat -> nat -> R)
    (seeds : list (R * R * R)) : nat -> nat -> R :=
  fold_left (fun f '(x, y, mag) => spec_splat_cross h w axis f x y mag) seeds f.

(** [sample(x, y)] on one component of the field: the bilinear
    interpolation of the four surrounding cells, with the clamps of
    [splat]. *)
Definition spec_sample (h w : nat) (f : nat -> nat -> R) (x y : R) : R :=
  let cx := clamp w x in
  let cy := clamp h y in
  let x0 := Zfloor cx in
  let x1 := Z.min (x0 + 1) (Z.of_nat w - 1) in
  let y0 := Zfloor cy in
  let y1 := Z.min (y0 + 1) (Z.of_nat h - 1) in
  let wx := (cx - IZR x0)%R in
  let wy := (cy - IZR y0)%R in
  ((1 - wx) * (1 - wy) * f (Z.to_nat y0) (Z.to_nat x0)
   + wx * (1 - wy) * f (Z.to_nat y0) (Z.to_nat x1)
   + (1 - wx) * wy * f (Z.to_nat y1) (Z.to_nat x0)
   + wx * wy * f (Z.to_nat y1) (Z.to_nat x1))%R.


End GridSpec.

Module MarkerSpec.
Import MarkerSystem.

Local Open Scope R_scope.

(** A scalar of either kind that holds a finite value. *)
Definition fin_scalar (numpy : bool) (r : R) : scalar :=
  {| is_numpy := numpy; value := Fin r |}.

(** One of +inf, -inf and nan. *)
Definition special (a : xreal) : Prop :=
  match a with Fin _ => False | _ => True end.

(** The five numbers a marker dict holds. *)
Definition marker_values (m : marker) : xreal * xreal * xreal * xreal * xreal :=
  (value (key_x m), value (key_y m), value (key_mag m),
   value (key_vx m), value (key_vy m)).

(** The Euclidean norm. *)
Definition norm (v : R * R) : R := sqrt (v.1 * v.1 + v.2 * v.2).

(** Step 3 of the tick: [velocity += sampled_field / magnitude]. *)
Definition spec_feedback (mag : R) (f v : R * R) : R * R :=
  (v.1 + f.1 / mag, v.2 + f.2 / mag)%R.

(** Step 4: if [|velocity| > cell_size], rescale velocity to norm [cell_size]. *)
Definition spec_speed_clamp (cell_size : R) (v : R * R) : R * R :=
  if Rlt_dec cell_size (norm v)
  then (v.1 / norm v * cell_size, v.2 / norm v * cell_size)
  else v.

(** Step 5: [position += velocity * dt], then clamp into [[0,W-1]x[0,H-1]]. *)
Definition spec_integrate (w h : nat) (dt : R) (p v : R * R) : R * R :=
  (Rmax 0 (Rmin (INR w - 1) (p.1 + v.1 * dt)),
   Rmax 0 (Rmin (INR h - 1) (p.2 + v.2 * dt))).

(** Step 6: [vy += gravity * dt], then [velocity *= damping]. *)
Definition spec_gravity_damping (gravity dt damping : R) (v : R * R) : R * R :=
  (v.1 * damping, (v.2 + gravity * dt) * damping).

(** The particle set of [s] consists of the dicts at [items], holding [ms]:
    [self.markers] is a list of distinct dicts, and the entry "markers" of
    the state manager, when present, is a list of the same dicts. *)
Definition particle_set (s : state) (items : list loc) (ms : list marker) : Prop :=
  heap s !! markers s = Some (PyList items) /\
  NoDup items /\
  Forall2 (fun l m => heap s !! l = Some (PyDict m)) items ms /\
  match state_markers s with
  | None => True
  | Some stored => heap s !! stored = Some (PyList items)
  end.

(** The pair of numpy scalars the dispatcher returns for a sampled vector. *)
Definition np_pair (v : vec2) : scalar * scalar := (np_float v.1, np_float v.2).

(** The position of a particle, as passed to the field. *)
Definition position (m : marker) : xreal * xreal := (value (key_x m), value (key_y m)).

(** A particle at rest at [(1, 1)] whose magnitude is zero. *)
Definition still_marker : marker :=
  {| key_x := py_float (Fin 1); key_y := py_float (Fin 1);
     key_mag := py_float (Fin 0);
     key_vx := py_float (Fin 0); key_vy := py_float (Fin 0) |}.

(** A particle at rest at [(1, 1)] whose magnitude is one. *)
Definition unit_marker : marker :=
  {| key_x := py_float (Fin 1); key_y := py_float (Fin 1);
     key_mag := py_float (Fin 1);
     key_vx := py_float (Fin 0); key_vy := py_float (Fin 0) |}.


(** A particle set that holds the single dict [m]; nothing is stored
    in the state manager yet. *)
Definition one_particle (m : marker) : state :=
  {| heap := <[2%positive := PyDict m]> (<[1%positive := PyList [2%positive]]> ∅);
     markers := 1%positive;
     state_markers := None |}.

(** The seed of a particle: where and how strongly it splats. *)
Definition seed (m : marker) : xreal * xreal * xreal :=
  (value (key_x m), value (key_y m), value (key_mag m)).

(** The state with another object store. *)
Definition with_heap (s : state) (h : gmap loc pyobj) : state :=
  {| heap := h; markers := markers s; state_markers := state_markers s |}.

(** What a caller can do to a list it holds: any in-place mutation
    ([append], [clear], [del], [sort], item assignment) leaves the list
    object with some other items. *)
Definition list_mutate (h : gmap loc pyobj) (l : loc) (new_items : list loc)
  : gmap loc pyobj :=
  <[l := PyList new_items]> h.

(** [lst[i]["x"] = v] *)
Definition item_set_x (h : gmap loc pyobj) (lst : loc) (i : nat) (v : scalar)
  : result (gmap loc pyobj) :=
  items ← list_items h lst;
  match items !! i with
  | None => Raise IndexError
  | Some d =>
      m ← marker_at h d;
      Ok (<[d := PyDict {| key_x := v; key_y := key_y m; key_mag := key_mag m;
                           key_vx := key_vx m; key_vy := key_vy m |}]> h)
  end.

(** The position lies in the rectangle [[0, W-1] x [0, H-1]]. *)
Definition in_grid (w h : nat) (m : marker) : Prop :=
  exists x y : R, position m = (Fin x, Fin y) /\
    0 <= x <= INR w - 1 /\ 0 <= y <= INR h - 1.



(** The position is a pair of finite numbers of moderate size. *)
Definition moderate_position (m : marker) : Prop :=
  exists x y : R, position m = (Fin x, Fin y) /\
    GridSpec.moderate x /\ GridSpec.moderate y.

End MarkerSpec.

Module DispatcherSpec.

(** An installation without any OpenCL platform: [cl.get_platforms()]
    returns the empty list. *)
Definition no_opencl : GPU.opencl :=
  {| GPU.get_platforms := Ok [];
     GPU.create_context := Ok ();
     GPU.create_queue := Ok ();
     GPU.build_programs := Ok () |}.

End DispatcherSpec.

Module StateSpec.

(** The last [n] entries of a list, all of them when there are fewer. *)
Definition latest {A} (n : nat) (l : list A) : list A := drop (length l - n) l.

End StateSpec.

Module EventBusSpec.
Import EventBus.

(** No handler is subscribed twice to one event type. *)
Definition no_duplicates {H D : Type} (b : bus H D) : Prop :=
  forall t, NoDup (_handlers b t).

(** No filter of the bus raises. *)
Definition filters_answer {H D : Type} (b : bus H D) : Prop :=
  forall t f event, f ∈ _filters b t -> exists accepted : bool, f event = Ok accepted.

End EventBusSpec.

Module ConfigSpec.
Import ConfigManager.
Import Stdlib.Strings.Ascii.

(** The key under which [get] and [set] file an option. *)
Definition flat (key : string) : string := replace key "."%char "_"%char.

(** The ints as values: instances of [(int, float)] only. *)
#[export] Instance int_value : PyValue Z :=
  {| isinstance := fun _ cls => match cls with int_float => true | _ => false end;
     py_lt := Z.ltb;
     py_gt := Z.gtb |}.

End ConfigSpec.

Module ControllerSpec.
Import Controller.

(** The view when the state manager holds none of the entries: each [get]
    of [_screen_to_grid] answers with its default. *)
Definition default_camera : camera :=
  {| cam_x := py_float (Fin 0); cam_y := py_float (Fin 0);
     cam_zoom := py_float (Fin 1);
     viewport_width := py_float (Fin 800); viewport_height := py_float (Fin 600);
     cell_size := py_float (Fin 1) |}.

End ControllerSpec.

(* ===================================================================== *)
(** * Facts about numbers *)
(* ===================================================================== *)

Module NumFacts.

Lemma Rltb_true (a b : R) : (a < b)%R -> Rltb a b = true.
Proof. intros H. unfold Rltb. destruct (Rlt_dec a b); [reflexivity | contradiction]. Qed.

Lemma Rltb_false (a b : R) : (b <= a)%R -> Rltb a b = false.
Proof. intros H. unfold Rltb. destruct (Rlt_dec a b); [lra | reflexivity]. Qed.

Lemma Reqb_true (a b : R) : a = b -> Reqb a b = true.
Proof. intros H. unfold Reqb. destruct (Req_dec_T a b); [reflexivity | contradiction]. Qed.

Lemma Reqb_false (a b : R) : a <> b -> Reqb a b = false.
Proof. intros H. unfold Reqb. destruct (Req_dec_T a b); [contradiction | reflexivity]. Qed.

Lemma Rltb_spec (a b : R) : reflect (a < b)%R (Rltb a b).
Proof. unfold Rltb. destruct (Rlt_dec a b); constructor; assumption. Qed.

Lemma Reqb_spec (a b : R) : reflect (a = b) (Reqb a b).
Proof. unfold Reqb. destruct (Req_dec_T a b); constructor; assumption. Qed.

Lemma INR_IZR (n : nat) : INR n = IZR (Z.of_nat n).
Proof. apply INR_IZR_INZ. Qed.

(** Python's [min] and [max] on finite values are the mathematical ones. *)
Lemma py_min_fin (a b : R) : py_min (Fin a) (Fin b) = Fin (Rmin a b).
Proof.
  unfold py_min, xltb. destruct (Rltb_spec b a); f_equal.
  - rewrite Rmin_right; lra.
  - rewrite Rmin_left; lra.
Qed.

Lemma py_max_fin (a b : R) : py_max (Fin a) (Fin b) = Fin (Rmax a b).
Proof.
  unfold py_max, xltb. destruct (Rltb_spec a b); f_equal.
  - rewrite Rmax_right; lra.
  - rewrite Rmax_left; lra.
Qed.

End NumFacts.

(* ===================================================================== *)
(** * Facts about 32-bit floats *)
(* ===================================================================== *)

Module Float32Facts.
Import Float32.
Local Open Scope R_scope.

Lemma rne_floor_or_next (t : R) : rne t = Zfloor t \/ rne t = (Zfloor t + 1)%Z.
Proof.
  unfold rne. cbv zeta.
  destruct (Rlt_dec (t - IZR (Zfloor t)) (1 / 2)); [left; reflexivity | ].
  destruct (Rlt_dec (1 / 2) (t - IZR (Zfloor t))); [right; reflexivity | ].
  destruct (Z.even (Zfloor t)); [left | right]; reflexivity.
Qed.

Lemma rne_bound (t : R) : Rabs (IZR (rne t) - t) <= 1 / 2.
Proof.
  pose proof (Zfloor_bound t) as [Hl Hu].
  unfold rne. cbv zeta.
  destruct (Rlt_dec (t - IZR (Zfloor t)) (1 / 2)) as [H1 | H1].
  - apply Rabs_le. lra.
  - destruct (Rlt_dec (1 / 2) (t - IZR (Zfloor t))) as [H2 | H2].
    + rewrite plus_IZR. apply Rabs_le. lra.
    + destruct (Z.even (Zfloor t)); [ | rewrite plus_IZR]; apply Rabs_le; lra.
Qed.

Lemma rne_IZR (z : Z) : rne (IZR z) = z.
Proof.
  unfold rne. rewrite ZfloorZ, Rminus_diag.
  destruct Rlt_dec as [ | H]; [reflexivity | lra].
Qed.

Lemma rne_ge (z : Z) (t : R) : IZR z <= t -> (z <= rne t)%Z.
Proof.
  intros H. pose proof (Zfloor_lub z t H).
  destruct (rne_floor_or_next t) as [-> | ->]; lia.
Qed.

Lemma rne_le (z : Z) (t : R) : t <= IZR z -> (rne t <= z)%Z.
Proof.
  intros H. pose proof (Zfloor_bound t) as [Hl Hu].
  assert (Hf : (Zfloor t <= z)%Z) by (apply le_IZR; lra).
  destruct (Z.eq_dec (Zfloor t) z) as [E | N].
  - assert (Et : t = IZR z) by (rewrite <- E; rewrite <- E in H; lra).
    rewrite Et, rne_IZR. lia.
  - destruct (rne_floor_or_next t) as [-> | ->]; lia.
Qed.

Lemma bpow_pos (e : Z) : 0 < powerRZ 2 e.
Proof. apply powerRZ_lt. lra. Qed.

Lemma bpow_add (a b : Z) : powerRZ 2 (a + b) = powerRZ 2 a * powerRZ 2 b.
Proof. apply powerRZ_add. lra. Qed.

Lemma bpow_le (a b : Z) : (a <= b)%Z -> powerRZ 2 a <= powerRZ 2 b.
Proof.
  intros H. replace b with (a + Z.of_nat (Z.to_nat (b - a)))%Z by lia.
  rewrite bpow_add, <- pow_powerRZ.
  pose proof (bpow_pos a). pose proof (pow_R1_Rle 2 (Z.to_nat (b - a))).
  assert (1 <= 2 ^ Z.to_nat (b - a)) by (apply pow_R1_Rle; lra).
  nra.
Qed.

Lemma bpow_succ (a : Z) : powerRZ 2 (a + 1) = 2 * powerRZ 2 a.
Proof. rewrite bpow_add. simpl. lra. Qed.

Lemma binade_spec (n : nat) : forall (e : Z) (a : R),
  (e - Z.of_nat n <= binade n e a <= e)%Z /\
  (binade n e a = (e - Z.of_nat n)%Z \/ powerRZ 2 (binade n e a) <= a) /\
  ((binade n e a < e)%Z -> a < powerRZ 2 (binade n e a + 1)).
Proof.
  induction n as [ | n IH]; intros e a; cbn [binade].
  - split; [lia | ]. split; [left; lia | lia].
  - destruct (Rle_dec (powerRZ 2 e) a) as [H | H].
    + split; [lia | ]. split; [right; exact H | lia].
    + destruct (IH (e - 1)%Z a) as (Hr & Hl & Hu).
      split; [lia | ]. split; [destruct Hl as [Hl | Hl]; [left; lia | right; exact Hl] | ].
      intros _. destruct (Z.eq_dec (binade n (e - 1) a) (e - 1)%Z) as [E | N].
      * rewrite E. replace (e - 1 + 1)%Z with e by lia. lra.
      * apply Hu. lia.
Qed.

Lemma binade_eq (n : nat) (e : Z) (a : R) (k : Z) :
  (e - Z.of_nat n <= k <= e)%Z ->
  (k = (e - Z.of_nat n)%Z \/ powerRZ 2 k <= a) ->
  ((k < e)%Z -> a < powerRZ 2 (k + 1)) ->
  binade n e a = k.
Proof.
  intros Hr Hl Hu. destruct (binade_spec n e a) as (Hr' & Hl' & Hu').
  destruct (Z.lt_trichotomy (binade n e a) k) as [Hlt | [E | Hgt]]; [ | exact E | ].
  - exfalso. destruct Hl as [Hl | Hl]; [lia | ].
    pose proof (Hu' ltac:(lia)). pose proof (bpow_le (binade n e a + 1) k ltac:(lia)). lra.
  - exfalso. destruct Hl' as [Hl' | Hl']; [lia | ].
    pose proof (Hu ltac:(lia)). pose proof (bpow_le (k + 1) (binade n e a) ltac:(lia)). lra.
Qed.

Lemma exponent_spec (r : R) :
  (-126 <= exponent r <= 127)%Z /\
  (exponent r = (-126)%Z \/ powerRZ 2 (exponent r) <= Rabs r) /\
  ((exponent r < 127)%Z -> Rabs r < powerRZ 2 (exponent r + 1)).
Proof.
  unfold exponent. destruct (binade_spec 253 127 (Rabs r)) as (Hr & Hl & Hu).
  split; [lia | ]. split; [ | exact Hu].
  destruct Hl as [Hl | Hl]; [left; lia | right; exact Hl].
Qed.

Lemma exponent_eq (r : R) (k : Z) :
  (-126 <= k <= 127)%Z ->
  (k = (-126)%Z \/ powerRZ 2 k <= Rabs r) ->
  ((k < 127)%Z -> Rabs r < powerRZ 2 (k + 1)) ->
  exponent r = k.
Proof.
  intros Hr Hl Hu. unfold exponent. apply binade_eq; [lia | | exact Hu].
  destruct Hl as [Hl | Hl]; [left; lia | right; exact Hl].
Qed.

Lemma quantum_pos (r : R) : 0 < quantum r.
Proof. apply bpow_pos. Qed.

(** The nearest 32-bit float is at most half a spacing away. *)
Lemma nearest_error (r : R) : Rabs (nearest r - r) <= quantum r / 2.
Proof.
  unfold nearest. pose proof (quantum_pos r) as Hq.
  pose proof (rne_bound (r / quantum r)) as Hb.
  replace (IZR (rne (r / quantum r)) * quantum r - r)
    with ((IZR (rne (r / quantum r)) - r / quantum r) * quantum r) by (field; lra).
  rewrite Rabs_mult, (Rabs_pos_eq (quantum r)) by lra. nra.
Qed.

Lemma bpow_23 : powerRZ 2 23 = 8388608.
Proof. simpl. lra. Qed.

Lemma quantum_exponent (r : R) : powerRZ 2 (exponent r) = 8388608 * quantum r.
Proof.
  unfold quantum. rewrite <- bpow_23, <- bpow_add. f_equal. lia.
Qed.

(** A 32-bit float is its own nearest 32-bit float. *)
Lemma nearest_idempotent (r : R) : nearest (nearest r) = nearest r.
Proof.
  destruct (exponent_spec r) as (Hr & Hl & Hu).
  pose proof (quantum_pos r) as Hq. pose proof (quantum_exponent r) as He.
  set (q := quantum r) in *. set (t := r / q).
  set (m := rne t). assert (Er' : nearest r = IZR m * q) by reflexivity.
  assert (Ht : r = t * q) by (unfold t; field; lra).
  assert (Habs : Rabs r = Rabs t * q).
  { rewrite Ht at 1. rewrite Rabs_mult, (Rabs_pos_eq q) by lra. reflexivity. }
  assert (Habs' : Rabs (nearest r) = IZR (Z.abs m) * q).
  { rewrite Er', Rabs_mult, (Rabs_pos_eq q), abs_IZR by lra. reflexivity. }
  (* the integer significand stays in the binade of [t] *)
  assert (Hlow : exponent r = (-126)%Z \/ (8388608 <= Z.abs m)%Z).
  { destruct Hl as [Hl | Hl]; [left; exact Hl | right].
    assert (8388608 <= Rabs t) by nra.
    destruct (Rcase_abs t) as [Hn | Hp].
    - rewrite (Rabs_left t Hn) in *.
      pose proof (rne_le (-8388608) t ltac:(lra)). fold m in H0. lia.
    - rewrite (Rabs_right t Hp) in *.
      pose proof (rne_ge 8388608 t ltac:(lra)). fold m in H0. lia. }
  assert (Hhigh : (exponent r < 127)%Z -> (Z.abs m <= 16777216)%Z).
  { intros H. specialize (Hu H). rewrite bpow_succ, He, Habs in Hu.
    assert (Rabs t < 16777216) by nra.
    pose proof (Rabs_def2 t _ H0) as [H1 H2].
    pose proof (rne_le 16777216 t ltac:(lra)).
    pose proof (rne_ge (-16777216) t ltac:(lra)). fold m in H3, H4. lia. }
  destruct (Z.eq_dec (Z.abs m) 16777216%Z) as [Etop | Ntop];
    [destruct (Z_lt_le_dec (exponent r) 127%Z) as [Hlt | Hge] | ].
  - (* rounded up into the next binade *)
    assert (Ee : exponent (nearest r) = (exponent r + 1)%Z).
    { apply exponent_eq; [lia | | ].
      - right. rewrite Habs', Etop, bpow_succ, He. lra.
      - intros _. rewrite Habs', Etop, !bpow_succ, He. lra. }
    assert (Eq : quantum (nearest r) = 2 * q).
    { unfold quantum. rewrite Ee.
      replace (exponent r + 1 - 23)%Z with (exponent r - 23 + 1)%Z by lia.
      apply bpow_succ. }
    assert (Em : IZR m = 2 * IZR (m / 2)).
    { rewrite <- mult_IZR. f_equal.
      assert (Hm : m = 16777216%Z \/ m = (-16777216)%Z) by lia.
      destruct Hm as [Hm | Hm]; rewrite Hm; reflexivity. }
    unfold nearest at 1. rewrite Eq, Er'.
    replace (IZR m * q / (2 * q)) with (IZR (m / 2)) by (rewrite Em; field; lra).
    rewrite rne_IZR, Em. lra.
  - (* the top binade *)
    assert (Ee : exponent (nearest r) = exponent r).
    { apply exponent_eq; [lia | | lia].
      right. rewrite Habs', He, Etop. nra. }
    assert (Eq : quantum (nearest r) = q) by (unfold quantum; rewrite Ee; reflexivity).
    unfold nearest at 1. rewrite Eq, Er'.
    replace (IZR m * q / q) with (IZR m) by (field; lra).
    rewrite rne_IZR. reflexivity.
  - assert (Ee : exponent (nearest r) = exponent r).
    { apply exponent_eq; [lia | | ].
      - destruct Hlow as [Hlow | Hlow]; [left; exact Hlow | right].
        rewrite Habs', He. apply IZR_le in Hlow. nra.
      - intros H. specialize (Hhigh H). rewrite Habs', bpow_succ, He.
        assert (IZR (Z.abs m) < 16777216) by (apply IZR_lt; lia). nra. }
    assert (Eq : quantum (nearest r) = q) by (unfold quantum; rewrite Ee; reflexivity).
    unfold nearest at 1. rewrite Eq, Er'.
    replace (IZR m * q / q) with (IZR m) by (field; lra).
    rewrite rne_IZR. reflexivity.
Qed.

Lemma nearest_0 : nearest 0 = 0.
Proof.
  unfold nearest. replace (0 / quantum 0) with (IZR 0).
  - rewrite rne_IZR. lra.
  - pose proof (quantum_pos 0). field. lra.
Qed.

(** Below the overflow threshold the conversion is the nearest 32-bit
    float. *)
Lemma round_fin (r : R) : Rabs (nearest r) < powerRZ 2 128 -> round r = Fin (nearest r).
Proof.
  intros H. apply Rabs_def2 in H. destruct H as [H1 H2]. unfold round. cbv zeta.
  destruct (Rle_dec (powerRZ 2 128) (nearest r)); [lra | ].
  destruct (Rle_dec (nearest r) (- powerRZ 2 128)); [lra | reflexivity].
Qed.

Lemma nearest_in_range (r : R) :
  Rabs r <= powerRZ 2 127 -> Rabs (nearest r) < powerRZ 2 128.
Proof.
  intros H. pose proof (nearest_error r) as He.
  destruct (exponent_spec r) as (Hr & _ & _).
  assert (Hq : quantum r <= powerRZ 2 127) by (apply bpow_le; lia).
  pose proof (bpow_pos 127).
  replace 128%Z with (127 + 1)%Z by lia. rewrite bpow_succ.
  replace (nearest r) with (r + (nearest r - r)) by ring.
  eapply Rle_lt_trans; [apply Rabs_triang | ]. lra.
Qed.

(** Below 2048 the spacing of the 32-bit floats is at most [2 ^ -13], so the
    nearest one is within [2 ^ -14], which is less than 1e-4. *)
Lemma nearest_close (r : R) : Rabs r < 2048 -> Rabs (nearest r - r) <= 1 / 10000.
Proof.
  intros H. pose proof (nearest_error r) as He.
  destruct (exponent_spec r) as (Hr & Hl & _).
  assert (Hexp : (exponent r <= 10)%Z).
  { destruct Hl as [Hl | Hl]; [lia | ].
    destruct (Z_le_gt_dec (exponent r) 10%Z) as [Hle | Hgt]; [exact Hle | exfalso].
    pose proof (bpow_le 11 (exponent r) ltac:(lia)) as Hm.
    assert (E : powerRZ 2 11 = 2048) by (simpl; lra). lra. }
  assert (Hq : quantum r <= / 8192).
  { unfold quantum. pose proof (bpow_le (exponent r - 23) (-13) ltac:(lia)) as Hm.
    assert (E : powerRZ 2 (-13) = / 8192) by (simpl; f_equal; lra). lra. }
  lra.
Qed.

(** [2 ^ 24 + 1] lies half way between two 32-bit floats; the even one is
    [2 ^ 24]. *)
Lemma nearest_16777217 : nearest 16777217 = 16777216.
Proof.
  assert (Ee : exponent 16777217 = 24%Z).
  { assert (E24 : powerRZ 2 24 = 16777216) by (simpl; lra).
    apply exponent_eq; [lia | | ]; rewrite Rabs_pos_eq by lra.
    - right. lra.
    - intros _. replace (24 + 1)%Z with 25%Z by lia.
      assert (E25 : powerRZ 2 25 = 33554432) by (simpl; lra). lra. }
  assert (Eq : quantum 16777217 = 2).
  { unfold quantum. rewrite Ee. simpl. lra. }
  unfold nearest. rewrite Eq.
  assert (Ef : Zfloor (16777217 / 2) = 8388608%Z).
  { apply Zfloor_eq. lra. }
  unfold rne. cbv zeta. rewrite Ef.
  destruct Rlt_dec as [H | _]; [lra | ].
  destruct Rlt_dec as [H | _]; [lra | ].
  change (Z.even 8388608) with true. cbv iota. lra.
Qed.

End Float32Facts.

(* ===================================================================== *)
(** * Facts about the sequential backend *)
(* ===================================================================== *)

Module CPUFacts.
Import NumFacts CPU GridSpec.

Local Open Scope R_scope.

(** The clamped coordinate is always a finite number of [[0, n - 1]]
    ([0] on an empty axis), whatever the argument: out-of-range values,
    infinities and nan included. *)
Lemma clamp_coordinate_finite (n : nat) (x : xreal) :
  exists c : R, clamp_coordinate n x = Fin c /\ 0 <= c <= Rmax 0 (INR n - 1).
Proof.
  unfold clamp_coordinate, of_nat, xsub, xopp, xadd.
  destruct x as [r | | | ].
  - rewrite py_min_fin, py_max_fin. eexists; split; [reflexivity |].
    unfold Rmax, Rmin; repeat destruct Rle_dec; lra.
  - unfold py_min, xltb. rewrite py_max_fin. eexists; split; [reflexivity |].
    unfold Rmax; repeat destruct Rle_dec; lra.
  - unfold py_min, py_max, xltb. eexists; split; [reflexivity |].
    unfold Rmax; repeat destruct Rle_dec; lra.
  - unfold py_min, xltb. rewrite py_max_fin. eexists; split; [reflexivity |].
    unfold Rmax; repeat destruct Rle_dec; lra.
Qed.

(** On a finite coordinate the clamp is the mathematical one. *)
Lemma clamp_coordinate_fin (n : nat) (r : R) :
  clamp_coordinate n (Fin r) = Fin (Rmax 0 (Rmin (INR n - 1) r)).
Proof.
  unfold clamp_coordinate, of_nat, xsub, xopp, xadd.
  now rewrite py_min_fin, py_max_fin.
Qed.

Lemma clamp_coordinate_id (n : nat) (r : R) :
  0 <= r <= INR n - 1 -> clamp_coordinate n (Fin r) = Fin r.
Proof.
  intros H. rewrite clamp_coordinate_fin. f_equal.
  unfold Rmax, Rmin; repeat destruct Rle_dec; lra.
Qed.

(** The floor of a clamped coordinate is an index of the axis. *)
Lemma floor_clamped_in_range (n : nat) (c : R) :
  (0 < n)%nat -> 0 <= c <= Rmax 0 (INR n - 1) ->
  (0 <= Zfloor c <= Z.of_nat n - 1)%Z.
Proof.
  intros Hn [H0 H1].
  assert (Hn1 : 1 <= INR n) by (apply (le_INR 1); lia).
  rewrite Rmax_right in H1 by lra.
  split.
  - apply (Zfloor_lub 0). exact H0.
  - apply (Zfloor_le c (INR n - 1)) in H1.
    rewrite INR_IZR, <- minus_IZR, ZfloorZ in H1. exact H1.
Qed.

(** ** numpy indexing *)

Lemma index_in_range (n : nat) (i : Z) :
  (0 <= i < Z.of_nat n)%Z -> index n i = Ok (Z.to_nat i).
Proof.
  intros H. unfold index.
  destruct (Z.leb_spec 0 i), (Z.ltb_spec i (Z.of_nat n)); simpl; try lia.
  reflexivity.
Qed.

Lemma index_ok (n : nat) (i : Z) (k : nat) :
  index n i = Ok k -> (k < n)%nat /\ ((0 <= i)%Z -> Z.of_nat k = i).
Proof.
  unfold index.
  destruct (Z.leb_spec 0 i), (Z.ltb_spec i (Z.of_nat n)); simpl;
    try (intros [= <-]; lia).
  all: destruct (Z.leb_spec (- Z.of_nat n) i), (Z.ltb_spec i 0); simpl;
    try discriminate; intros [= <-]; lia.
Qed.

(** A successful [a[y, x, c] += d] keeps the shape and changes no cell
    but the addressed one, which lies inside the array. *)
Lemma iadd_item_frame (g g1 : ndarray) (y x : Z) (c : component) (d : xreal) :
  iadd_item g y x c d = Ok g1 ->
  height g1 = height g /\ width g1 = width g /\
  exists i j, (i < height g)%nat /\ (j < width g)%nat /\
    ((0 <= y)%Z -> Z.of_nat i = y) /\ ((0 <= x)%Z -> Z.of_nat j = x) /\
    forall i' j', ~ (i' = i /\ j' = j) -> cell g1 i' j' = cell g i' j'.
Proof.
  unfold iadd_item.
  destruct (index (height g) y) as [i | ] eqn:Hi; [ | discriminate].
  destruct (index (width g) x) as [j | ] eqn:Hj; [ | discriminate].
  cbn. intros [= <-]. cbn. split; [reflexivity | split; [reflexivity | ]].
  apply index_ok in Hi, Hj. destruct Hi as [Hi Hy], Hj as [Hj Hx].
  exists i, j. repeat split; try assumption.
  intros i' j' Hne. unfold update_cell.
  destruct (Nat.eqb_spec i' i), (Nat.eqb_spec j' j); simpl; try reflexivity.
  exfalso; apply Hne; split; assumption.
Qed.

(** Frame rule for a [try] block of in-place updates. *)
Lemma try_pass_frame (h w : nat) (P : nat -> nat -> Prop)
    (body : list (ndarray -> result ndarray)) :
  Forall (fun s => forall g0 g1, height g0 = h -> width g0 = w -> s g0 = Ok g1 ->
            height g1 = h /\ width g1 = w /\
            forall i j, ~ P i j -> cell g1 i j = cell g0 i j) body ->
  forall g, height g = h -> width g = w ->
    height (try_pass body g) = h /\ width (try_pass body g) = w /\
    forall i j, ~ P i j -> cell (try_pass body g) i j = cell g i j.
Proof.
  induction 1 as [ | s body Hs _ IH]; intros g Hh Hw; simpl.
  - repeat split; assumption.
  - destruct (s g) as [g1 | e] eqn:Hsg.
    + destruct (Hs g g1 Hh Hw Hsg) as (Hh1 & Hw1 & Hc1).
      destruct (IH g1 Hh1 Hw1) as (Hh2 & Hw2 & Hc2).
      repeat split; try assumption.
      intros i j Hn. rewrite Hc2, Hc1 by assumption. reflexivity.
    + repeat split; assumption.
Qed.

(** ** Splat: [add_vector_at_position] *)

(** C7.  For every coordinate [(x, y)] (inside the grid, on its boundary,
    outside of it, infinite or nan) [add_vector_at_position] returns
    normally, and the array keeps its shape.  The coordinates are clamped to
    finite values [cx] in [[0, W-1]] and [cy] in [[0, H-1]] before flooring;
    the indices [x0 = floor cx], [x1 = min (x0 + 1) (W - 1)] and likewise
    [y0], [y1] lie in [[0, W)] and [[0, H)]; and no cell other than the
    corner cells [(y0|y1, x0|x1)] inside the array is written. *)
Theorem splat_stays_in_bounds (grid : ndarray) (x y vx vy : xreal) :
  exists (cx cy : R) (g' : ndarray),
    clamp_coordinate (width grid) x = Fin cx /\
    clamp_coordinate (height grid) y = Fin cy /\
    add_vector_at_position grid x y vx vy = Ok g' /\
    height g' = height grid /\ width g' = width grid /\
    ((0 < height grid)%nat -> (0 < width grid)%nat ->
       0 <= cx <= INR (width grid) - 1 /\ 0 <= cy <= INR (height grid) - 1 /\
       (0 <= Zfloor cx <= Z.min (Zfloor cx + 1) (Z.of_nat (width grid) - 1))%Z /\
       (Z.min (Zfloor cx + 1) (Z.of_nat (width grid) - 1) < Z.of_nat (width grid))%Z /\
       (0 <= Zfloor cy <= Z.min (Zfloor cy + 1) (Z.of_nat (height grid) - 1))%Z /\
       (Z.min (Zfloor cy + 1) (Z.of_nat (height grid) - 1) < Z.of_nat (height grid))%Z) /\
    (forall i j, ~ corner (height grid) (width grid) cx cy i j ->
       cell g' i j = cell grid i j).
Proof.
  destruct (clamp_coordinate_finite (width grid) x) as (cx & Hcx & Hx).
  destruct (clamp_coordinate_finite (height grid) y) as (cy & Hcy & Hy).
  exists cx, cy. eexists. split; [exact Hcx | split; [exact Hcy | ]].
  unfold add_vector_at_position. rewrite Hcx, Hcy.
  cbn -[try_pass splat_statements Z.min Z.add Z.sub].
  split; [reflexivity | ].
  set (x0 := Zfloor cx). set (y0 := Zfloor cy).
  set (x1 := Z.min (x0 + 1) (Z.of_nat (width grid) - 1)).
  set (y1 := Z.min (y0 + 1) (Z.of_nat (height grid) - 1)).
  assert (Hx0 : (0 <= x0)%Z) by (apply (Zfloor_lub 0); lra).
  assert (Hy0 : (0 <= y0)%Z) by (apply (Zfloor_lub 0); lra).
  match goal with |- context [try_pass ?b grid] => set (body := b) end.
  assert (Hframe :
    height (try_pass body grid) = height grid /\
    width (try_pass body grid) = width grid /\
    forall i j, ~ corner (height grid) (width grid) cx cy i j ->
      cell (try_pass body grid) i j = cell grid i j).
  { apply try_pass_frame; [ | reflexivity | reflexivity].
    assert (Hstmt : forall yy xx c d,
      (yy = y0 \/ yy = y1) -> (xx = x0 \/ xx = x1) ->
      forall g0 g1, height g0 = height grid -> width g0 = width grid ->
        iadd_item g0 yy xx c d = Ok g1 ->
        height g1 = height grid /\ width g1 = width grid /\
        forall i j, ~ corner (height grid) (width grid) cx cy i j ->
          cell g1 i j = cell g0 i j).
    { intros yy xx c d Hyy Hxx g0 g1 Hh Hw Hs.
      apply iadd_item_frame in Hs.
      destruct Hs as (Hh1 & Hw1 & i & j & Hi & Hj & Hiy & Hjx & Hc).
      rewrite Hh1, Hw1, Hh, Hw. repeat split; try reflexivity.
      intros i' j' Hn. apply Hc. intros [-> ->]. apply Hn.
      rewrite Hh in Hi. rewrite Hw in Hj.
      assert (0 <= yy)%Z by (destruct Hyy; subst; unfold y1; lia).
      assert (0 <= xx)%Z by (destruct Hxx; subst; unfold x1; lia).
      unfold corner. fold x0 y0 x1 y1.
      rewrite Hiy, Hjx by assumption. tauto. }
    subst body. unfold splat_statements.
    repeat (apply Forall_cons; split; [ apply Hstmt; tauto | ]).
    apply Forall_nil. exact I. }
  destruct Hframe as (Hh & Hw & Hc).
  split; [exact Hh | split; [exact Hw | split; [ | exact Hc]]].
  intros Hhp Hwp.
  pose proof (floor_clamped_in_range _ _ Hwp Hx) as Hfx.
  pose proof (floor_clamped_in_range _ _ Hhp Hy) as Hfy.
  assert (1 <= INR (width grid)) by (apply (le_INR 1); lia).
  assert (1 <= INR (height grid)) by (apply (le_INR 1); lia).
  rewrite Rmax_right in Hx, Hy by lra.
  fold x0 y0 in Hfx, Hfy |- *.
  repeat split; try lra; try lia.
Qed.

Lemma xis_zero_0 : xis_zero (Fin 0) = true.
Proof. apply Reqb_true. reflexivity. Qed.

Lemma iadd_item_in_range (g : ndarray) (y x : Z) (c : component) (d : xreal) :
  (0 <= y < Z.of_nat (height g))%Z -> (0 <= x < Z.of_nat (width g))%Z ->
  iadd_item g y x c d =
  Ok {| height := height g; width := width g;
        cell := update_cell (cell g) (Z.to_nat y) (Z.to_nat x)
                  (set_component c
                     (xadd (get_component c (cell g (Z.to_nat y) (Z.to_nat x))) d)
                     (cell g (Z.to_nat y) (Z.to_nat x))) |}.
Proof.
  intros Hy Hx. unfold iadd_item.
  rewrite (index_in_range _ _ Hy), (index_in_range _ _ Hx). reflexivity.
Qed.

Lemma getitem_in_range (g : ndarray) (y x : Z) (c : component) :
  (0 <= y < Z.of_nat (height g))%Z -> (0 <= x < Z.of_nat (width g))%Z ->
  getitem g y x c = Ok (get_component c (cell g (Z.to_nat y) (Z.to_nat x))).
Proof.
  intros Hy Hx. unfold getitem.
  rewrite (index_in_range _ _ Hy), (index_in_range _ _ Hx). reflexivity.
Qed.

Ltac to_nat_norm :=
  repeat match goal with
  | |- context [Z.to_nat (Z.of_nat ?j + 1)] =>
      replace (Z.to_nat (Z.of_nat j + 1)) with (S j) by lia
  | |- context [Z.to_nat (Z.of_nat ?j - 1)] =>
      replace (Z.to_nat (Z.of_nat j - 1)) with (j - 1)%nat by lia
  end; rewrite ?Nat2Z.id.

Lemma iadd_item_holds (g : ndarray) (fx fy : nat -> nat -> R)
    (y x : Z) (c : component) (d : R) :
  holds g fx fy ->
  (0 <= y < Z.of_nat (height g))%Z -> (0 <= x < Z.of_nat (width g))%Z ->
  exists g1, iadd_item g y x c (Fin d) = Ok g1 /\
    height g1 = height g /\ width g1 = width g /\
    match c with
    | C0 => holds g1 (bump fx (Z.to_nat y) (Z.to_nat x) d) fy
    | C1 => holds g1 fx (bump fy (Z.to_nat y) (Z.to_nat x) d)
    end.
Proof.
  intros Hg Hy Hx. rewrite iadd_item_in_range by assumption.
  eexists; split; [reflexivity | ]. cbn [height width].
  split; [reflexivity | split; [reflexivity | ]].
  destruct c; intros i j; cbn [cell]; unfold update_cell, bump;
    destruct ((i =? Z.to_nat y)%nat && (j =? Z.to_nat x)%nat) eqn:E;
    try (apply andb_true_iff in E; destruct E as [->%Nat.eqb_eq ->%Nat.eqb_eq]);
    rewrite !Hg; reflexivity.
Qed.

Lemma try_pass_step (s : ndarray -> result ndarray)
    (rest : list (ndarray -> result ndarray)) (g g1 : ndarray) :
  s g = Ok g1 -> try_pass (s :: rest) g = try_pass rest g1.
Proof. intros H. cbn [try_pass]. rewrite H. reflexivity. Qed.

Ltac splat_step :=
  match goal with
  | Hg : holds ?g _ _
    |- context [try_pass ((fun g0 => iadd_item g0 ?y ?x ?c (Fin ?d)) :: ?rest) ?g] =>
      let g1 := fresh "g" in
      let E := fresh "E" in
      let Hh := fresh "Hh" in
      let Hw := fresh "Hw" in
      let Hg1 := fresh "Hg" in
      destruct (iadd_item_holds g _ _ y x c d Hg) as (g1 & E & Hh & Hw & Hg1);
      [ lia | lia | ];
      rewrite (try_pass_step (fun g0 => iadd_item g0 y x c (Fin d)) rest g g1 E);
      clear E Hg
  end.

(** Splat on finite data: the four bilinear weights times the vector are
    added to the four corner cells, in the order of the source; corners
    that coincide on the last row or column receive several shares. *)
Lemma add_vector_at_position_finite (g : ndarray) (fx fy : nat -> nat -> R)
    (x y vx vy : R) :
  holds g fx fy -> (0 < height g)%nat -> (0 < width g)%nat ->
  let cx := Rmax 0 (Rmin (INR (width g) - 1) x) in
  let cy := Rmax 0 (Rmin (INR (height g) - 1) y) in
  let x0 := Zfloor cx in
  let x1 := Z.min (x0 + 1) (Z.of_nat (width g) - 1) in
  let y0 := Zfloor cy in
  let y1 := Z.min (y0 + 1) (Z.of_nat (height g) - 1) in
  let wx := cx - IZR x0 in
  let wy := cy - IZR y0 in
  let splat (f : nat -> nat -> R) (v : R) :=
    bump (bump (bump (bump f (Z.to_nat y0) (Z.to_nat x0) ((1 - wx) * (1 - wy) * v))
                  (Z.to_nat y0) (Z.to_nat x1) (wx * (1 - wy) * v))
            (Z.to_nat y1) (Z.to_nat x0) ((1 - wx) * wy * v))
      (Z.to_nat y1) (Z.to_nat x1) (wx * wy * v) in
  exists g', add_vector_at_position g (Fin x) (Fin y) (Fin vx) (Fin vy) = Ok g' /\
    height g' = height g /\ width g' = width g /\
    holds g' (splat fx vx) (splat fy vy).
Proof.
  intros Hg Hh Hw cx cy x0 x1 y0 y1 wx wy splat.
  unfold add_vector_at_position. rewrite !clamp_coordinate_fin.
  fold cx cy. cbn [floor_int mbind result_bind Py.bind]. fold x0 y0 x1 y1.
  assert (Hcx : 0 <= cx <= Rmax 0 (INR (width g) - 1)).
  { unfold cx, Rmax, Rmin; repeat destruct Rle_dec; lra. }
  assert (Hcy : 0 <= cy <= Rmax 0 (INR (height g) - 1)).
  { unfold cy, Rmax, Rmin; repeat destruct Rle_dec; lra. }
  pose proof (floor_clamped_in_range _ _ Hw Hcx) as Hx0.
  pose proof (floor_clamped_in_range _ _ Hh Hcy) as Hy0.
  fold x0 in Hx0. fold y0 in Hy0.
  assert (Hx1 : (0 <= x1 < Z.of_nat (width g))%Z) by (unfold x1; lia).
  assert (Hy1 : (0 <= y1 < Z.of_nat (height g))%Z) by (unfold y1; lia).
  assert (Hx0' : (0 <= x0 < Z.of_nat (width g))%Z) by lia.
  assert (Hy0' : (0 <= y0 < Z.of_nat (height g))%Z) by lia.
  unfold splat_statements. cbn [xsub xadd xopp xmul of_Z].
  repeat splat_step.
  cbn [try_pass]. eexists; split; [reflexivity | ].
  split; [congruence | split; [congruence | ]].
  assumption.
Qed.

(** Sample on finite data: the bilinear interpolation of the four corner
    cells. *)
Lemma fit_vector_at_position_finite (g : ndarray) (fx fy : nat -> nat -> R)
    (x y : R) :
  holds g fx fy -> (0 < height g)%nat -> (0 < width g)%nat ->
  let cx := Rmax 0 (Rmin (INR (width g) - 1) x) in
  let cy := Rmax 0 (Rmin (INR (height g) - 1) y) in
  let x0 := Zfloor cx in
  let x1 := Z.min (x0 + 1) (Z.of_nat (width g) - 1) in
  let y0 := Zfloor cy in
  let y1 := Z.min (y0 + 1) (Z.of_nat (height g) - 1) in
  let wx := cx - IZR x0 in
  let wy := cy - IZR y0 in
  let bilinear (f : nat -> nat -> R) :=
    (1 - wx) * (1 - wy) * f (Z.to_nat y0) (Z.to_nat x0)
    + wx * (1 - wy) * f (Z.to_nat y0) (Z.to_nat x1)
    + (1 - wx) * wy * f (Z.to_nat y1) (Z.to_nat x0)
    + wx * wy * f (Z.to_nat y1) (Z.to_nat x1) in
  fit_vector_at_position g (Fin x) (Fin y) = Ok (Fin (bilinear fx), Fin (bilinear fy)).
Proof.
  intros Hg Hh Hw cx cy x0 x1 y0 y1 wx wy bilinear.
  unfold fit_vector_at_position. rewrite !clamp_coordinate_fin.
  fold cx cy. cbn [floor_int mbind result_bind Py.bind]. fold x0 y0 x1 y1.
  assert (Hcx : 0 <= cx <= Rmax 0 (INR (width g) - 1)).
  { unfold cx, Rmax, Rmin; repeat destruct Rle_dec; lra. }
  assert (Hcy : 0 <= cy <= Rmax 0 (INR (height g) - 1)).
  { unfold cy, Rmax, Rmin; repeat destruct Rle_dec; lra. }
  pose proof (floor_clamped_in_range _ _ Hw Hcx) as Hx0.
  pose proof (floor_clamped_in_range _ _ Hh Hcy) as Hy0.
  fold x0 in Hx0. fold y0 in Hy0.
  assert (Hx1 : (0 <= x1 < Z.of_nat (width g))%Z) by (unfold x1; lia).
  assert (Hy1 : (0 <= y1 < Z.of_nat (height g))%Z) by (unfold y1; lia).
  repeat (rewrite getitem_in_range by lia; cbn [mbind result_bind Py.bind]).
  rewrite !Hg. reflexivity.
Qed.

Lemma zeros_holds (h w : nat) : holds (zeros h w) (fun _ _ => 0) (fun _ _ => 0).
Proof. intros i j. reflexivity. Qed.

Lemma aligned_clamp (n k : nat) :
  (k < n)%nat -> Rmax 0 (Rmin (INR n - 1) (INR k)) = IZR (Z.of_nat k).
Proof.
  intros Hk. rewrite <- INR_IZR.
  assert (INR k <= INR n - 1).
  { rewrite !INR_IZR, <- minus_IZR. apply IZR_le. lia. }
  pose proof (pos_INR k).
  unfold Rmax, Rmin; repeat destruct Rle_dec; lra.
Qed.

(** A splat at an integer-aligned coordinate of a finite grid adds the whole
    vector to that cell and nothing to any other cell. *)
Lemma splat_aligned (g : ndarray) (fx fy : nat -> nat -> R) (i j : nat) (vx vy : R) :
  holds g fx fy -> (i < height g)%nat -> (j < width g)%nat ->
  exists g' : ndarray,
    add_vector_at_position g (of_nat j) (of_nat i) (Fin vx) (Fin vy) = Ok g' /\
    height g' = height g /\ width g' = width g /\
    holds g' (bump fx i j vx) (bump fy i j vy).
Proof.
  intros Hg Hi Hj.
  destruct (add_vector_at_position_finite g fx fy (INR j) (INR i) vx vy Hg)
    as (g' & E & Hh & Hw & Hg'); try lia.
  rewrite (aligned_clamp _ _ Hi), (aligned_clamp _ _ Hj), !ZfloorZ in Hg'.
  exists g'. split; [exact E | ]. split; [exact Hh | split; [exact Hw | ]].
  intros i' j'. rewrite Hg'. unfold bump. rewrite !Nat2Z.id.
  repeat match goal with
         | |- context [(?a =? ?b)%nat] => destruct (Nat.eqb_spec a b)
         end; cbn [andb]; f_equal; f_equal; ring.
Qed.

(** Sampling at an integer-aligned coordinate of a finite grid returns the
    cell there. *)
Lemma sample_aligned (g : ndarray) (fx fy : nat -> nat -> R) (i j : nat) :
  holds g fx fy -> (i < height g)%nat -> (j < width g)%nat ->
  exists sx sy : R,
    fit_vector_at_position g (of_nat j) (of_nat i) = Ok (Fin sx, Fin sy) /\
    sx = fx i j /\ sy = fy i j.
Proof.
  intros Hg Hi Hj.
  unfold of_nat. rewrite (fit_vector_at_position_finite g fx fy) by (assumption || lia).
  rewrite (aligned_clamp _ _ Hi), (aligned_clamp _ _ Hj), !ZfloorZ.
  rewrite !Nat2Z.id.
  eexists; eexists; split; [reflexivity | ]. split; ring.
Qed.

(** ** The round trip on the float32 grid *)

Lemma iadd_item_float32_in_range (g : ndarray) (y x : Z) (c : component) (d : xreal) :
  (0 <= y < Z.of_nat (height g))%Z -> (0 <= x < Z.of_nat (width g))%Z ->
  iadd_item_float32 g y x c d =
  Ok {| height := height g; width := width g;
        cell := update_cell (cell g) (Z.to_nat y) (Z.to_nat x)
                  (set_component c
                     (Float32.cast
                        (xadd (get_component c (cell g (Z.to_nat y) (Z.to_nat x))) d))
                     (cell g (Z.to_nat y) (Z.to_nat x))) |}.
Proof.
  intros Hy Hx. unfold iadd_item_float32.
  rewrite (index_in_range _ _ Hy), (index_in_range _ _ Hx). reflexivity.
Qed.

(** A store to the x component of a cell of finite data that does not
    overflow: the cell receives the 32-bit float nearest to the sum. *)
Lemma iadd_item_float32_x (g : ndarray) (fx fy fx' : nat -> nat -> R)
    (y x : Z) (d : R) :
  holds g fx fy ->
  (0 <= y < Z.of_nat (height g))%Z -> (0 <= x < Z.of_nat (width g))%Z ->
  Rabs (Float32.nearest (fx (Z.to_nat y) (Z.to_nat x) + d)) < powerRZ 2 128 ->
  (forall i j,
     fx' i j = if (i =? Z.to_nat y)%nat && (j =? Z.to_nat x)%nat
               then Float32.nearest (fx (Z.to_nat y) (Z.to_nat x) + d)
               else fx i j) ->
  exists g1, iadd_item_float32 g y x C0 (Fin d) = Ok g1 /\
    height g1 = height g /\ width g1 = width g /\ holds g1 fx' fy.
Proof.
  intros Hg Hy Hx Hfin Hfx'. rewrite iadd_item_float32_in_range by assumption.
  eexists; split; [reflexivity | ]. cbn [height width].
  split; [reflexivity | split; [reflexivity | ]].
  intros i j; cbn [cell]; unfold update_cell. rewrite Hfx'.
  destruct ((i =? Z.to_nat y)%nat && (j =? Z.to_nat x)%nat) eqn:E.
  - apply andb_true_iff in E. destruct E as [->%Nat.eqb_eq ->%Nat.eqb_eq].
    rewrite !Hg. cbn [get_component set_component fst snd xadd Float32.cast].
    rewrite (Float32Facts.round_fin _ Hfin). reflexivity.
  - apply Hg.
Qed.

(** The same for the y component. *)
Lemma iadd_item_float32_y (g : ndarray) (fx fy fy' : nat -> nat -> R)
    (y x : Z) (d : R) :
  holds g fx fy ->
  (0 <= y < Z.of_nat (height g))%Z -> (0 <= x < Z.of_nat (width g))%Z ->
  Rabs (Float32.nearest (fy (Z.to_nat y) (Z.to_nat x) + d)) < powerRZ 2 128 ->
  (forall i j,
     fy' i j = if (i =? Z.to_nat y)%nat && (j =? Z.to_nat x)%nat
               then Float32.nearest (fy (Z.to_nat y) (Z.to_nat x) + d)
               else fy i j) ->
  exists g1, iadd_item_float32 g y x C1 (Fin d) = Ok g1 /\
    height g1 = height g /\ width g1 = width g /\ holds g1 fx fy'.
Proof.
  intros Hg Hy Hx Hfin Hfy'. rewrite iadd_item_float32_in_range by assumption.
  eexists; split; [reflexivity | ]. cbn [height width].
  split; [reflexivity | split; [reflexivity | ]].
  intros i j; cbn [cell]; unfold update_cell. rewrite Hfy'.
  destruct ((i =? Z.to_nat y)%nat && (j =? Z.to_nat x)%nat) eqn:E.
  - apply andb_true_iff in E. destruct E as [->%Nat.eqb_eq ->%Nat.eqb_eq].
    rewrite !Hg. cbn [get_component set_component fst snd xadd Float32.cast].
    rewrite (Float32Facts.round_fin _ Hfin). reflexivity.
  - apply Hg.
Qed.

(** Adding zero to a field of 32-bit floats changes nothing. *)
Lemma float32_field_fixed (i j a b : nat) (v d : R) :
  Rabs (Float32.nearest v) < powerRZ 2 128 -> d = 0 ->
  let r := bump (fun _ _ => 0) i j (Float32.nearest v) a b in
  Float32.nearest (r + d) = r /\ Rabs (Float32.nearest (r + d)) < powerRZ 2 128.
Proof.
  intros Hv -> r. rewrite Rplus_0_r. unfold r, bump.
  destruct ((a =? i)%nat && (b =? j)%nat).
  - rewrite Rplus_0_l, Float32Facts.nearest_idempotent. split; [reflexivity | exact Hv].
  - rewrite Float32Facts.nearest_0, Rabs_R0. split; [reflexivity | apply Float32Facts.bpow_pos].
Qed.

Ltac float32_first lem F v Hv :=
  match goal with
  | Hg : holds ?g ?fx ?fy
    |- context [try_pass ((fun g0 => iadd_item_float32 g0 ?y ?x ?c (Fin ?d)) :: ?rest) ?g] =>
      let g1 := fresh "g" in
      let E := fresh "E" in
      let Hh := fresh "Hh" in
      let Hw := fresh "Hw" in
      let Hg1 := fresh "Hg" in
      destruct (lem g fx fy F y x d Hg) as (g1 & E & Hh & Hw & Hg1);
      [ cbn [height width zeros] in *; lia
      | cbn [height width zeros] in *; lia
      | cbv beta; replace (0 + d) with v by ring; exact Hv
      | intros ? ?; unfold F, bump; rewrite !Nat2Z.id; cbv beta;
        replace (0 + d) with v by ring;
        match goal with
        | |- (if ?t then _ else _) = _ => destruct t; [ring | reflexivity]
        end
      | rewrite (try_pass_step (fun g0 => iadd_item_float32 g0 y x c (Fin d)) rest g g1 E);
        clear E Hg ]
  end.

Ltac float32_next i j v Hv :=
  match goal with
  | Hg : holds ?g ?fx ?fy
    |- context [try_pass ((fun g0 => iadd_item_float32 g0 ?y ?x ?c (Fin ?d)) :: ?rest) ?g] =>
      let g1 := fresh "g" in
      let E := fresh "E" in
      let Hh := fresh "Hh" in
      let Hw := fresh "Hw" in
      let Hg1 := fresh "Hg" in
      let Hd := fresh "Hd" in
      let step :=
        lazymatch c with
        | C0 => constr:(iadd_item_float32_x g fx fy fx y x d Hg)
        | C1 => constr:(iadd_item_float32_y g fx fy fy y x d Hg)
        end in
      assert (Hd : d = 0) by ring;
      destruct step as (g1 & E & Hh & Hw & Hg1);
      [ cbn [height width zeros] in *; lia
      | cbn [height width zeros] in *; lia
      | exact (proj2 (float32_field_fixed i j _ _ v d Hv Hd))
      | let a := fresh "a" in
        let b := fresh "b" in
        let Eab := fresh "Eab" in
        intros a b;
        destruct ((a =? Z.to_nat y)%nat && (b =? Z.to_nat x)%nat) eqn:Eab;
        [ apply andb_true_iff in Eab;
          destruct Eab as [->%Nat.eqb_eq ->%Nat.eqb_eq];
          symmetry; exact (proj1 (float32_field_fixed i j _ _ v d Hv Hd))
        | reflexivity ]
      | rewrite (try_pass_step (fun g0 => iadd_item_float32 g0 y x c (Fin d)) rest g g1 E);
        clear E Hg Hd ]
  end.

(** A float32 splat at an integer-aligned coordinate of the zero grid that
    does not overflow: the cell holds the 32-bit floats nearest to the two
    components (the later stores, of weight zero, leave it as it is, also
    where the corners coincide on the last row or column), and every other
    cell is still zero. *)
Lemma splat_float32_aligned (h w i j : nat) (vx vy : R) :
  (i < h)%nat -> (j < w)%nat ->
  Rabs (Float32.nearest vx) < powerRZ 2 128 ->
  Rabs (Float32.nearest vy) < powerRZ 2 128 ->
  exists g' : ndarray,
    add_vector_at_position_float32 (zeros h w) (of_nat j) (of_nat i) (Fin vx) (Fin vy)
      = Ok g' /\
    height g' = h /\ width g' = w /\
    holds g' (bump (fun _ _ => 0) i j (Float32.nearest vx))
             (bump (fun _ _ => 0) i j (Float32.nearest vy)).
Proof.
  intros Hi Hj Hvx Hvy.
  unfold add_vector_at_position_float32, of_nat. rewrite !clamp_coordinate_fin.
  cbn [height width zeros].
  rewrite (aligned_clamp _ _ Hi), (aligned_clamp _ _ Hj).
  cbn [floor_int mbind result_bind Py.bind]. rewrite !ZfloorZ.
  unfold splat_statements_float32. cbn [xsub xadd xopp xmul of_Z].
  set (F := bump (fun _ _ => 0) i j (Float32.nearest vx)).
  set (G := bump (fun _ _ => 0) i j (Float32.nearest vy)).
  pose proof (zeros_holds h w) as Hg.
  float32_first iadd_item_float32_x F vx Hvx.
  float32_first iadd_item_float32_y G vy Hvy.
  float32_next i j vx Hvx.
  float32_next i j vy Hvy.
  float32_next i j vx Hvx.
  float32_next i j vy Hvy.
  float32_next i j vx Hvx.
  float32_next i j vy Hvy.
  cbn [try_pass]. eexists; split; [reflexivity | ].
  cbn [height width zeros] in *.
  split; [congruence | split; [congruence | assumption]].
Qed.

(** The round trip on the float32 grid, for a vector that does not
    overflow: the sample is the vector as the grid stores it. *)
Lemma float32_round_trip (h w i j : nat) (vx vy : R) :
  (i < h)%nat -> (j < w)%nat ->
  Rabs (Float32.nearest vx) < powerRZ 2 128 ->
  Rabs (Float32.nearest vy) < powerRZ 2 128 ->
  exists g' : ndarray,
    add_vector_at_position_float32 (create_vector_grid w h (Fin 0, Fin 0))
      (of_nat j) (of_nat i) (Fin vx) (Fin vy) = Ok g' /\
    fit_vector_at_position g' (of_nat j) (of_nat i)
      = Ok (Fin (Float32.nearest vx), Fin (Float32.nearest vy)).
Proof.
  intros Hi Hj Hvx Hvy.
  unfold create_vector_grid. cbn [fst snd]. rewrite xis_zero_0. cbn [andb].
  destruct (splat_float32_aligned h w i j vx vy Hi Hj Hvx Hvy)
    as (g' & E & Hh & Hw & Hg').
  destruct (sample_aligned g' _ _ i j Hg') as (sx & sy & Es & -> & ->); try lia.
  exists g'. split; [exact E | ]. rewrite Es. unfold bump.
  rewrite !Nat.eqb_refl. cbn [andb]. rewrite !Rplus_0_l. reflexivity.
Qed.

(** C5, as amended.  On the zero-initialised grid [create_vector_grid]
    returns, an array of 32-bit floats, a splat of [(vx, vy)] at the
    integer-aligned in-bounds coordinate [(j, i)] followed by a sample at
    the same coordinate returns the two components rounded to the nearest
    32-bit float, for every vector within the range of the 32-bit floats.
    A component below 2048 in absolute value comes back within 1e-4. *)
Theorem splat_then_sample (h w i j : nat) (vx vy : R) :
  (i < h)%nat -> (j < w)%nat ->
  Rabs vx <= powerRZ 2 127 -> Rabs vy <= powerRZ 2 127 ->
  exists g' : ndarray,
    add_vector_at_position_float32 (create_vector_grid w h (Fin 0, Fin 0))
      (of_nat j) (of_nat i) (Fin vx) (Fin vy) = Ok g' /\
    fit_vector_at_position g' (of_nat j) (of_nat i)
      = Ok (Fin (Float32.nearest vx), Fin (Float32.nearest vy)) /\
    (Rabs vx < 2048 -> Rabs (Float32.nearest vx - vx) <= 1 / 10000) /\
    (Rabs vy < 2048 -> Rabs (Float32.nearest vy - vy) <= 1 / 10000).
Proof.
  intros Hi Hj Hvx Hvy.
  destruct (float32_round_trip h w i j vx vy Hi Hj
              (Float32Facts.nearest_in_range _ Hvx) (Float32Facts.nearest_in_range _ Hvy))
    as (g' & E & Es).
  exists g'. split; [exact E | ]. split; [exact Es | ].
  split; apply Float32Facts.nearest_close.
Qed.

Lemma splat_then_sample_witness :
  exists g' : ndarray,
    add_vector_at_position_float32 (create_vector_grid 3 3 (Fin 0, Fin 0))
      (of_nat 1) (of_nat 1) (Fin 1) (Fin 2) = Ok g' /\
    fit_vector_at_position g' (of_nat 1) (of_nat 1)
      = Ok (Fin (Float32.nearest 1), Fin (Float32.nearest 2)) /\
    (Rabs 1 < 2048 -> Rabs (Float32.nearest 1 - 1) <= 1 / 10000) /\
    (Rabs 2 < 2048 -> Rabs (Float32.nearest 2 - 2) <= 1 / 10000).
Proof.
  apply (splat_then_sample 3 3 1 1 1 2); try lia.
  - rewrite Rabs_pos_eq by lra.
    apply (Rle_trans _ (powerRZ 2 1)); [simpl; lra | apply Float32Facts.bpow_le; lia].
  - rewrite Rabs_pos_eq by lra.
    apply (Rle_trans _ (powerRZ 2 1)); [simpl; lra | apply Float32Facts.bpow_le; lia].
Defined.

(** C5, counterexample.  On a 3 x 3 zero grid, a splat of
    [(16777217, 0)] at [(1, 1)] followed by a sample at [(1, 1)] returns
    [(16777216, 0)]: [2 ^ 24 + 1] is not a 32-bit float, and the cell
    stores the nearest one, which is 1 away. *)
Lemma splat_then_sample_loses_precision :
  exists (g' : ndarray) (sx sy : R),
    add_vector_at_position_float32 (create_vector_grid 3 3 (Fin 0, Fin 0))
      (of_nat 1) (of_nat 1) (Fin 16777217) (Fin 0) = Ok g' /\
    fit_vector_at_position g' (of_nat 1) (of_nat 1) = Ok (Fin sx, Fin sy) /\
    sx = 16777216 /\ sy = 0 /\
    1 / 10000 < Rabs (sx - 16777217).
Proof.
  assert (H128 : 16777216 < powerRZ 2 128).
  { apply (Rlt_le_trans _ (powerRZ 2 25)); [simpl; lra | apply Float32Facts.bpow_le; lia]. }
  destruct (float32_round_trip 3 3 1 1 16777217 0) as (g' & E & Es); try lia.
  - rewrite Float32Facts.nearest_16777217, Rabs_pos_eq by lra. exact H128.
  - rewrite Float32Facts.nearest_0, Rabs_R0. lra.
  - rewrite Float32Facts.nearest_16777217, Float32Facts.nearest_0 in Es.
    exists g', 16777216, 0. split; [exact E | ]. split; [exact Es | ].
    split; [reflexivity | ]. split; [reflexivity | ].
    replace (16777216 - 16777217) with (- (1)) by lra.
    rewrite Rabs_Ropp, Rabs_R1. lra.
Qed.

(** ** Diffusion: [update_grid_with_adjacent_sum] and [sum_adjacent_vectors] *)

Lemma add_same_shape (a b : ndarray) :
  height a = height b -> width a = width b ->
  NumPy.add a b =
  Ok {| height := height a; width := width a;
        cell := fun i j => (xadd (cell a i j).1 (cell b i j).1,
                            xadd (cell a i j).2 (cell b i j).2) |}.
Proof.
  intros Hh Hw. unfold NumPy.add. rewrite <- Hh, <- Hw, !Nat.eqb_refl. reflexivity.
Qed.

(** On a non-empty grid [update_grid_with_adjacent_sum] returns normally
    and every cell receives the edge-replicated weighted sum. *)
Lemma update_grid_cells (g : ndarray) (sw nw : xreal) :
  (0 < height g)%nat -> (0 < width g)%nat ->
  exists g', update_grid_with_adjacent_sum g sw nw = Ok g' /\
    height g' = height g /\ width g' = width g /\
    forall i j, (i < height g)%nat -> (j < width g)%nat ->
      cell g' i j = diffused g sw nw i j.
Proof.
  intros Hh Hw. unfold update_grid_with_adjacent_sum, pad_edge.
  rewrite (proj2 (Nat.eqb_neq (height g) 0)) by lia.
  rewrite (proj2 (Nat.eqb_neq (width g) 0)) by lia.
  cbn [orb mbind result_bind Py.bind].
  rewrite add_same_shape by (cbn [height width scale slice]; lia).
  cbn [mbind result_bind Py.bind].
  rewrite add_same_shape by (cbn [height width scale slice]; lia).
  cbn [mbind result_bind Py.bind].
  rewrite add_same_shape by (cbn [height width scale slice]; lia).
  cbn [mbind result_bind Py.bind].
  rewrite add_same_shape by (cbn [height width scale slice]; lia).
  cbn [mbind result_bind Py.bind height width scale slice].
  rewrite (proj2 (Nat.eqb_eq _ _)) by lia.
  rewrite (proj2 (Nat.eqb_eq _ (width g))) by lia.
  cbn [andb]. eexists; split; [reflexivity | ].
  cbn [height width cell]. split; [reflexivity | split; [reflexivity | ]].
  intros i j Hi Hj. unfold diffused. cbn [scale slice cell fst snd].
  unfold edge_clamp.
  replace (Nat.min (i + 2 - 1) (height g - 1))
    with (Z.to_nat (Z.max 0 (Z.min (Z.of_nat i + 1) (Z.of_nat (height g) - 1)))) by lia.
  replace (Nat.min (i + 0 - 1) (height g - 1))
    with (Z.to_nat (Z.max 0 (Z.min (Z.of_nat i + -1) (Z.of_nat (height g) - 1)))) by lia.
  replace (Nat.min (i + 1 - 1) (height g - 1))
    with (Z.to_nat (Z.max 0 (Z.min (Z.of_nat i + 0) (Z.of_nat (height g) - 1)))) by lia.
  replace (Nat.min (j + 2 - 1) (width g - 1))
    with (Z.to_nat (Z.max 0 (Z.min (Z.of_nat j + 1) (Z.of_nat (width g) - 1)))) by lia.
  replace (Nat.min (j + 0 - 1) (width g - 1))
    with (Z.to_nat (Z.max 0 (Z.min (Z.of_nat j + -1) (Z.of_nat (width g) - 1)))) by lia.
  replace (Nat.min (j + 1 - 1) (width g - 1))
    with (Z.to_nat (Z.max 0 (Z.min (Z.of_nat j + 0) (Z.of_nat (width g) - 1)))) by lia.
  reflexivity.
Qed.

Lemma edge_clamp_inside (n k : nat) : (k < n)%nat -> edge_clamp n (Z.of_nat k) = k.
Proof. unfold edge_clamp. lia. Qed.



Lemma moderate_bounds (r : R) : -1048576 <= r <= 1048576 -> moderate r.
Proof. intros H. unfold moderate. apply Rabs_le. lra. Qed.



Lemma in_bounds_spec (g : ndarray) (x y : Z) :
  in_bounds g x y
  = bool_decide (0 <= y < Z.of_nat (height g) /\ 0 <= x < Z.of_nat (width g))%Z.
Proof.
  unfold in_bounds.
  destruct (bool_decide_reflect
              (0 <= y < Z.of_nat (height g) /\ 0 <= x < Z.of_nat (width g))%Z)
    as [H | H].
  - destruct (Z.leb_spec 0 x); [ | lia]. destruct (Z.ltb_spec x (Z.of_nat (width g))); [ | lia].
    destruct (Z.leb_spec 0 y); [ | lia]. destruct (Z.ltb_spec y (Z.of_nat (height g))); [ | lia].
    reflexivity.
  - destruct (Z.leb_spec 0 x); [ | reflexivity].
    destruct (Z.ltb_spec x (Z.of_nat (width g))); [ | reflexivity].
    destruct (Z.leb_spec 0 y); [ | reflexivity].
    destruct (Z.ltb_spec y (Z.of_nat (height g))); [lia | reflexivity].
Qed.

(** One guarded round of the point query adds the field read as zero
    outside the grid. *)
Lemma accumulate_in_bounds (g : ndarray) (fx fy : nat -> nat -> R) (x y : Z)
    (sx sy weight : R) :
  holds g fx fy ->
  (if in_bounds g x y
   then accumulate (Fin sx, Fin sy) (cell g (Z.to_nat y) (Z.to_nat x)) (Fin weight)
   else (Fin sx, Fin sy))
  = (Fin (sx + zero_outside (height g) (width g) fx y x * weight),
     Fin (sy + zero_outside (height g) (width g) fy y x * weight)).
Proof.
  intros Hg. rewrite in_bounds_spec. unfold zero_outside.
  destruct (bool_decide _).
  - unfold accumulate. rewrite Hg. reflexivity.
  - f_equal; f_equal; ring.
Qed.

(** C6.  The two boundary policies, on a non-empty grid of finite values
    of moderate size.  For all integer coordinates, those outside the grid
    included, [sum_adjacent_vectors] returns the weighted five-point sum of
    the field read as zero outside the grid: a neighbour that is out of
    range adds nothing, it is neither wrapped around nor replaced.
    [update_grid_with_adjacent_sum] leaves in every cell the weighted
    five-point sum of the field read with edge replication: a neighbour
    that is out of range is replaced by the nearest cell of the grid, which
    for a boundary cell is the cell itself.  At the corner cell [(0, 0)] of
    a grid with two rows and two columns at least, the two results differ
    by twice the neighbour weight times the corner's own value. *)
Theorem boundary_policies (g : ndarray) (fx fy : nat -> nat -> R) (sw nw : R) :
  holds g fx fy -> (0 < height g)%nat -> (0 < width g)%nat ->
  moderate sw -> moderate nw ->
  (forall i j, moderate (fx i j) /\ moderate (fy i j)) ->
  (forall x y : Z,
     sum_adjacent_vectors g x y (Fin sw) (Fin nw)
     = (Fin (five_point (zero_outside (height g) (width g) fx) sw nw y x),
        Fin (five_point (zero_outside (height g) (width g) fy) sw nw y x))) /\
  (exists g', update_grid_with_adjacent_sum g (Fin sw) (Fin nw) = Ok g' /\
     height g' = height g /\ width g' = width g /\
     (forall i j, (i < height g)%nat -> (j < width g)%nat ->
        cell g' i j
        = (Fin (five_point (edge_replicated (height g) (width g) fx) sw nw
                  (Z.of_nat i) (Z.of_nat j)),
           Fin (five_point (edge_replicated (height g) (width g) fy) sw nw
                  (Z.of_nat i) (Z.of_nat j)))) /\
     ((2 <= height g)%nat -> (2 <= width g)%nat ->
      sum_adjacent_vectors g 0 0 (Fin sw) (Fin nw)
      = (Fin (sw * fx O O + nw * (fx 1%nat O + fx O 1%nat)),
         Fin (sw * fy O O + nw * (fy 1%nat O + fy O 1%nat))) /\
      cell g' O O
      = (Fin (sw * fx O O + nw * (fx 1%nat O + fx O 1%nat) + 2 * nw * fx O O),
         Fin (sw * fy O O + nw * (fy 1%nat O + fy O 1%nat) + 2 * nw * fy O O)))).
Proof.
  intros Hg Hh Hw _ _ _.
  assert (Hpoint : forall x y : Z,
            sum_adjacent_vectors g x y (Fin sw) (Fin nw)
            = (Fin (five_point (zero_outside (height g) (width g) fx) sw nw y x),
               Fin (five_point (zero_outside (height g) (width g) fy) sw nw y x))).
  { intros x y. unfold sum_adjacent_vectors, neighbors. cbn [fold_left].
    rewrite (accumulate_in_bounds g fx fy x y 0 0 sw Hg).
    rewrite (accumulate_in_bounds g fx fy (x + 0) (y + -1) _ _ nw Hg).
    rewrite (accumulate_in_bounds g fx fy (x + 0) (y + 1) _ _ nw Hg).
    rewrite (accumulate_in_bounds g fx fy (x + -1) (y + 0) _ _ nw Hg).
    rewrite (accumulate_in_bounds g fx fy (x + 1) (y + 0) _ _ nw Hg).
    rewrite !Z.add_0_r. unfold five_point.
    change (x + -1)%Z with (x - 1)%Z. change (y + -1)%Z with (y - 1)%Z.
    f_equal; f_equal; ring. }
  split; [exact Hpoint | ].
  destruct (update_grid_cells g (Fin sw) (Fin nw) Hh Hw) as (g' & E & Hh' & Hw' & Hc).
  assert (Hfull : forall i j, (i < height g)%nat -> (j < width g)%nat ->
            cell g' i j
            = (Fin (five_point (edge_replicated (height g) (width g) fx) sw nw
                      (Z.of_nat i) (Z.of_nat j)),
               Fin (five_point (edge_replicated (height g) (width g) fy) sw nw
                      (Z.of_nat i) (Z.of_nat j)))).
  { intros i j Hi Hj. rewrite (Hc i j Hi Hj). unfold diffused.
    rewrite !Hg. cbn [fst snd xmul xadd].
    unfold five_point, edge_replicated.
    change (Z.of_nat i + -1)%Z with (Z.of_nat i - 1)%Z.
    change (Z.of_nat j + -1)%Z with (Z.of_nat j - 1)%Z.
    rewrite !Z.add_0_r, !(edge_clamp_inside _ _ Hi), !(edge_clamp_inside _ _ Hj).
    f_equal; f_equal; ring. }
  exists g'. split; [exact E | ]. split; [exact Hh' | ]. split; [exact Hw' | ].
  split; [exact Hfull | ].
  intros Hh2 Hw2. rewrite (Hpoint 0%Z 0%Z), (Hfull 0%nat 0%nat) by lia.
  unfold five_point, zero_outside, edge_replicated, edge_clamp.
  change (Z.of_nat 0) with 0%Z.
  change (0 - 1)%Z with (-1)%Z. change (0 + 1)%Z with 1%Z.
  repeat match goal with
  | |- context [bool_decide ?P] =>
      first [rewrite (bool_decide_eq_true_2 P) by lia
            | rewrite (bool_decide_eq_false_2 P) by lia]
  end.
  replace (Z.to_nat (Z.max 0 (Z.min 0 (Z.of_nat (height g) - 1)))) with 0%nat by lia.
  replace (Z.to_nat (Z.max 0 (Z.min 0 (Z.of_nat (width g) - 1)))) with 0%nat by lia.
  replace (Z.to_nat (Z.max 0 (Z.min (-1) (Z.of_nat (height g) - 1)))) with 0%nat by lia.
  replace (Z.to_nat (Z.max 0 (Z.min (-1) (Z.of_nat (width g) - 1)))) with 0%nat by lia.
  replace (Z.to_nat (Z.max 0 (Z.min 1 (Z.of_nat (height g) - 1)))) with 1%nat by lia.
  replace (Z.to_nat (Z.max 0 (Z.min 1 (Z.of_nat (width g) - 1)))) with 1%nat by lia.
  change (Z.to_nat 0) with 0%nat. change (Z.to_nat 1) with 1%nat.
  split; f_equal; f_equal; ring.
Qed.

Lemma boundary_policies_witness :
  (forall x y : Z,
     sum_adjacent_vectors {| height := 2; width := 2; cell := fun _ _ => (Fin 1, Fin 2) |} x y (Fin 1) (Fin (1 / 4))
     = (Fin (five_point (zero_outside 2 2 (fun _ _ => 1)) 1 (1 / 4) y x),
        Fin (five_point (zero_outside 2 2 (fun _ _ => 2)) 1 (1 / 4) y x))) /\
  (exists g',
     update_grid_with_adjacent_sum {| height := 2; width := 2; cell := fun _ _ => (Fin 1, Fin 2) |} (Fin 1) (Fin (1 / 4)) = Ok g' /\
     height g' = 2%nat /\ width g' = 2%nat /\
     (forall i j, (i < 2)%nat -> (j < 2)%nat ->
        cell g' i j
        = (Fin (five_point (edge_replicated 2 2 (fun _ _ => 1)) 1 (1 / 4)
                  (Z.of_nat i) (Z.of_nat j)),
           Fin (five_point (edge_replicated 2 2 (fun _ _ => 2)) 1 (1 / 4)
                  (Z.of_nat i) (Z.of_nat j)))) /\
     ((2 <= 2)%nat -> (2 <= 2)%nat ->
      sum_adjacent_vectors {| height := 2; width := 2; cell := fun _ _ => (Fin 1, Fin 2) |} 0 0 (Fin 1) (Fin (1 / 4))
      = (Fin (1 * 1 + 1 / 4 * (1 + 1)), Fin (1 * 2 + 1 / 4 * (2 + 2))) /\
      cell g' O O
      = (Fin (1 * 1 + 1 / 4 * (1 + 1) + 2 * (1 / 4) * 1),
         Fin (1 * 2 + 1 / 4 * (2 + 2) + 2 * (1 / 4) * 2)))).
Proof.
  apply (boundary_policies {| height := 2; width := 2; cell := fun _ _ => (Fin 1, Fin 2) |} (fun _ _ => 1) (fun _ _ => 2) 1 (1 / 4)).
  - intros i j. reflexivity.
  - simpl; lia.
  - simpl; lia.
  - apply moderate_bounds; lra.
  - apply moderate_bounds; lra.
  - intros i j. split; apply moderate_bounds; lra.
Defined.

(** ** Sampling never raises on a non-empty grid *)

(** On a non-empty grid a sample never raises, whatever the coordinates. *)
Lemma fit_vector_at_position_ok (g : ndarray) (x y : xreal) :
  (0 < height g)%nat -> (0 < width g)%nat ->
  exists v, fit_vector_at_position g x y = Ok v.
Proof.
  intros Hh Hw.
  destruct (clamp_coordinate_finite (width g) x) as (cx & Hcx & Hx).
  destruct (clamp_coordinate_finite (height g) y) as (cy & Hcy & Hy).
  pose proof (floor_clamped_in_range _ _ Hw Hx) as Hx0.
  pose proof (floor_clamped_in_range _ _ Hh Hy) as Hy0.
  unfold fit_vector_at_position. rewrite Hcx, Hcy.
  cbn [floor_int mbind result_bind Py.bind].
  repeat (rewrite getitem_in_range by lia; cbn [mbind result_bind Py.bind]).
  eexists; reflexivity.
Qed.

Lemma fit_vectors_at_positions_batch_ok (g : ndarray) (positions : list (xreal * xreal)) :
  (0 < height g)%nat -> (0 < width g)%nat ->
  exists vs, fit_vectors_at_positions_batch g positions = Ok vs /\
    Forall2 (fun p v => fit_vector_at_position g p.1 p.2 = Ok v) positions vs.
Proof.
  intros Hh Hw.
  assert (H : exists vs,
    foldr (fun '(x, y) acc =>
             v ← fit_vector_at_position g x y; vs ← acc; Ok (v :: vs))
      (Ok []) positions = Ok vs /\
    Forall2 (fun p v => fit_vector_at_position g p.1 p.2 = Ok v) positions vs).
  { induction positions as [ | [x y] ps IH]; cbn [foldr].
    - exists []. split; [reflexivity | constructor].
    - destruct IH as (vs & E & HF).
      destruct (fit_vector_at_position_ok g x y Hh Hw) as (v & Ev).
      rewrite Ev, E. cbn [mbind result_bind Py.bind].
      exists (v :: vs). split; [reflexivity | constructor; assumption]. }
  unfold fit_vectors_at_positions_batch.
  destruct positions; [ | exact H].
  exists []. split; [reflexivity | constructor].
Qed.

(** Sampling a zero grid gives the zero vector. *)
Lemma sample_zeros (h w : nat) (x y : R) :
  (0 < h)%nat -> (0 < w)%nat ->
  fit_vector_at_position (zeros h w) (Fin x) (Fin y) = Ok (Fin 0, Fin 0).
Proof.
  intros Hh Hw.
  rewrite (fit_vector_at_position_finite (zeros h w) (fun _ _ => 0) (fun _ _ => 0))
    by (try apply zeros_holds; cbn; lia).
  f_equal; f_equal; f_equal; ring.
Qed.

(** ** Seeding never raises *)

Lemma add_vector_at_position_total (g : ndarray) (x y vx vy : xreal) :
  exists g', add_vector_at_position g x y vx vy = Ok g' /\
    height g' = height g /\ width g' = width g.
Proof.
  destruct (clamp_coordinate_finite (width g) x) as (cx & Hcx & _).
  destruct (clamp_coordinate_finite (height g) y) as (cy & Hcy & _).
  unfold add_vector_at_position. rewrite Hcx, Hcy.
  cbn -[try_pass splat_statements Z.min Z.add Z.sub].
  eexists. split; [reflexivity | ].
  match goal with |- context [try_pass ?b g] => set (body := b) end.
  destruct (try_pass_frame (height g) (width g) (fun _ _ => True) body) with (g := g)
    as (Hh & Hw & _); [ | reflexivity | reflexivity | split; assumption].
  subst body. unfold splat_statements.
  repeat (apply Forall_cons; split;
          [ intros g0 g1 Hh Hw Hs; apply iadd_item_frame in Hs;
            destruct Hs as (Hh1 & Hw1 & _); rewrite Hh1, Hw1;
            split; [exact Hh | split; [exact Hw | tauto]] | ]).
  apply Forall_nil. exact I.
Qed.

Lemma cross_offsets_eq : cross_offsets = [(0, -1); (-1, 0); (1, 0); (0, 1)]%Z.
Proof. reflexivity. Qed.

(** The cross seed of a particle at an integer-aligned interior coordinate:
    each of the four axis neighbours of its cell receives the unit vector
    that points away from the particle, times the magnitude; the cell
    itself receives nothing. *)
Lemma splat_cross_aligned (g : ndarray) (fx fy : nat -> nat -> R) (i j : nat) (mag : R) :
  holds g fx fy ->
  (1 <= i)%nat -> (i + 1 < height g)%nat -> (1 <= j)%nat -> (j + 1 < width g)%nat ->
  exists g' : ndarray,
    splat_cross g (of_nat j) (of_nat i) (Fin mag) = Ok g' /\
    height g' = height g /\ width g' = width g /\
    holds g' (bump (bump fx i (j - 1) (- mag)) i (j + 1) mag)
             (bump (bump fy (i - 1) j (- mag)) (i + 1) j mag).
Proof.
  intros Hg Hi Hi' Hj Hj'.
  unfold splat_cross. rewrite cross_offsets_eq. unfold of_nat.
  rewrite !clamp_coordinate_fin.
  rewrite (aligned_clamp (height g) i), (aligned_clamp (width g) j) by lia.
  rewrite <- !INR_IZR. cbn [foldl mbind result_bind Py.bind xadd xmul of_Z].
  replace (INR j + 0) with (INR j) by ring.
  replace (INR i + 0) with (INR i) by ring.
  replace (INR i + -1) with (INR (i - 1)) by (rewrite minus_INR by lia; cbn [INR]; ring).
  replace (INR j + -1) with (INR (j - 1)) by (rewrite minus_INR by lia; cbn [INR]; ring).
  replace (INR i + 1) with (INR (i + 1)) by (rewrite plus_INR; cbn [INR]; ring).
  replace (INR j + 1) with (INR (j + 1)) by (rewrite plus_INR; cbn [INR]; ring).
  destruct (splat_aligned g fx fy (i - 1) j (0 * mag) (-1 * mag) Hg)
    as (g1 & E1 & Hh1 & Hw1 & Hg1); [lia | lia | ].
  unfold of_nat in E1. rewrite E1. clear E1. cbn [mbind result_bind Py.bind].
  destruct (splat_aligned g1 _ _ i (j - 1) (-1 * mag) (0 * mag) Hg1)
    as (g2 & E2 & Hh2 & Hw2 & Hg2); [lia | lia | ].
  unfold of_nat in E2. rewrite E2. clear E2. cbn [mbind result_bind Py.bind].
  destruct (splat_aligned g2 _ _ i (j + 1) (1 * mag) (0 * mag) Hg2)
    as (g3 & E3 & Hh3 & Hw3 & Hg3); [lia | lia | ].
  unfold of_nat in E3. rewrite E3. clear E3. cbn [mbind result_bind Py.bind].
  destruct (splat_aligned g3 _ _ (i + 1) j (0 * mag) (1 * mag) Hg3)
    as (g4 & E4 & Hh4 & Hw4 & Hg4); [lia | lia | ].
  unfold of_nat in E4. rewrite E4. clear E4.
  exists g4. split; [reflexivity | ].
  split; [congruence | split; [congruence | ]].
  intros i' j'. rewrite Hg4. unfold bump.
  repeat match goal with
         | |- context [(?a =? ?b)%nat] => destruct (Nat.eqb_spec a b)
         end; cbn [andb]; try lia; f_equal; f_equal; ring.
Qed.

Lemma splat_cross_total (g : ndarray) (x y mag : xreal) :
  exists g', splat_cross g x y mag = Ok g' /\
    height g' = height g /\ width g' = width g.
Proof.
  unfold splat_cross. rewrite cross_offsets_eq. cbn [foldl].
  cbn [mbind result_bind Py.bind].
  repeat match goal with
  | |- context [add_vector_at_position ?g0 ?a ?b ?c ?d] =>
      let g1 := fresh "g" in
      let E := fresh "E" in
      let Hh := fresh "Hh" in
      let Hw := fresh "Hw" in
      destruct (add_vector_at_position_total g0 a b c d) as (g1 & E & Hh & Hw);
      rewrite E; cbn [mbind result_bind Py.bind]
  end.
  eexists; split; [reflexivity | split; congruence].
Qed.

Lemma create_tiny_vectors_batch_total (positions : list (xreal * xreal * xreal)) :
  forall g : ndarray,
  exists g', create_tiny_vectors_batch g positions = Ok g' /\
    height g' = height g /\ width g' = width g.
Proof.
  unfold create_tiny_vectors_batch.
  induction positions as [ | [[x y] mag] ps IH]; intros g; cbn [foldl].
  - exists g. auto.
  - cbn [mbind result_bind Py.bind].
    destruct (splat_cross_total g x y mag) as (g1 & E & Hh & Hw). rewrite E.
    destruct (IH g1) as (g' & E' & Hh' & Hw').
    exists g'. split; [exact E' | split; congruence].
Qed.

(** ** The examples of the repository's tests *)

(** tests/test_vector_field.py, [test_add_vector_at_position]: a splat of
    [(1, 1)] at [(2.5, 2.5)] on a 5 x 5 zero grid puts a quarter of the
    vector into each of the cells [(2..3, 2..3)]. *)
Example test_add_vector_at_position :
  exists (g' : ndarray) (fx fy : nat -> nat -> R),
    add_vector_at_position (create_vector_grid 5 5 (Fin 0, Fin 0))
      (Fin (5 / 2)) (Fin (5 / 2)) (Fin 1) (Fin 1) = Ok g' /\
    holds g' fx fy /\
    fx 2%nat 2%nat = 1 / 4 /\ fx 2%nat 3%nat = 1 / 4 /\
    fx 3%nat 2%nat = 1 / 4 /\ fx 3%nat 3%nat = 1 / 4 /\
    fx 1%nat 1%nat = 0.
Proof.
  unfold create_vector_grid. cbn [fst snd]. rewrite xis_zero_0. cbn [andb].
  destruct (add_vector_at_position_finite (zeros 5 5) _ _ (5 / 2) (5 / 2) 1 1
              (zeros_holds 5 5)) as (g' & E & _ & _ & Hg'); cbn [height width zeros]; try lia.
  cbn [height width zeros] in Hg'.
  assert (Hc : Rmax 0 (Rmin (INR 5 - 1) (5 / 2)) = 5 / 2).
  { cbn [INR]. unfold Rmax, Rmin; repeat destruct Rle_dec; lra. }
  assert (Hf : Zfloor (5 / 2) = 2%Z).
  { apply Zfloor_eq. lra. }
  rewrite Hc, Hf in Hg'.
  eexists; eexists; eexists. split; [exact E | split; [exact Hg' | ]].
  unfold bump.
  change (Z.to_nat (Z.min (2 + 1) (Z.of_nat 5 - 1))) with 3%nat.
  change (Z.to_nat 2) with 2%nat.
  cbn [Nat.eqb andb]. repeat split; lra.
Qed.

(** tests/test_vector_field.py, [test_sum_adjacent_vectors], with the
    weights the configuration registers (self 0.0, neighbour 0.25). *)
Example test_sum_adjacent_vectors :
  exists a b : R,
    sum_adjacent_vectors test_grid 1 1 (Fin 0) (Fin (1 / 4)) = (Fin a, Fin b) /\
    a = 1 / 4 /\ b = 0.
Proof.
  unfold sum_adjacent_vectors, neighbors, in_bounds, test_grid.
  cbn [fold_left height width cell].
  change (Z.of_nat 5) with 5%Z.
  cbn [Z.add Z.leb Z.ltb Z.compare Pos.compare Pos.compare_cont Pos.add Z.pos_sub
       Pos.succ Z.opp Z.succ_double Z.pred_double Z.double Pos.pred_double andb Z.to_nat Pos.to_nat
       Pos.iter_op Nat.add].
  unfold update_cell. cbn [Nat.eqb andb zeros cell accumulate fst snd xadd xmul].
  eexists; eexists; split; [reflexivity | split; lra].
Qed.

(** The asymmetry on a single cell: the point query sees no neighbour at
    all, the full-grid operator sees the cell itself four times. *)
Example single_cell_asymmetry (a b sw nw : R) :
  let g := {| height := 1; width := 1; cell := fun _ _ => (Fin a, Fin b) |} in
  (exists p q, sum_adjacent_vectors g 0 0 (Fin sw) (Fin nw) = (Fin p, Fin q) /\
     p = a * sw /\ q = b * sw) /\
  (exists g' p q, update_grid_with_adjacent_sum g (Fin sw) (Fin nw) = Ok g' /\
     cell g' 0%nat 0%nat = (Fin p, Fin q) /\
     p = a * sw + 4 * (a * nw) /\ q = b * sw + 4 * (b * nw)).
Proof.
  intros g. split.
  - unfold sum_adjacent_vectors. cbn. eexists; eexists; split; [reflexivity | split; lra].
  - destruct (update_grid_cells g (Fin sw) (Fin nw)) as (g' & E & _ & _ & Hc);
      [cbn; lia | cbn; lia | ].
    exists g'. rewrite (Hc 0%nat 0%nat) by (cbn; lia).
    unfold diffused, g. cbn [cell fst snd xmul xadd].
    eexists; eexists; split; [exact E | split; [reflexivity | split; lra]].
Qed.

(** ** Ranges and the empty grid *)

(** The sample on finite data, for every coordinate: the bilinear
    interpolation of the corner cells at the clamped coordinates. *)
Lemma fit_vector_at_position_bilinear (g : ndarray) (fx fy : nat -> nat -> R)
    (x y : xreal) :
  holds g fx fy -> (0 < height g)%nat -> (0 < width g)%nat ->
  exists (cx cy : R),
    clamp_coordinate (width g) x = Fin cx /\
    clamp_coordinate (height g) y = Fin cy /\
    let x0 := Zfloor cx in
    let x1 := Z.min (x0 + 1) (Z.of_nat (width g) - 1) in
    let y0 := Zfloor cy in
    let y1 := Z.min (y0 + 1) (Z.of_nat (height g) - 1) in
    let wx := cx - IZR x0 in
    let wy := cy - IZR y0 in
    let bilinear (f : nat -> nat -> R) :=
      (1 - wx) * (1 - wy) * f (Z.to_nat y0) (Z.to_nat x0)
      + wx * (1 - wy) * f (Z.to_nat y0) (Z.to_nat x1)
      + (1 - wx) * wy * f (Z.to_nat y1) (Z.to_nat x0)
      + wx * wy * f (Z.to_nat y1) (Z.to_nat x1) in
    (0 <= x0 < Z.of_nat (width g))%Z /\ (0 <= x1 < Z.of_nat (width g))%Z /\
    (0 <= y0 < Z.of_nat (height g))%Z /\ (0 <= y1 < Z.of_nat (height g))%Z /\
    0 <= wx < 1 /\ 0 <= wy < 1 /\
    fit_vector_at_position g x y = Ok (Fin (bilinear fx), Fin (bilinear fy)).
Proof.
  intros Hg Hh Hw.
  destruct (clamp_coordinate_finite (width g) x) as (cx & Ex & Hcx).
  destruct (clamp_coordinate_finite (height g) y) as (cy & Ey & Hcy).
  exists cx, cy. split; [exact Ex | split; [exact Ey | ]].
  unfold fit_vector_at_position. rewrite Ex, Ey.
  cbn [floor_int mbind result_bind Py.bind].
  pose proof (floor_clamped_in_range _ _ Hw Hcx) as Hx0.
  pose proof (floor_clamped_in_range _ _ Hh Hcy) as Hy0.
  pose proof (Zfloor_bound cx) as Bx. pose proof (Zfloor_bound cy) as By.
  cbv zeta.
  split; [lia | split; [lia | split; [lia | split; [lia | ]]]].
  split; [lra | split; [lra | ]].
  repeat (rewrite getitem_in_range by lia; cbn [mbind result_bind Py.bind]).
  rewrite !Hg. reflexivity.
Qed.

Lemma convex4 (a b c d lo hi wx wy : R) :
  0 <= wx <= 1 -> 0 <= wy <= 1 ->
  lo <= a <= hi -> lo <= b <= hi -> lo <= c <= hi -> lo <= d <= hi ->
  lo <= (1 - wx) * (1 - wy) * a + wx * (1 - wy) * b + (1 - wx) * wy * c + wx * wy * d
     <= hi.
Proof.
  intros Hx Hy Ha Hb Hc Hd.
  assert (H00 : 0 <= (1 - wx) * (1 - wy)) by (apply Rmult_le_pos; lra).
  assert (H01 : 0 <= wx * (1 - wy)) by (apply Rmult_le_pos; lra).
  assert (H10 : 0 <= (1 - wx) * wy) by (apply Rmult_le_pos; lra).
  assert (H11 : 0 <= wx * wy) by (apply Rmult_le_pos; lra).
  assert (Hs : (1 - wx) * (1 - wy) + wx * (1 - wy) + (1 - wx) * wy + wx * wy = 1) by ring.
  split.
  - replace lo with (((1 - wx) * (1 - wy) + wx * (1 - wy) + (1 - wx) * wy + wx * wy) * lo)
      by (rewrite Hs; ring).
    assert (0 <= (1 - wx) * (1 - wy) * (a - lo)) by (apply Rmult_le_pos; lra).
    assert (0 <= wx * (1 - wy) * (b - lo)) by (apply Rmult_le_pos; lra).
    assert (0 <= (1 - wx) * wy * (c - lo)) by (apply Rmult_le_pos; lra).
    assert (0 <= wx * wy * (d - lo)) by (apply Rmult_le_pos; lra).
    lra.
  - replace hi with (((1 - wx) * (1 - wy) + wx * (1 - wy) + (1 - wx) * wy + wx * wy) * hi)
      by (rewrite Hs; ring).
    assert (0 <= (1 - wx) * (1 - wy) * (hi - a)) by (apply Rmult_le_pos; lra).
    assert (0 <= wx * (1 - wy) * (hi - b)) by (apply Rmult_le_pos; lra).
    assert (0 <= (1 - wx) * wy * (hi - c)) by (apply Rmult_le_pos; lra).
    assert (0 <= wx * wy * (hi - d)) by (apply Rmult_le_pos; lra).
    lra.
Qed.

(** X3.  A sample never leaves the range of the data: on a non-empty grid
    of finite values whose components lie between [lo] and [hi], the
    vector sampled at any coordinate (out of range, infinite or nan as
    well) has its components between [lo] and [hi]; on a uniform grid the
    sample is the common value. *)
Theorem sample_within_range (g : ndarray) (fx fy : nat -> nat -> R)
    (x y : xreal) (lox hix loy hiy : R) :
  holds g fx fy -> (0 < height g)%nat -> (0 < width g)%nat ->
  (forall i j, (i < height g)%nat -> (j < width g)%nat ->
     lox <= fx i j <= hix /\ loy <= fy i j <= hiy) ->
  exists sx sy : R,
    fit_vector_at_position g x y = Ok (Fin sx, Fin sy) /\
    lox <= sx <= hix /\ loy <= sy <= hiy.
Proof.
  intros Hg Hh Hw Hb.
  destruct (fit_vector_at_position_bilinear g fx fy x y Hg Hh Hw)
    as (cx & cy & _ & _ & Hx0 & Hx1 & Hy0 & Hy1 & Hwx & Hwy & E).
  eexists _, _. split; [exact E | ].
  split; apply convex4; try lra; apply Hb; lia.
Qed.

Lemma sample_within_range_witness :
  exists sx sy : R,
    fit_vector_at_position (zeros 3 3) NaN (Fin (1 / 2)) = Ok (Fin sx, Fin sy) /\
    0 <= sx <= 0 /\ 0 <= sy <= 0.
Proof.
  apply (sample_within_range (zeros 3 3) (fun _ _ => 0) (fun _ _ => 0)
           NaN (Fin (1 / 2)) 0 0 0 0).
  - apply zeros_holds.
  - simpl; lia.
  - simpl; lia.
  - intros i j _ _. lra.
Defined.

Lemma index_empty (i : Z) : (0 <= i)%Z -> index 0 i = Raise IndexError.
Proof.
  intros Hi. unfold index.
  destruct (Z.ltb_spec i (Z.of_nat 0)); [lia | ].
  destruct (Z.ltb_spec i 0); [lia | ].
  rewrite !andb_false_r. reflexivity.
Qed.

Lemma empty_grid_item (g : ndarray) (y x : Z) (c : component) (d : xreal) :
  height g = 0%nat \/ width g = 0%nat -> (0 <= y)%Z -> (0 <= x)%Z ->
  getitem g y x c = Raise IndexError /\ iadd_item g y x c d = Raise IndexError.
Proof.
  intros Hempty Hy Hx. unfold getitem, iadd_item.
  destruct (index (height g) y) as [i | e] eqn:Ei.
  - apply index_ok in Ei. destruct Ei as [Hi _].
    destruct Hempty as [H | H]; [lia | ].
    rewrite H, (index_empty x Hx). split; reflexivity.
  - unfold index in Ei.
    destruct ((0 <=? y)%Z && (y <? Z.of_nat (height g))%Z); [discriminate | ].
    destruct ((- Z.of_nat (height g) <=? y)%Z && (y <? 0)%Z); [discriminate | ].
    injection Ei as <-. split; reflexivity.
Qed.

(** X4.  The empty grid.  On a grid without rows or without columns a
    splat changes nothing and returns normally (the IndexError of its first
    write is caught), a cross seed likewise, while a sample raises
    IndexError to its caller, whatever the coordinates. *)
Theorem empty_grid_splat_and_sample (g : ndarray) (x y vx vy mag : xreal) :
  height g = 0%nat \/ width g = 0%nat ->
  add_vector_at_position g x y vx vy = Ok g /\
  create_tiny_vector g x y mag = Ok g /\
  fit_vector_at_position g x y = Raise IndexError.
Proof.
  intros Hempty.
  assert (Hsplat : forall x y vx vy, add_vector_at_position g x y vx vy = Ok g).
  { clear x y vx vy. intros x y vx vy.
    destruct (clamp_coordinate_finite (width g) x) as (cx & Ex & Hcx).
    destruct (clamp_coordinate_finite (height g) y) as (cy & Ey & Hcy).
    unfold add_vector_at_position. rewrite Ex, Ey.
    cbn [floor_int mbind result_bind Py.bind]. f_equal.
    unfold splat_statements. cbn [try_pass].
    rewrite (proj2 (empty_grid_item g (Zfloor cy) (Zfloor cx) C0 _ Hempty
                      ltac:(apply (Zfloor_lub 0); lra) ltac:(apply (Zfloor_lub 0); lra))).
    reflexivity. }
  split; [apply Hsplat | split].
  - unfold create_tiny_vector, splat_cross. rewrite cross_offsets_eq.
    cbn [foldl mbind result_bind Py.bind].
    repeat (rewrite Hsplat; cbn [mbind result_bind Py.bind]). reflexivity.
  - destruct (clamp_coordinate_finite (width g) x) as (cx & Ex & Hcx).
    destruct (clamp_coordinate_finite (height g) y) as (cy & Ey & Hcy).
    unfold fit_vector_at_position. rewrite Ex, Ey.
    cbn [floor_int mbind result_bind Py.bind].
    rewrite (proj1 (empty_grid_item g (Zfloor cy) (Zfloor cx) C0 NaN Hempty
                      ltac:(apply (Zfloor_lub 0); lra) ltac:(apply (Zfloor_lub 0); lra))).
    reflexivity.
Qed.

Lemma empty_grid_splat_and_sample_witness :
  add_vector_at_position (zeros 0 4) (Fin 1) (Fin 1) (Fin 1) (Fin 1) = Ok (zeros 0 4) /\
  create_tiny_vector (zeros 0 4) (Fin 1) (Fin 1) (Fin 1) = Ok (zeros 0 4) /\
  fit_vector_at_position (zeros 0 4) (Fin 1) (Fin 1) = Raise IndexError.
Proof.
  apply (empty_grid_splat_and_sample (zeros 0 4) (Fin 1) (Fin 1) (Fin 1) (Fin 1) (Fin 1)).
  left. reflexivity.
Defined.





(** ** The seeds and the samples of a tick, on finite data *)

(** The cross seed of a particle of magnitude 1 in the corner [(0, 0)] of
    a 3 x 3 zero field: the two splats that fall outside are clamped back
    onto the corner cell, so the field sampled at the corner afterwards is
    [(-1, -1)], not the [(0, 0)] of the field before the seed. *)
Example corner_seed_is_sampled :
  spec_sample 3 3 (spec_seeded 3 3 fst (fun _ _ => 0) [(0, 0, 1)]) 0 0 = -1 /\
  spec_sample 3 3 (spec_seeded 3 3 snd (fun _ _ => 0) [(0, 0, 1)]) 0 0 = -1.
Proof.
  assert (C0 : clamp 3 0 = 0).
  { unfold clamp, Rmax, Rmin. cbn [INR]. repeat destruct Rle_dec; lra. }
  assert (Cm : clamp 3 (0 + IZR (-1)) = 0).
  { unfold clamp, Rmax, Rmin. cbn [INR]. repeat destruct Rle_dec; lra. }
  assert (Cz : clamp 3 (0 + IZR 0) = 0).
  { unfold clamp, Rmax, Rmin. cbn [INR]. repeat destruct Rle_dec; lra. }
  assert (Cp : clamp 3 (0 + IZR 1) = 1).
  { unfold clamp, Rmax, Rmin. cbn [INR]. repeat destruct Rle_dec; lra. }
  unfold spec_sample, spec_seeded, spec_splat_cross, spec_splat.
  cbn [fold_left fst snd]. rewrite !C0, ?Cm, ?Cz, ?Cp, !ZfloorZ.
  unfold bump.
  repeat match goal with
         | |- context [Z.to_nat ?z] =>
             let v := eval vm_compute in (Z.to_nat z) in
             change (Z.to_nat z) with v
         end.
  cbn [Nat.eqb andb]. split; lra.
Qed.




End CPUFacts.

(* ===================================================================== *)
(** * Facts about the particle set *)
(* ===================================================================== *)

Module MarkerFacts.
Import NumFacts CPU GridSpec CPUFacts MarkerSystem MarkerSpec.

(** ** The object store *)

Lemma alloc_fresh (h : gmap loc pyobj) (o : pyobj) :
  h !! (alloc h o).1 = None /\ (alloc h o).2 = <[(alloc h o).1 := o]> h.
Proof.
  unfold alloc. cbn [fst snd]. split; [ | reflexivity].
  apply not_elem_of_dom. apply is_fresh.
Qed.

Lemma lookup_alloc_old (h : gmap loc pyobj) (o o' : pyobj) (l : loc) :
  h !! l = Some o' -> (alloc h o).2 !! l = Some o'.
Proof.
  intros Hl. destruct (alloc_fresh h o) as [Hf ->].
  rewrite lookup_insert_ne; [exact Hl | ]. intros <-. congruence.
Qed.

Lemma lookup_alloc_new (h : gmap loc pyobj) (o : pyobj) :
  (alloc h o).2 !! (alloc h o).1 = Some o.
Proof. destruct (alloc_fresh h o) as [_ ->]. apply lookup_insert_eq. Qed.

Lemma Forall2_dicts_alloc (h : gmap loc pyobj) (o : pyobj) items ms :
  Forall2 (fun l m => h !! l = Some (PyDict m)) items ms ->
  Forall2 (fun l m => (alloc h o).2 !! l = Some (PyDict m)) items ms.
Proof.
  intros H. eapply Forall2_impl; [exact H | ].
  intros l m Hl. apply lookup_alloc_old. exact Hl.
Qed.

Lemma list_items_eq (h : gmap loc pyobj) (l : loc) (items : list loc) :
  h !! l = Some (PyList items) -> list_items h l = Ok items.
Proof. intros H. unfold list_items. rewrite H. reflexivity. Qed.

Lemma marker_at_eq (h : gmap loc pyobj) (l : loc) (m : marker) :
  h !! l = Some (PyDict m) -> marker_at h l = Ok m.
Proof. intros H. unfold marker_at. rewrite H. reflexivity. Qed.

Lemma list_copy_eq (h : gmap loc pyobj) (l : loc) (items : list loc) :
  h !! l = Some (PyList items) -> list_copy h l = Ok (alloc h (PyList items)).
Proof. intros H. unfold list_copy. rewrite (list_items_eq _ _ _ H). reflexivity. Qed.

(** [_sync_to_state_manager] stores a new list of the same dicts. *)
Lemma sync_to_state_manager_set (s : state) items ms :
  heap s !! markers s = Some (PyList items) ->
  NoDup items ->
  Forall2 (fun l m => heap s !! l = Some (PyDict m)) items ms ->
  particle_set (_sync_to_state_manager s) items ms /\
  markers (_sync_to_state_manager s) = markers s /\
  (forall l o, heap s !! l = Some o -> heap (_sync_to_state_manager s) !! l = Some o).
Proof.
  intros Hm Hnd Hd. unfold _sync_to_state_manager.
  rewrite (list_copy_eq _ _ _ Hm).
  destruct (alloc (heap s) (PyList items)) as [l h] eqn:E.
  cbn [mbind result_bind Py.bind try_except].
  assert (Hh : h = (alloc (heap s) (PyList items)).2) by (rewrite E; reflexivity).
  assert (Hl : l = (alloc (heap s) (PyList items)).1) by (rewrite E; reflexivity).
  unfold particle_set. cbn [heap markers state_markers]. subst h l.
  repeat split.
  - apply lookup_alloc_old. exact Hm.
  - exact Hnd.
  - apply Forall2_dicts_alloc. exact Hd.
  - apply lookup_alloc_new.
  - intros l o Hl. apply lookup_alloc_old. exact Hl.
Qed.

(** [_sync_markers_from_state] replaces [self.markers] by a new list of
    the same dicts. *)
Lemma sync_markers_from_state_set (s : state) items ms :
  particle_set s items ms ->
  particle_set (_sync_markers_from_state s) items ms /\
  (forall l o, heap s !! l = Some o -> heap (_sync_markers_from_state s) !! l = Some o).
Proof.
  intros (Hm & Hnd & Hd & Hst). unfold _sync_markers_from_state.
  destruct (state_markers s) as [stored | ] eqn:Es.
  - rewrite (list_copy_eq _ _ _ Hst).
    destruct (alloc (heap s) (PyList items)) as [l h] eqn:E.
    cbn [mbind result_bind Py.bind try_except].
    assert (Hh : h = (alloc (heap s) (PyList items)).2) by (rewrite E; reflexivity).
    assert (Hl : l = (alloc (heap s) (PyList items)).1) by (rewrite E; reflexivity).
    unfold particle_set. cbn [heap markers state_markers]. rewrite ?Es. subst h l.
    repeat split.
    + apply lookup_alloc_new.
    + exact Hnd.
    + apply Forall2_dicts_alloc. exact Hd.
    + apply lookup_alloc_old. exact Hst.
    + intros l o Hl. apply lookup_alloc_old. exact Hl.
  - cbn [try_except]. split; [ | auto].
    unfold particle_set. rewrite Es. auto.
Qed.

Lemma mapM_dicts {B} (h : gmap loc pyobj) (f : marker -> B) items ms :
  Forall2 (fun l m => h !! l = Some (PyDict m)) items ms ->
  mapM (fun l => m ← marker_at h l; Ok (f m)) items = Ok (map f ms).
Proof.
  induction 1 as [ | l m items ms Hl _ IH]; [reflexivity | ].
  cbn [mapM map]. rewrite (marker_at_eq _ _ _ Hl).
  cbn [mbind result_bind Py.bind]. 
  rewrite IH. reflexivity.
Qed.

Lemma mapM_marker_at (h : gmap loc pyobj) items ms :
  Forall2 (fun l m => h !! l = Some (PyDict m)) items ms ->
  mapM (marker_at h) items = Ok ms.
Proof.
  induction 1 as [ | l m items ms Hl _ IH]; [reflexivity | ].
  cbn [mapM]. rewrite (marker_at_eq _ _ _ Hl), IH. reflexivity.
Qed.

Lemma Forall2_dicts_insert (h : gmap loc pyobj) (l : loc) (o : pyobj) items ms :
  l ∉ items ->
  Forall2 (fun l0 m => h !! l0 = Some (PyDict m)) items ms ->
  Forall2 (fun l0 m => <[l := o]> h !! l0 = Some (PyDict m)) items ms.
Proof.
  intros Hn H. induction H as [ | l0 m items ms Hl _ IH]; [constructor | ].
  apply not_elem_of_cons in Hn. destruct Hn as [Hne Hn].
  constructor; [ | apply IH; exact Hn].
  rewrite lookup_insert_ne by congruence. exact Hl.
Qed.

Section UpdateLoop.
Variables (dt gravity speed_factor cell_size : scalar) (gw gh : nat).

(** The loop of [update_markers] over distinct dicts: every dict is
    replaced by its update with the vector of its index, nothing else
    changes, and [new_markers] receives the same dicts in the same order. *)
Lemma update_loop_spec (items : list loc) (ms : list marker) :
  Forall2 (fun l m => True) items ms ->
  forall (fvs : list (scalar * scalar)) (h : gmap loc pyobj) (acc : list loc),
  Forall2 (fun l m => h !! l = Some (PyDict m)) items ms ->
  NoDup items -> length fvs = length ms ->
  exists h',
    update_loop h items fvs dt gravity speed_factor cell_size gw gh acc
      = Ok (h', acc ++ items) /\
    Forall2 (fun l m => h' !! l = Some (PyDict m)) items
      (zip_with (fun m fv => _update_single_marker m fv dt gravity speed_factor
                               cell_size gw gh) ms fvs) /\
    (forall l, l ∉ items -> h' !! l = h !! l).
Proof.
  induction 1 as [ | l m items ms _ _ IH]; intros fvs h acc Hd Hnd Hlen.
  - exists h. cbn [update_loop]. rewrite app_nil_r.
    split; [reflexivity | split; [constructor | reflexivity]].
  - destruct fvs as [ | fv fvs]; [discriminate | ].
    apply Forall2_cons_1 in Hd. destruct Hd as [Hl Hd].
    apply NoDup_cons in Hnd. destruct Hnd as [Hnotin Hnd].
    cbn [update_loop]. rewrite (marker_at_eq _ _ _ Hl).
    cbn [mbind result_bind Py.bind].
    destruct (IH fvs (<[l := PyDict (_update_single_marker m fv dt gravity
                                       speed_factor cell_size gw gh)]> h) (acc ++ [l]))
      as (h' & E & HF & Hout).
    + apply Forall2_dicts_insert; assumption.
    + exact Hnd.
    + cbn [length] in Hlen. lia.
    + exists h'. rewrite E, <- app_assoc. cbn [app zip_with].
      split; [reflexivity | split].
      * constructor; [ | exact HF].
        rewrite (Hout l Hnotin). apply lookup_insert_eq.
      * intros l0 Hl0. apply not_elem_of_cons in Hl0. destruct Hl0 as [Hne Hl0].
        rewrite (Hout l0 Hl0). apply lookup_insert_ne. congruence.
Qed.

End UpdateLoop.

Lemma stored_particles_eq (s : state) items ms :
  particle_set s items ms -> stored_particles s = Ok ms.
Proof.
  intros (Hm & _ & Hd & _). unfold stored_particles.
  rewrite (list_items_eq _ _ _ Hm). cbn [mbind result_bind Py.bind].
  apply mapM_marker_at. exact Hd.
Qed.

Lemma update_markers_list_set (s : state) items ms :
  NoDup items ->
  Forall2 (fun l m => heap s !! l = Some (PyDict m)) items ms ->
  particle_set (_update_markers_list s items) items ms.
Proof.
  intros Hnd Hd. unfold _update_markers_list.
  destruct (alloc (heap s) (PyList items)) as [l h] eqn:E.
  assert (Hh : h = (alloc (heap s) (PyList items)).2) by (rewrite E; reflexivity).
  assert (Hl : l = (alloc (heap s) (PyList items)).1) by (rewrite E; reflexivity).
  apply sync_to_state_manager_set; cbn [heap markers]; subst h l.
  - apply lookup_alloc_new.
  - exact Hnd.
  - apply Forall2_dicts_alloc. exact Hd.
Qed.

(** [update_markers] on a non-empty grid: no exception reaches the caller,
    the particle set consists of the same dicts in the same order, and each
    dict holds its update with the vector sampled at its own position. *)
Lemma update_markers_spec (s : state) (grid : ndarray)
    (dt gravity speed_factor cell_size : scalar) items ms :
  particle_set s items ms ->
  (0 < height grid)%nat -> (0 < width grid)%nat ->
  exists s' vs,
    CPU.fit_vectors_at_positions_batch grid (map position ms) = Ok vs /\
    length vs = length ms /\
    update_markers s grid dt gravity speed_factor cell_size = Ok s' /\
    particle_set s' items
      (zip_with (fun m fv => _update_single_marker m fv dt gravity speed_factor
                               cell_size (width grid) (height grid))
         ms (map np_pair vs)).
Proof.
  intros Hs Hh Hw.
  destruct (sync_markers_from_state_set s items ms Hs) as [(Hm & Hnd & Hd & Hst) _].
  destruct (fit_vectors_at_positions_batch_ok grid (map position ms) Hh Hw)
    as (vs & Efit & HF).
  assert (Hlen : length vs = length ms).
  { apply Forall2_length in HF. rewrite length_map in HF. symmetry. exact HF. }
  set (s0 := _sync_markers_from_state s) in *.
  destruct (update_loop_spec dt gravity speed_factor cell_size (width grid) (height grid)
              items ms (Forall2_impl _ _ _ _ Hd (fun _ _ _ => I))
              (map np_pair vs) (heap s0) [] Hd Hnd)
    as (h' & Eloop & Hd' & _).
  { rewrite length_map. exact Hlen. }
  eexists. exists vs. split; [exact Efit | split; [exact Hlen | ]].
  unfold update_markers. fold s0.
  unfold _collect_marker_positions.
  rewrite (list_items_eq _ _ _ Hm). cbn [mbind result_bind Py.bind].
  rewrite (mapM_dicts (heap s0) (fun m => (key_x m, key_y m)) items ms Hd).
  cbn [mbind result_bind Py.bind].
  unfold _fit_vectors_batch. rewrite map_map.
  change (map (fun x => (value (key_x x, key_y x).1, value (key_x x, key_y x).2)) ms)
    with (map position ms).
  rewrite Efit. cbn [mbind result_bind Py.bind].
  change (map (fun v : vec2 => (np_float v.1, np_float v.2)) vs) with (map np_pair vs).
  rewrite Eloop. cbn [mbind result_bind Py.bind app].
  split; [reflexivity | ].
  apply update_markers_list_set; [exact Hnd | exact Hd'].
Qed.

(** ** The invariant of the particle set *)

Lemma new_particle_set : particle_set new [] [].
Proof.
  unfold new.
  destruct (alloc_fresh ∅ (PyList [])) as [_ Hins].
  destruct (alloc ∅ (PyList [])) as [l h]. cbn [fst snd] in Hins.
  unfold particle_set. cbn [heap markers state_markers]. subst h.
  split; [apply lookup_insert_eq | ].
  split; [apply NoDup_nil_2 | ].
  split; [constructor | exact I].
Qed.

Lemma clear_markers_particle_set (s : state) : particle_set (clear_markers s) [] [].
Proof.
  unfold clear_markers.
  destruct (alloc_fresh (heap s) (PyList [])) as [_ Hins].
  destruct (alloc (heap s) (PyList [])) as [l h]. cbn [fst snd] in Hins.
  apply sync_to_state_manager_set; cbn [heap markers]; subst h.
  - apply lookup_insert_eq.
  - apply NoDup_nil_2.
  - constructor.
Qed.

Lemma add_marker_particle_set (s : state) (items : list loc) (ms : list marker)
    (x y mag vx vy : xreal) :
  particle_set s items ms ->
  exists (s' : state) (l : loc),
    add_marker s x y mag vx vy = Ok s' /\
    particle_set s' (items ++ [l])
      (ms ++ [{| key_x := py_float x; key_y := py_float y; key_mag := py_float mag;
                 key_vx := py_float vx; key_vy := py_float vy |}]).
Proof.
  intros (Hm & Hnd & Hd & Hst). unfold add_marker.
  set (marker := {| key_x := py_float x; key_y := py_float y; key_mag := py_float mag;
                    key_vx := py_float vx; key_vy := py_float vy |}).
  destruct (alloc_fresh (heap s) (PyDict marker)) as [Hfresh Hins].
  destruct (alloc (heap s) (PyDict marker)) as [l h]. cbn [fst snd] in Hfresh, Hins.
  assert (Hlm : l <> markers s) by (intros ->; congruence).
  assert (Hitems : list_items h (markers s) = Ok items).
  { apply list_items_eq. subst h. rewrite lookup_insert_ne by exact Hlm. exact Hm. }
  rewrite Hitems. cbn [mbind result_bind Py.bind].
  eexists. exists l. split; [reflexivity | ].
  assert (Hnotin : l ∉ items).
  { intros Hin. apply list_elem_of_lookup in Hin. destruct Hin as [k Hk].
    destruct (Forall2_lookup_l _ _ _ _ _ Hd Hk) as (m & _ & Hl). congruence. }
  apply sync_to_state_manager_set; cbn [heap markers]; subst h.
  - apply lookup_insert_eq.
  - apply NoDup_app. split; [exact Hnd | split].
    + intros l0 Hl0 Hl1. apply list_elem_of_singleton in Hl1. subst l0. contradiction.
    + apply NoDup_singleton.
  - apply Forall2_app.
    + apply Forall2_dicts_insert.
      * intros Hin. apply list_elem_of_lookup in Hin. destruct Hin as [k Hk].
        destruct (Forall2_lookup_l _ _ _ _ _ Hd Hk) as (m & _ & Hl). congruence.
      * apply Forall2_dicts_insert; assumption.
    + constructor; [ | constructor].
      rewrite lookup_insert_ne by congruence. apply lookup_insert_eq.
Qed.

(** [update_markers] keeps the particle set well formed. *)
Lemma update_markers_particle_set (s : state) (grid : ndarray)
    (dt gravity speed_factor cell_size : scalar) items ms :
  particle_set s items ms ->
  (0 < height grid)%nat -> (0 < width grid)%nat ->
  exists s' ms', update_markers s grid dt gravity speed_factor cell_size = Ok s' /\
    particle_set s' items ms'.
Proof.
  intros Hs Hh Hw.
  destruct (update_markers_spec s grid dt gravity speed_factor cell_size items ms Hs Hh Hw)
    as (s' & vs & _ & _ & E & Hs').
  eauto.
Qed.

Local Open Scope R_scope.

(** ** The update of one particle *)

Lemma value_max (a b : scalar) : value (Scalar.max a b) = py_max (value a) (value b).
Proof. unfold Scalar.max, py_max. destruct (xltb (value a) (value b)); reflexivity. Qed.

Lemma value_min (a b : scalar) : value (Scalar.min a b) = py_min (value a) (value b).
Proof. unfold Scalar.min, py_min. destruct (xltb (value b) (value a)); reflexivity. Qed.

Lemma truediv_nonzero (a b : scalar) (r : R) :
  value b = Fin r -> r <> 0 -> truediv a b = Ok (binop xdiv a b).
Proof.
  intros Hb Hr. unfold truediv. rewrite Hb. cbn [xis_zero].
  rewrite (Reqb_false _ _ Hr), andb_false_r. reflexivity.
Qed.

Lemma xdiv_fin (a b : R) : b <> 0 -> xdiv (Fin a) (Fin b) = Fin (a / b).
Proof. intros Hb. cbn [xdiv]. rewrite (Reqb_false _ _ Hb). reflexivity. Qed.




Lemma add_fin (k1 k2 : bool) (a b : R) :
  Scalar.add (fin_scalar k1 a) (fin_scalar k2 b) = fin_scalar (k1 || k2) (a + b).
Proof. reflexivity. Qed.

Lemma mul_fin (k1 k2 : bool) (a b : R) :
  mul (fin_scalar k1 a) (fin_scalar k2 b) = fin_scalar (k1 || k2) (a * b).
Proof. reflexivity. Qed.

Lemma truediv_fin (k1 k2 : bool) (a b : R) :
  b <> 0 -> truediv (fin_scalar k1 a) (fin_scalar k2 b) = Ok (fin_scalar (k1 || k2) (a / b)).
Proof.
  intros Hb. rewrite (truediv_nonzero _ _ b) by (reflexivity || assumption).
  unfold binop, fin_scalar. cbn [value is_numpy]. rewrite xdiv_fin by assumption.
  reflexivity.
Qed.

Lemma max_fin (k1 k2 : bool) (a b : R) :
  exists k, Scalar.max (fin_scalar k1 a) (fin_scalar k2 b) = fin_scalar k (Rmax a b).
Proof.
  unfold Scalar.max, fin_scalar. cbn [value xltb].
  destruct (Rltb_spec a b).
  - exists k2. rewrite Rmax_right by lra. reflexivity.
  - exists k1. rewrite Rmax_left by lra. reflexivity.
Qed.

Lemma min_fin (k1 k2 : bool) (a b : R) :
  exists k, Scalar.min (fin_scalar k1 a) (fin_scalar k2 b) = fin_scalar k (Rmin a b).
Proof.
  unfold Scalar.min, fin_scalar. cbn [value xltb].
  destruct (Rltb_spec b a).
  - exists k2. rewrite Rmin_right by lra. reflexivity.
  - exists k1. rewrite Rmin_left by lra. reflexivity.
Qed.

Lemma update_position_finite (k1 k2 k3 k4 k5 : bool) (x y vx vy dt : R) (w h : nat) :
  exists k1' k2',
    _update_position (fin_scalar k1 x) (fin_scalar k2 y) (fin_scalar k3 vx)
      (fin_scalar k4 vy) (fin_scalar k5 dt) w h
    = (fin_scalar k1' (spec_integrate w h dt (x, y) (vx, vy)).1,
       fin_scalar k2' (spec_integrate w h dt (x, y) (vx, vy)).2).
Proof.
  unfold _update_position, spec_integrate. cbn [fst snd].
  rewrite !mul_fin, !add_fin.
  change (py_float (Fin 0)) with (fin_scalar false 0).
  change (py_float (xsub (of_nat w) (Fin 1))) with (fin_scalar false (INR w - 1)).
  change (py_float (xsub (of_nat h) (Fin 1))) with (fin_scalar false (INR h - 1)).
  destruct (min_fin false (k1 || (k3 || k5)) (INR w - 1) (x + vx * dt)) as [ka ->].
  destruct (min_fin false (k2 || (k4 || k5)) (INR h - 1) (y + vy * dt)) as [kb ->].
  destruct (max_fin false ka 0 (Rmin (INR w - 1) (x + vx * dt))) as [kc ->].
  destruct (max_fin false kb 0 (Rmin (INR h - 1) (y + vy * dt))) as [kd ->].
  exists kc, kd. reflexivity.
Qed.

Lemma clamp_velocity_finite (k1 k2 k3 : bool) (vx vy cs : R) :
  0 <= cs ->
  exists k1' k2',
    _clamp_velocity (fin_scalar k1 vx) (fin_scalar k2 vy) (fin_scalar k3 cs)
    = Ok (fin_scalar k1' (spec_speed_clamp cs (vx, vy)).1,
          fin_scalar k2' (spec_speed_clamp cs (vx, vy)).2).
Proof.
  intros Hcs.
  unfold _clamp_velocity, spec_speed_clamp, gtb, pow_half, square, Scalar.add,
    binop, fin_scalar, norm.
  cbn [value is_numpy xsquare xmul xadd xpow_half fst snd].
  rewrite (Rltb_false (vx * vx + vy * vy) 0) by nra.
  cbn [xltb]. set (s := sqrt (vx * vx + vy * vy)).
  assert (0 <= s) by apply sqrt_pos.
  unfold Rltb. destruct (Rlt_dec cs s) as [Hlt | Hge].
  - rewrite !(truediv_nonzero _ _ s) by (reflexivity || lra).
    cbn [mbind result_bind Py.bind]. unfold mul, binop.
    cbn [value is_numpy]. rewrite !xdiv_fin by lra. cbn [xmul fst snd].
    eexists; eexists; reflexivity.
  - eexists; eexists; reflexivity.
Qed.

(** The new content of the dict of a particle of non-zero magnitude. *)
Lemma update_single_marker_finite
    (kx ky km kvx kvy kfx kfy kdt kg ksf kcs : bool)
    (x y mag vx vy fx fy dt gravity damping cell_size : R) (w h : nat) :
  mag <> 0 -> 0 <= cell_size ->
  let v2 := spec_speed_clamp cell_size (spec_feedback mag (fx, fy) (vx, vy)) in
  let p := spec_integrate w h dt (x, y) v2 in
  let v3 := spec_gravity_damping gravity dt damping v2 in
  marker_values
    (_update_single_marker
       {| key_x := fin_scalar kx x; key_y := fin_scalar ky y;
          key_mag := fin_scalar km mag;
          key_vx := fin_scalar kvx vx; key_vy := fin_scalar kvy vy |}
       (fin_scalar kfx fx, fin_scalar kfy fy)
       (fin_scalar kdt dt) (fin_scalar kg gravity) (fin_scalar ksf damping)
       (fin_scalar kcs cell_size) w h)
  = (Fin p.1, Fin p.2, Fin mag, Fin v3.1, Fin v3.2).
Proof.
  intros Hmag Hcs v2 p v3.
  unfold _update_single_marker, update_single_marker_body.
  cbn [key_x key_y key_mag key_vx key_vy].
  rewrite !truediv_fin by assumption.
  cbn [mbind result_bind Py.bind]. rewrite !add_fin.
  destruct (clamp_velocity_finite (kvx || (kfx || km)) (kvy || (kfy || km)) kcs
              (vx + fx / mag) (vy + fy / mag) cell_size Hcs) as (k1 & k2 & ->).
  cbn [mbind result_bind Py.bind].
  change (vx + fx / mag, vy + fy / mag) with (spec_feedback mag (fx, fy) (vx, vy)).
  fold v2.
  destruct (update_position_finite kx ky k1 k2 kdt x y v2.1 v2.2 dt w h)
    as (k3 & k4 & ->).
  unfold _apply_physics. rewrite !mul_fin, !add_fin, !mul_fin.
  cbn [try_except marker_values key_x key_y key_mag key_vx key_vy].
  unfold fin_scalar. cbn [value].
  replace (v2.1, v2.2) with v2 by (destruct v2; reflexivity).
  reflexivity.
Qed.



(** ** Particles of magnitude zero, the tick, the snapshot *)

Lemma one_particle_set (m : marker) : particle_set (one_particle m) [2%positive] [m].
Proof.
  unfold particle_set, one_particle. cbn [heap markers state_markers].
  split; [ | split; [ | split; [ | exact I]]].
  - rewrite lookup_insert_ne by discriminate. apply lookup_insert_eq.
  - apply NoDup_singleton.
  - constructor; [apply lookup_insert_eq | constructor].
Qed.

(** With a numpy operand the division by a zero magnitude does not raise:
    the velocity becomes nan and the position is clamped to the far
    corner. *)
Lemma update_still_marker :
  marker_values
    (_update_single_marker still_marker (np_pair (Fin 0, Fin 0))
       (py_float (Fin 1)) (py_float (Fin (1 / 100))) (py_float (Fin (9 / 10)))
       (py_float (Fin 1)) 3 3)
  = (Fin 2, Fin 2, Fin 0, NaN, NaN).
Proof.
  unfold _update_single_marker, update_single_marker_body, still_marker, np_pair.
  cbn [key_x key_y key_mag key_vx key_vy fst snd].
  unfold truediv. cbn [is_numpy np_float py_float orb negb andb].
  cbn [mbind result_bind Py.bind]. unfold binop. cbn [is_numpy value np_float py_float xdiv].
  rewrite !(Reqb_true 0 0) by reflexivity.
  unfold Scalar.add, binop. cbn [is_numpy value py_float xadd orb].
  unfold _clamp_velocity, pow_half, square, Scalar.add, binop, gtb.
  cbn [is_numpy value py_float xsquare xmul xadd xpow_half xltb].
  cbn [mbind result_bind Py.bind].
  unfold _update_position, Scalar.max, Scalar.min, Scalar.add, mul, binop.
  cbn [is_numpy value py_float xmul xadd xltb xsub xopp of_nat].
  rewrite (Rltb_true 0 (INR 3 + - (1))) by (cbn [INR]; lra).
  unfold _apply_physics, Scalar.add, mul, binop.
  cbn [is_numpy value py_float xmul xadd try_except marker_values
       key_x key_y key_mag key_vx key_vy].
  unfold marker_values. cbn [key_x key_y key_mag key_vx key_vy value py_float].
  replace (INR 3 + - (1)) with 2 by (cbn [INR]; lra). reflexivity.
Qed.

Lemma special_add_fin_l (r : R) (a : xreal) : special a -> special (xadd (Fin r) a).
Proof. destruct a; cbn; auto. Qed.

Lemma special_add_fin_r (r : R) (a : xreal) : special a -> special (xadd a (Fin r)).
Proof. destruct a; cbn; auto. Qed.

Lemma special_add (a b : xreal) : special a -> special b -> special (xadd a b).
Proof. destruct a, b; cbn; auto. Qed.

Lemma special_mul_fin (r : R) (a : xreal) : special a -> special (xmul a (Fin r)).
Proof.
  destruct a; cbn; auto; intros _; unfold inf_times;
    destruct (Reqb r 0); cbn; auto; destruct (Rltb r 0); cbn; auto.
Qed.

Lemma special_square (a : xreal) : special a -> special (xsquare a).
Proof. destruct a; cbn; auto. Qed.

Lemma special_pow_half (a : xreal) : special a -> special (xpow_half a).
Proof. destruct a; cbn; auto; intros []. Qed.

Lemma special_div_zero (r : R) : special (xdiv (Fin r) (Fin 0)).
Proof.
  cbn. rewrite (Reqb_true 0 0) by reflexivity.
  destruct (Reqb r 0); cbn; auto. destruct (Rltb r 0); cbn; auto.
Qed.

Lemma special_div_special (a b : xreal) : special a -> special b -> special (xdiv a b).
Proof. destruct a, b; cbn; tauto. Qed.

(** This is so for every particle of magnitude zero, in whatever finite
    state, and every finite vector sampled for it: the division of a numpy
    scalar raises nothing, and both components of the velocity come out as
    an infinity or nan. *)
Lemma update_single_marker_zero_magnitude
    (kx ky km kvx kvy kdt kg ksf kcs : bool)
    (x y vx vy fx fy dt gravity damping cell_size : R) (w h : nat) :
  let m' :=
    _update_single_marker
      {| key_x := fin_scalar kx x; key_y := fin_scalar ky y;
         key_mag := fin_scalar km 0;
         key_vx := fin_scalar kvx vx; key_vy := fin_scalar kvy vy |}
      (np_pair (Fin fx, Fin fy))
      (fin_scalar kdt dt) (fin_scalar kg gravity) (fin_scalar ksf damping)
      (fin_scalar kcs cell_size) w h in
  special (value (key_vx m')) /\ special (value (key_vy m')).
Proof.
  unfold _update_single_marker, update_single_marker_body, np_pair.
  cbn [key_x key_y key_mag key_vx key_vy fst snd].
  unfold truediv. cbn [is_numpy np_float fin_scalar orb negb andb].
  cbn [mbind result_bind Py.bind].
  pose proof (special_div_zero fx) as Hqx. pose proof (special_div_zero fy) as Hqy.
  unfold binop at 1 2. cbn [value is_numpy].
  set (qx := xdiv (Fin fx) (Fin 0)) in *. set (qy := xdiv (Fin fy) (Fin 0)) in *.
  unfold Scalar.add at 1 2. unfold binop. cbn [value is_numpy orb].
  pose proof (special_add_fin_l vx qx Hqx) as Hvx.
  pose proof (special_add_fin_l vy qy Hqy) as Hvy.
  set (vx1 := xadd (Fin vx) qx) in *. set (vy1 := xadd (Fin vy) qy) in *.
  unfold _clamp_velocity, pow_half, square, Scalar.add, binop, gtb.
  cbn [value is_numpy].
  pose proof (special_pow_half _ (special_add _ _ (special_square _ Hvx)
                                     (special_square _ Hvy))) as Hsp.
  set (speed := xpow_half (xadd (xsquare vx1) (xsquare vy1))) in *.
  rewrite ?orb_true_r.
  cbn [value fin_scalar np_float is_numpy].
  fold qx qy. fold vx1 vy1. fold speed.
  destruct (xltb (Fin cell_size) speed).
  - unfold truediv. cbn [is_numpy orb negb andb mbind result_bind Py.bind].
    destruct (_update_position _ _ _ _ _ _ _) as [x' y'].
    unfold _apply_physics, Scalar.add, mul, binop.
    cbn [try_except key_vx key_vy value is_numpy].
    split.
    + apply special_mul_fin, special_mul_fin, special_div_special; assumption.
    + apply special_mul_fin, special_add_fin_r, special_mul_fin,
        special_div_special; assumption.
  - cbn [mbind result_bind Py.bind].
    destruct (_update_position _ _ _ _ _ _ _) as [x' y'].
    unfold _apply_physics, Scalar.add, mul, binop.
    cbn [try_except key_vx key_vy value is_numpy].
    split.
    + apply special_mul_fin. exact Hvx.
    + apply special_mul_fin, special_add_fin_r. exact Hvy.
Qed.

(** C10, counterexample.  [add_marker(1, 1, 0)] on a new particle set,
    then [update_markers] on a 3 x 3 zero grid: the call returns normally,
    and the particle, which had position [(1, 1)] and velocity [(0, 0)], is
    left with position [(2, 2)] and a nan velocity. *)
Lemma zero_magnitude_particle_changes :
  exists (s0 s' : state) (m' : marker),
    add_marker new (Fin 1) (Fin 1) (Fin 0) (Fin 0) (Fin 0) = Ok s0 /\
    stored_particles s0 = Ok [still_marker] /\
    value (key_mag still_marker) = Fin 0 /\
    update_markers s0 (zeros 3 3)
      (py_float (Fin 1)) (py_float (Fin (1 / 100))) (py_float (Fin (9 / 10)))
      (py_float (Fin 1)) = Ok s' /\
    stored_particles s' = Ok [m'] /\
    marker_values still_marker = (Fin 1, Fin 1, Fin 0, Fin 0, Fin 0) /\
    marker_values m' = (Fin 2, Fin 2, Fin 0, NaN, NaN) /\
    marker_values m' <> marker_values still_marker.
Proof.
  destruct (add_marker_particle_set new [] [] (Fin 1) (Fin 1) (Fin 0) (Fin 0) (Fin 0)
              new_particle_set) as (s0 & l & Eadd & Hs0).
  cbn [app] in Hs0. fold still_marker in Hs0.
  destruct (update_markers_spec s0 (zeros 3 3)
              (py_float (Fin 1)) (py_float (Fin (1 / 100))) (py_float (Fin (9 / 10)))
              (py_float (Fin 1)) _ _ Hs0)
    as (s' & vs & Efit & _ & Eupd & Hs'); [cbn; lia | cbn; lia | ].
  unfold fit_vectors_at_positions_batch in Efit. cbn [map foldr position] in Efit.
  cbn [still_marker key_x key_y value py_float] in Efit.
  rewrite sample_zeros in Efit by lia. cbn [mbind result_bind Py.bind] in Efit.
  injection Efit as <-. cbn [map zip_with height width zeros] in Hs'.
  eexists s0, s', _.
  split; [exact Eadd | ].
  split; [apply (stored_particles_eq _ _ _ Hs0) | ].
  split; [reflexivity | ].
  split; [exact Eupd | ].
  split; [apply (stored_particles_eq _ _ _ Hs') | ].
  split; [reflexivity | ].
  rewrite update_still_marker. split; [reflexivity | discriminate].
Qed.

Lemma update_single_marker_keeps_mag (m : marker) (fv : scalar * scalar)
    (dt gravity speed_factor cell_size : scalar) (w h : nat) :
  key_mag (_update_single_marker m fv dt gravity speed_factor cell_size w h) = key_mag m.
Proof.
  unfold _update_single_marker, update_single_marker_body. destruct fv as [fvx fvy].
  destruct (truediv fvx (key_mag m)); cbn [mbind result_bind Py.bind try_except];
    [ | reflexivity].
  destruct (truediv fvy (key_mag m)); cbn [mbind result_bind Py.bind try_except];
    [ | reflexivity].
  destruct (_clamp_velocity _ _ _) as [[vx' vy'] | ];
    cbn [mbind result_bind Py.bind try_except]; [ | reflexivity].
  destruct (_update_position _ _ _ _ _ _ _), (_apply_physics _ _ _ _ _).
  reflexivity.
Qed.

(** On builtin floats the division by a zero magnitude raises, the [except]
    branch is taken and the dict is not assigned to. *)
Lemma update_single_marker_raises (m : marker) (fv : scalar * scalar)
    (dt gravity speed_factor cell_size : scalar) (w h : nat) :
  value (key_mag m) = Fin 0 -> is_numpy (key_mag m) = false -> is_numpy fv.1 = false ->
  update_single_marker_body m fv dt gravity speed_factor cell_size w h
    = Raise ZeroDivisionError /\
  _update_single_marker m fv dt gravity speed_factor cell_size w h = m.
Proof.
  intros Hv Hk Hf. unfold _update_single_marker, update_single_marker_body.
  destruct fv as [fvx fvy]. cbn [fst] in Hf.
  assert (E : truediv fvx (key_mag m) = Raise ZeroDivisionError).
  { unfold truediv. rewrite Hv, Hk, Hf. cbn [orb negb andb xis_zero].
    rewrite (Reqb_true 0 0) by reflexivity. reflexivity. }
  rewrite E. split; reflexivity.
Qed.

(** C10, as amended.  For every particle whose magnitude is 0,
    [update_markers] on a non-empty grid returns normally and the particle
    is retained: the set consists of the same dicts at the same indices, and
    the dict keeps its magnitude.  Whenever the division does raise, which
    takes builtin floats on both sides, the dict is left as it was. *)
Theorem zero_magnitude_retained (s : state) (grid : ndarray)
    (dt gravity speed_factor cell_size : scalar)
    (items : list loc) (ms : list marker) (i : nat) (m : marker) :
  particle_set s items ms ->
  (0 < height grid)%nat -> (0 < width grid)%nat ->
  ms !! i = Some m -> value (key_mag m) = Fin 0 ->
  (exists s' ms' m',
     update_markers s grid dt gravity speed_factor cell_size = Ok s' /\
     particle_set s' items ms' /\ length ms' = length ms /\
     ms' !! i = Some m' /\ key_mag m' = key_mag m) /\
  (forall (fv : scalar * scalar) (w h : nat),
     is_numpy (key_mag m) = false -> is_numpy fv.1 = false ->
     _update_single_marker m fv dt gravity speed_factor cell_size w h = m).
Proof.
  intros Hs Hh Hw Hi Hmag. split.
  - destruct (update_markers_spec s grid dt gravity speed_factor cell_size items ms
                Hs Hh Hw) as (s' & vs & _ & Hlen & Eupd & Hs').
    destruct (lookup_lt_is_Some_2 (map np_pair vs) i) as [fv Hfv].
    { rewrite length_map, Hlen. eapply lookup_lt_Some. exact Hi. }
    eexists s', _, _. split; [exact Eupd | split; [exact Hs' | ]].
    split; [ | split].
    + rewrite length_zip_with, length_map. lia.
    + rewrite lookup_zip_with, Hi. cbn [mbind option_bind]. rewrite Hfv. reflexivity.
    + apply update_single_marker_keeps_mag.
  - intros fv w h Hk Hf. apply update_single_marker_raises; assumption.
Qed.

Lemma zero_magnitude_retained_witness :
  (exists s' ms' m',
     update_markers (one_particle still_marker) (zeros 3 3)
       (py_float (Fin 1)) (py_float (Fin 0)) (py_float (Fin 1)) (py_float (Fin 1))
       = Ok s' /\
     particle_set s' [2%positive] ms' /\ length ms' = length [still_marker] /\
     ms' !! 0%nat = Some m' /\ key_mag m' = key_mag still_marker) /\
  (forall (fv : scalar * scalar) (w h : nat),
     is_numpy (key_mag still_marker) = false -> is_numpy fv.1 = false ->
     _update_single_marker still_marker fv
       (py_float (Fin 1)) (py_float (Fin 0)) (py_float (Fin 1)) (py_float (Fin 1)) w h
     = still_marker).
Proof.
  apply (zero_magnitude_retained (one_particle still_marker) (zeros 3 3)
           (py_float (Fin 1)) (py_float (Fin 0)) (py_float (Fin 1)) (py_float (Fin 1))
           [2%positive] [still_marker] 0 still_marker).
  - apply one_particle_set.
  - simpl; lia.
  - simpl; lia.
  - reflexivity.
  - reflexivity.
Defined.

(** The tick is the batch of seeds followed by [update_markers] on the
    seeded grid. *)
Lemma update_field_and_markers_eq (s s' : state) (grid seeded : ndarray)
    (dt gravity speed_factor cell_size : scalar) (items : list loc) (ms : list marker) :
  particle_set s items ms ->
  create_tiny_vectors_batch grid (map seed ms) = Ok seeded ->
  update_markers s seeded dt gravity speed_factor cell_size = Ok s' ->
  update_field_and_markers s grid dt gravity speed_factor cell_size = Ok (seeded, s').
Proof.
  intros (Hm & _ & Hd & _) Eseed Eupd.
  unfold update_field_and_markers, batch_create_tiny_vectors_from_markers.
  rewrite (list_items_eq _ _ _ Hm). cbn [mbind result_bind Py.bind].
  rewrite (mapM_dicts (heap s) (fun m => (value (key_x m), value (key_y m), value (key_mag m)))
             items ms Hd).
  cbn [mbind result_bind Py.bind]. change (map _ ms) with (map seed ms).
  assert (E : match map seed ms with
              | [] => Ok grid
              | _ :: _ => create_tiny_vectors_batch grid (map seed ms)
              end = Ok seeded).
  { destruct (map seed ms); [ | exact Eseed]. exact Eseed. }
  rewrite E. cbn [mbind result_bind Py.bind]. rewrite Eupd. reflexivity.
Qed.





(** The self-feedback scenario: a 3 x 3 zero grid, one particle at [(1, 1)]
    of magnitude 1, no gravity, no damping, [dt = 1].  The tick seeds the
    four neighbours of the cell of the particle and not the cell itself, so
    the field sampled at [(1, 1)] after the seed is [(0, 0)], and that is
    the velocity of the particle after the tick. *)
Example self_feedback :
  exists (s0 s' : state) (seeded : ndarray) (m' : marker),
    add_marker new (Fin 1) (Fin 1) (Fin 1) (Fin 0) (Fin 0) = Ok s0 /\
    update_field_and_markers s0 (zeros 3 3)
      (py_float (Fin 1)) (py_float (Fin 0)) (py_float (Fin 1)) (py_float (Fin 1))
      = Ok (seeded, s') /\
    cell seeded 0 1 = (Fin 0, Fin (-1)) /\ cell seeded 1 0 = (Fin (-1), Fin 0) /\
    cell seeded 1 2 = (Fin 1, Fin 0) /\ cell seeded 2 1 = (Fin 0, Fin 1) /\
    cell seeded 1 1 = (Fin 0, Fin 0) /\
    fit_vector_at_position seeded (Fin 1) (Fin 1) = Ok (Fin 0, Fin 0) /\
    stored_particles s' = Ok [m'] /\
    marker_values m' = (Fin 1, Fin 1, Fin 1, Fin 0, Fin 0).
Proof.
  destruct (add_marker_particle_set new [] [] (Fin 1) (Fin 1) (Fin 1) (Fin 0) (Fin 0)
              new_particle_set) as (s0 & l & Eadd & Hs0).
  cbn [app] in Hs0. fold unit_marker in Hs0.
  destruct (splat_cross_aligned (zeros 3 3) _ _ 1 1 1 (zeros_holds 3 3))
    as (seeded & Eseed & Hh & Hw & Hseeded); cbn [height width zeros]; try lia.
  cbn [height width zeros] in Hh, Hw.
  assert (Ecell : forall i j a b,
            bump (bump (fun _ _ => 0) 1 (1 - 1) (- (1))) 1 (1 + 1) 1 i j = a ->
            bump (bump (fun _ _ => 0) (1 - 1) 1 (- (1))) (1 + 1) 1 1 i j = b ->
            cell seeded i j = (Fin a, Fin b)).
  { intros i j a b <- <-. apply Hseeded. }
  assert (Esample : fit_vector_at_position seeded (Fin 1) (Fin 1) = Ok (Fin 0, Fin 0)).
  { destruct (sample_aligned seeded _ _ 1 1 Hseeded) as (sx & sy & Es & -> & ->); try lia.
    replace (Fin 1) with (of_nat 1) by (unfold of_nat; f_equal; cbn [INR]; lra).
    rewrite Es. unfold bump. cbn [Nat.eqb andb Nat.sub Nat.add].
    reflexivity. }
  destruct (update_markers_spec s0 seeded
              (py_float (Fin 1)) (py_float (Fin 0)) (py_float (Fin 1)) (py_float (Fin 1))
              _ _ Hs0) as (s' & vs & Efit & _ & Eupd & Hs'); [lia | lia | ].
  unfold fit_vectors_at_positions_batch in Efit. cbn [map foldr position] in Efit.
  cbn [unit_marker key_x key_y value py_float] in Efit.
  rewrite Esample in Efit. cbn [mbind result_bind Py.bind] in Efit.
  injection Efit as <-. cbn [map zip_with] in Hs'.
  eexists s0, s', seeded, _.
  split; [exact Eadd | ].
  split.
  { apply (update_field_and_markers_eq _ _ _ _ _ _ _ _ _ _ Hs0); [ | exact Eupd].
    cbn [map seed unit_marker key_x key_y key_mag value py_float].
    unfold create_tiny_vectors_batch. cbn [foldl mbind result_bind Py.bind].
    replace (Fin 1) with (of_nat 1) by (unfold of_nat; f_equal; cbn [INR]; lra).
    exact Eseed. }
  do 5 (split; [apply Ecell; unfold bump; cbn [Nat.eqb andb Nat.sub Nat.add]; ring | ]).
  split; [exact Esample | ].
  split; [apply (stored_particles_eq _ _ _ Hs') | ].
  rewrite Hh, Hw.
  etransitivity;
    [apply (update_single_marker_finite false false false false false true true
              false false false false 1 1 1 0 0 0 0 1 0 1 1 3 3); lra | ].
  unfold spec_feedback. cbn [fst snd].
  assert (Ev : spec_speed_clamp 1 (0 + 0 / 1, 0 + 0 / 1) = (0, 0)).
  { unfold spec_speed_clamp, norm. cbn [fst snd].
    replace ((0 + 0 / 1) * (0 + 0 / 1) + (0 + 0 / 1) * (0 + 0 / 1)) with 0 by field.
    rewrite sqrt_0. destruct (Rlt_dec 1 0); [lra | ]. f_equal; field. }
  rewrite Ev. unfold spec_integrate, spec_gravity_damping. cbn [fst snd INR].
  repeat f_equal; try ring.
  all: unfold Rmax, Rmin; repeat destruct Rle_dec; lra.
Qed.

Lemma particle_set_list_mutate (s : state) items ms (l : loc) (new_items : list loc) :
  particle_set s items ms -> heap s !! l = None ->
  particle_set (with_heap s (list_mutate (heap s) l new_items)) items ms.
Proof.
  intros (Hm & Hnd & Hd & Hst) Hl. unfold particle_set, with_heap, list_mutate.
  cbn [heap markers state_markers].
  split; [ | split; [exact Hnd | split]].
  - rewrite lookup_insert_ne; [exact Hm | ]. intros Heq. rewrite Heq in Hl. congruence.
  - eapply Forall2_impl; [exact Hd | ]. intros d m Hdm.
    rewrite lookup_insert_ne; [exact Hdm | ]. intros Heq. rewrite Heq in Hl. congruence.
  - destruct (state_markers s) as [st | ]; [ | exact I].
    rewrite lookup_insert_ne; [exact Hst | ]. intros Heq. rewrite Heq in Hl. congruence.
Qed.

(** [get_markers] allocates a new list object that refers to the same
    dicts and changes nothing else. *)
Lemma get_markers_spec (s : state) (items : list loc) (ms : list marker) :
  particle_set s items ms ->
  exists (snapshot : loc) (s' : state),
    get_markers s = Ok (snapshot, s') /\
    heap s !! snapshot = None /\
    s' = with_heap s (list_mutate (heap s) snapshot items).
Proof.
  intros (Hm & _). unfold get_markers. rewrite (list_copy_eq _ _ _ Hm).
  destruct (alloc_fresh (heap s) (PyList items)) as [Hfresh Hins].
  destruct (alloc (heap s) (PyList items)) as [l h].
  cbn [fst snd] in Hfresh, Hins. cbn [mbind result_bind Py.bind].
  exists l. eexists. split; [reflexivity | split; [exact Hfresh | ]].
  unfold with_heap, list_mutate. rewrite Hins. reflexivity.
Qed.

(** C8, as amended.  [get_markers] returns a new list object that refers to
    the particle set's own dicts.  The call leaves the stored particles as
    they are, and so does every mutation of the returned list (appending,
    removing, reordering or replacing entries); the records in it are not
    copies. *)
Theorem snapshot_is_a_new_list (s : state) (items : list loc) (ms : list marker) :
  particle_set s items ms ->
  exists (snapshot : loc) (s' : state),
    get_markers s = Ok (snapshot, s') /\
    heap s !! snapshot = None /\
    list_items (heap s') snapshot = Ok items /\
    particle_set s' items ms /\
    stored_particles s' = stored_particles s /\
    forall new_items : list loc,
      stored_particles (with_heap s' (list_mutate (heap s') snapshot new_items))
      = stored_particles s.
Proof.
  intros Hs.
  destruct (get_markers_spec s items ms Hs) as (l & s' & Eg & Hfresh & ->).
  exists l. eexists. split; [exact Eg | ].
  split; [exact Hfresh | ].
  pose proof (particle_set_list_mutate s items ms l items Hs Hfresh) as Hs0.
  split.
  { apply list_items_eq. cbn [heap with_heap]. apply lookup_insert_eq. }
  split; [exact Hs0 | ].
  rewrite (stored_particles_eq _ _ _ Hs), (stored_particles_eq _ _ _ Hs0).
  split; [reflexivity | ].
  intros new_items. unfold with_heap at 1. cbn [heap markers state_markers with_heap].
  unfold list_mutate. rewrite insert_insert_eq.
  apply (stored_particles_eq _ items ms).
  apply (particle_set_list_mutate s items ms l new_items Hs Hfresh).
Qed.

Lemma snapshot_is_a_new_list_witness :
  exists (snapshot : loc) (s' : state),
    get_markers (one_particle still_marker) = Ok (snapshot, s') /\
    heap (one_particle still_marker) !! snapshot = None /\
    list_items (heap s') snapshot = Ok [2%positive] /\
    particle_set s' [2%positive] [still_marker] /\
    stored_particles s' = stored_particles (one_particle still_marker) /\
    forall new_items : list loc,
      stored_particles (with_heap s' (list_mutate (heap s') snapshot new_items))
      = stored_particles (one_particle still_marker).
Proof.
  apply (snapshot_is_a_new_list (one_particle still_marker) [2%positive] [still_marker]).
  apply one_particle_set.
Defined.

(** C8, counterexample.  [add_marker(1, 1, 0)] on a new particle set, then
    [snapshot = get_markers()] and [snapshot[0]["x"] = 5.0]: the write to
    the record reached through the snapshot is a write to the stored
    particle, which now is at [x = 5] where it was at [x = 1]. *)
Lemma snapshot_records_are_shared :
  exists (s0 : state) (snapshot : loc) (s' : state) (h : gmap loc pyobj) (m' : marker),
    add_marker new (Fin 1) (Fin 1) (Fin 0) (Fin 0) (Fin 0) = Ok s0 /\
    get_markers s0 = Ok (snapshot, s') /\
    stored_particles s' = Ok [still_marker] /\
    item_set_x (heap s') snapshot 0 (py_float (Fin 5)) = Ok h /\
    stored_particles (with_heap s' h) = Ok [m'] /\
    key_x m' = py_float (Fin 5) /\
    key_x still_marker = py_float (Fin 1) /\
    stored_particles (with_heap s' h) <> stored_particles s'.
Proof.
  destruct (add_marker_particle_set new [] [] (Fin 1) (Fin 1) (Fin 0) (Fin 0) (Fin 0)
              new_particle_set) as (s0 & l & Eadd & Hs).
  cbn [app] in Hs. fold still_marker in Hs.
  destruct (get_markers_spec _ _ _ Hs) as (snapshot & s' & Eg & Hfresh & Es').
  pose proof (particle_set_list_mutate _ _ _ snapshot [l] Hs Hfresh) as Hs'.
  rewrite <- Es' in Hs'.
  assert (Hitems : list_items (heap s') snapshot = Ok [l]).
  { rewrite Es'. apply list_items_eq. cbn [heap with_heap]. apply lookup_insert_eq. }
  pose proof Hs' as (Hm & Hnd & Hd & Hst).
  apply Forall2_cons_1 in Hd. destruct Hd as [Hd _].
  set (m' := {| key_x := py_float (Fin 5); key_y := key_y still_marker;
                key_mag := key_mag still_marker; key_vx := key_vx still_marker;
                key_vy := key_vy still_marker |}).
  exists s0, snapshot, s', (<[l := PyDict m']> (heap s')), m'.
  split; [exact Eadd | ].
  split; [exact Eg | ].
  split; [apply (stored_particles_eq _ _ _ Hs') | ].
  split.
  { unfold item_set_x. rewrite Hitems. cbn [mbind result_bind Py.bind lookup list_lookup].
    rewrite (marker_at_eq _ _ _ Hd). reflexivity. }
  assert (Est' : stored_particles (with_heap s' (<[l := PyDict m']> (heap s')))
                 = Ok [m']).
  { unfold stored_particles, with_heap. cbn [heap markers].
    assert (Hne : markers s' <> l).
    { intros Heq. rewrite Heq in Hm. congruence. }
    unfold list_items. rewrite lookup_insert_ne by congruence. rewrite Hm.
    cbn [mbind result_bind Py.bind mapM]. unfold marker_at.
    rewrite lookup_insert_eq. reflexivity. }
  split; [exact Est' | ].
  split; [reflexivity | split; [reflexivity | ]].
  rewrite Est', (stored_particles_eq _ _ _ Hs').
  intros [= Heq]. lra.
Qed.

(** ** Where the particles are, and who holds them *)

(** [_update_position] clamps like [clamp_coordinate]. *)
Lemma update_position_clamps (x y vx vy dt : scalar) (w h : nat) :
  value (_update_position x y vx vy dt w h).1
    = clamp_coordinate w (value (Scalar.add x (mul vx dt))) /\
  value (_update_position x y vx vy dt w h).2
    = clamp_coordinate h (value (Scalar.add y (mul vy dt))).
Proof.
  unfold _update_position. cbn [fst snd]. rewrite !value_max, !value_min.
  split; reflexivity.
Qed.

(** With a sampled vector of numpy scalars no statement of the update
    raises, and the new position is the clamped one. *)
Lemma update_single_marker_numpy (m : marker) (v : vec2)
    (dt gravity speed_factor cell_size : scalar) (w h : nat) :
  exists vx vy : scalar,
    let p := _update_position (key_x m) (key_y m) vx vy dt w h in
    let v' := _apply_physics vx vy gravity speed_factor dt in
    _update_single_marker m (np_pair v) dt gravity speed_factor cell_size w h
    = {| key_x := p.1; key_y := p.2; key_mag := key_mag m;
         key_vx := v'.1; key_vy := v'.2 |}.
Proof.
  unfold _update_single_marker, update_single_marker_body, np_pair.
  unfold truediv at 1 2. cbn [is_numpy np_float orb negb andb].
  cbn [mbind result_bind Py.bind].
  set (vx1 := Scalar.add (key_vx m) _). set (vy1 := Scalar.add (key_vy m) _).
  assert (Hnx : is_numpy vx1 = true).
  { unfold vx1, Scalar.add, binop. cbn [is_numpy np_float]. apply orb_true_r. }
  assert (Hny : is_numpy vy1 = true).
  { unfold vy1, Scalar.add, binop. cbn [is_numpy np_float]. apply orb_true_r. }
  unfold _clamp_velocity.
  set (speed := pow_half (Scalar.add (square vx1) (square vy1))).
  destruct (gtb speed cell_size).
  - unfold truediv. rewrite Hnx, Hny. cbn [orb negb andb mbind result_bind Py.bind].
    exists (mul (binop xdiv vx1 speed) cell_size), (mul (binop xdiv vy1 speed) cell_size).
    cbv zeta.
    destruct (_update_position _ _ _ _ _ _ _) as [x' y'].
    destruct (_apply_physics _ _ _ _ _) as [vx' vy']. reflexivity.
  - cbn [mbind result_bind Py.bind]. exists vx1, vy1. cbv zeta.
    destruct (_update_position _ _ _ _ _ _ _) as [x' y'].
    destruct (_apply_physics _ _ _ _ _) as [vx' vy']. reflexivity.
Qed.

Lemma update_single_marker_in_grid (m : marker) (v : vec2)
    (dt gravity speed_factor cell_size : scalar) (w h : nat) :
  (0 < w)%nat -> (0 < h)%nat ->
  in_grid w h (_update_single_marker m (np_pair v) dt gravity speed_factor cell_size w h).
Proof.
  intros Hw Hh.
  destruct (update_single_marker_numpy m v dt gravity speed_factor cell_size w h)
    as (vx & vy & E).
  cbv zeta in E. rewrite E. unfold in_grid, position. cbn [key_x key_y].
  destruct (update_position_clamps (key_x m) (key_y m) vx vy dt w h) as [-> ->].
  destruct (clamp_coordinate_finite w (value (Scalar.add (key_x m) (mul vx dt))))
    as (cx & -> & Hcx).
  destruct (clamp_coordinate_finite h (value (Scalar.add (key_y m) (mul vy dt))))
    as (cy & -> & Hcy).
  assert (1 <= INR w) by (apply (le_INR 1); lia).
  assert (1 <= INR h) by (apply (le_INR 1); lia).
  rewrite Rmax_right in Hcx, Hcy by lra.
  exists cx, cy. split; [reflexivity | split; assumption].
Qed.

(** X7.  After [update_markers] on a non-empty grid every particle lies
    in the grid: its position is a pair of finite numbers of
    [[0, W-1] x [0, H-1]], whatever position, velocity and magnitude it had
    before (infinite, nan and zero included) and whatever the field
    holds. *)
Theorem update_markers_keeps_particles_in_grid (s : state) (grid : ndarray)
    (dt gravity speed_factor cell_size : scalar) (items : list loc) (ms : list marker) :
  particle_set s items ms ->
  (0 < height grid)%nat -> (0 < width grid)%nat ->
  exists (s' : state) (ms' : list marker),
    update_markers s grid dt gravity speed_factor cell_size = Ok s' /\
    particle_set s' items ms' /\ length ms' = length ms /\
    Forall (in_grid (width grid) (height grid)) ms'.
Proof.
  intros Hs Hh Hw.
  destruct (update_markers_spec s grid dt gravity speed_factor cell_size items ms Hs Hh Hw)
    as (s' & vs & _ & Hlen & E & Hs').
  eexists s', _. split; [exact E | split; [exact Hs' | split]].
  - rewrite length_zip_with, length_map. lia.
  - clear Hs' E Hs Hlen. revert vs.
    induction ms as [ | m ms IH]; intros [ | v vs]; cbn [map zip_with]; try constructor.
    + apply update_single_marker_in_grid; assumption.
    + apply IH.
Qed.

Lemma update_markers_keeps_particles_in_grid_witness :
  exists (s' : state) (ms' : list marker),
    update_markers (one_particle still_marker) (zeros 3 3)
      (py_float (Fin 1)) (py_float (Fin 0)) (py_float (Fin 1)) (py_float (Fin 1)) = Ok s' /\
    particle_set s' [2%positive] ms' /\ length ms' = length [still_marker] /\
    Forall (in_grid (width (zeros 3 3)) (height (zeros 3 3))) ms'.
Proof.
  apply (update_markers_keeps_particles_in_grid (one_particle still_marker) (zeros 3 3)
           (py_float (Fin 1)) (py_float (Fin 0)) (py_float (Fin 1)) (py_float (Fin 1))
           [2%positive] [still_marker]).
  - apply one_particle_set.
  - simpl; lia.
  - simpl; lia.
Defined.







Local Close Scope R_scope.

(** The list [_sync_to_state_manager] stores is a new object. *)
Lemma sync_to_state_manager_stored (s : state) (items : list loc) :
  heap s !! markers s = Some (PyList items) ->
  exists stored : loc,
    state_markers (_sync_to_state_manager s) = Some stored /\
    heap s !! stored = None /\
    heap (_sync_to_state_manager s) = <[stored := PyList items]> (heap s) /\
    markers (_sync_to_state_manager s) = markers s.
Proof.
  intros Hm. unfold _sync_to_state_manager. rewrite (list_copy_eq _ _ _ Hm).
  destruct (alloc_fresh (heap s) (PyList items)) as [Hfresh Hins].
  destruct (alloc (heap s) (PyList items)) as [l h]. cbn [fst snd] in Hfresh, Hins.
  cbn [mbind result_bind Py.bind try_except state_markers heap markers].
  exists l. subst h. auto.
Qed.

(** X9.  [add_marker] appends: on a well-formed particle set it returns
    normally, the new particle is a new dict holding the five arguments as
    Python floats, it comes last, the particles already present keep their
    place and content, and the state manager's entry is a separate list
    object with the same items. *)
Theorem add_marker_appends (s : state) (items : list loc) (ms : list marker)
    (x y mag vx vy : xreal) :
  particle_set s items ms ->
  exists (s' : state) (l stored : loc),
    add_marker s x y mag vx vy = Ok s' /\
    heap s !! l = None /\
    stored_particles s'
      = Ok (ms ++ [{| key_x := py_float x; key_y := py_float y; key_mag := py_float mag;
                      key_vx := py_float vx; key_vy := py_float vy |}]) /\
    list_items (heap s') (markers s') = Ok (items ++ [l]) /\
    state_markers s' = Some stored /\ stored <> markers s' /\
    list_items (heap s') stored = Ok (items ++ [l]).
Proof.
  intros Hs. pose proof Hs as (Hm & Hnd & Hd & Hst). unfold add_marker.
  set (marker := {| key_x := py_float x; key_y := py_float y; key_mag := py_float mag;
                    key_vx := py_float vx; key_vy := py_float vy |}).
  destruct (alloc_fresh (heap s) (PyDict marker)) as [Hfresh Hins].
  destruct (alloc (heap s) (PyDict marker)) as [l h]. cbn [fst snd] in Hfresh, Hins.
  assert (Hlm : l <> markers s) by (intros ->; congruence).
  assert (Hitems : list_items h (markers s) = Ok items).
  { apply list_items_eq. subst h. rewrite lookup_insert_ne by exact Hlm. exact Hm. }
  rewrite Hitems. cbn [mbind result_bind Py.bind].
  set (s1 := {| heap := <[markers s := PyList (items ++ [l])]> h;
                markers := markers s; state_markers := state_markers s |}).
  assert (Hm1 : heap s1 !! markers s1 = Some (PyList (items ++ [l]))).
  { unfold s1. cbn [heap markers]. apply lookup_insert_eq. }
  destruct (sync_to_state_manager_stored s1 (items ++ [l]) Hm1)
    as (stored & Est & Hsf & Eh & Emk).
  exists (_sync_to_state_manager s1), l, stored.
  split; [reflexivity | ]. split; [exact Hfresh | ].
  assert (Hlist : list_items (heap (_sync_to_state_manager s1)) (markers s1)
                  = Ok (items ++ [l])).
  { apply list_items_eq. rewrite Eh. rewrite lookup_insert_ne; [exact Hm1 | ].
    intros ->. congruence. }
  assert (Hdicts : Forall2 (fun l m => heap (_sync_to_state_manager s1) !! l = Some (PyDict m))
                     (items ++ [l]) (ms ++ [marker])).
  { rewrite Eh. apply Forall2_app.
    - eapply Forall2_impl; [exact Hd | ]. intros d m Hdm.
      assert (d <> l) by (intros ->; congruence).
      assert (d <> markers s) by (intros ->; congruence).
      assert (d <> stored).
      { intros ->. unfold s1 in Hsf. cbn [heap] in Hsf.
        rewrite lookup_insert_ne in Hsf by congruence.
        subst h. rewrite lookup_insert_ne in Hsf by congruence. congruence. }
      rewrite lookup_insert_ne by congruence. unfold s1. cbn [heap].
      rewrite lookup_insert_ne by congruence. subst h.
      rewrite lookup_insert_ne by congruence. exact Hdm.
    - constructor; [ | constructor].
      assert (l <> stored).
      { intros ->. unfold s1 in Hsf. cbn [heap] in Hsf.
        rewrite lookup_insert_ne in Hsf by congruence.
        subst h. rewrite lookup_insert_eq in Hsf. discriminate. }
      rewrite lookup_insert_ne by congruence. unfold s1. cbn [heap].
      rewrite lookup_insert_ne by congruence. subst h. apply lookup_insert_eq. }
  split.
  { unfold stored_particles. rewrite Emk, Hlist. cbn [mbind result_bind Py.bind].
    apply mapM_marker_at. exact Hdicts. }
  rewrite Emk. split; [exact Hlist | ].
  split; [exact Est | ].
  split.
  { intros ->. congruence. }
  apply list_items_eq. rewrite Eh. apply lookup_insert_eq.
Qed.

Lemma add_marker_appends_witness :
  exists (s' : state) (l stored : loc),
    add_marker new (Fin 1) (Fin 2) (Fin 3) (Fin 0) (Fin 0) = Ok s' /\
    heap new !! l = None /\
    stored_particles s'
      = Ok ([] ++ [{| key_x := py_float (Fin 1); key_y := py_float (Fin 2);
                      key_mag := py_float (Fin 3);
                      key_vx := py_float (Fin 0); key_vy := py_float (Fin 0) |}]) /\
    list_items (heap s') (markers s') = Ok ([] ++ [l]) /\
    state_markers s' = Some stored /\ stored <> markers s' /\
    list_items (heap s') stored = Ok ([] ++ [l]).
Proof.
  apply (add_marker_appends new [] [] (Fin 1) (Fin 2) (Fin 3) (Fin 0) (Fin 0)).
  apply new_particle_set.
Defined.

(** X10.  [clear_markers] rebinds, it does not clear in place: after it
    the particle set is empty, in [self.markers] and in the state manager,
    while a list that [get_markers] returned before still holds its items
    and the dicts in it still hold their content. *)
Theorem clear_markers_spares_snapshots (s : state) (items : list loc) (ms : list marker) :
  particle_set s items ms ->
  exists (snapshot : loc) (s1 : state),
    get_markers s = Ok (snapshot, s1) /\
    stored_particles (clear_markers s1) = Ok [] /\
    particle_set (clear_markers s1) [] [] /\
    (exists stored, state_markers (clear_markers s1) = Some stored /\
       list_items (heap (clear_markers s1)) stored = Ok []) /\
    list_items (heap (clear_markers s1)) snapshot = Ok items /\
    mapM (marker_at (heap (clear_markers s1))) items = Ok ms.
Proof.
  intros Hs.
  destruct (get_markers_spec s items ms Hs) as (snapshot & s1 & Eg & Hfresh & Es1).
  exists snapshot, s1. split; [exact Eg | ].
  pose proof (clear_markers_particle_set s1) as Hc.
  split; [apply (stored_particles_eq _ _ _ Hc) | split; [exact Hc | ]].
  pose proof (particle_set_list_mutate s items ms snapshot items Hs Hfresh) as Hs1.
  rewrite <- Es1 in Hs1. destruct Hs1 as (Hm1 & _ & Hd1 & _).
  assert (Hsnap : heap s1 !! snapshot = Some (PyList items)).
  { rewrite Es1. unfold with_heap, list_mutate. cbn [heap]. apply lookup_insert_eq. }
  unfold clear_markers in *.
  destruct (alloc_fresh (heap s1) (PyList [])) as [Hf Hins].
  destruct (alloc (heap s1) (PyList [])) as [l h]. cbn [fst snd] in Hf, Hins.
  set (s2 := {| heap := h; markers := l; state_markers := state_markers s1 |}) in *.
  assert (Hm2 : heap s2 !! markers s2 = Some (PyList [])).
  { unfold s2. cbn [heap markers]. subst h. apply lookup_insert_eq. }
  destruct (sync_to_state_manager_stored s2 [] Hm2) as (stored & Est & Hsf & Eh & Emk).
  assert (Hkeep : forall d o, heap s1 !! d = Some o ->
                    heap (_sync_to_state_manager s2) !! d = Some o).
  { intros d o Hd. rewrite Eh.
    assert (d <> l) by (intros ->; congruence).
    assert (d <> stored).
    { intros ->. unfold s2 in Hsf. cbn [heap] in Hsf. subst h.
      rewrite lookup_insert_ne in Hsf by congruence. congruence. }
    rewrite lookup_insert_ne by congruence. unfold s2. cbn [heap]. subst h.
    rewrite lookup_insert_ne by congruence. exact Hd. }
  split.
  { exists stored. split; [exact Est | ].
    apply list_items_eq. rewrite Eh. apply lookup_insert_eq. }
  split.
  { apply list_items_eq. apply Hkeep. exact Hsnap. }
  apply mapM_marker_at. eapply Forall2_impl; [exact Hd1 | ].
  intros d m Hdm. apply Hkeep. exact Hdm.
Qed.

Lemma clear_markers_spares_snapshots_witness :
  exists (snapshot : loc) (s1 : state),
    get_markers (one_particle still_marker) = Ok (snapshot, s1) /\
    stored_particles (clear_markers s1) = Ok [] /\
    particle_set (clear_markers s1) [] [] /\
    (exists stored, state_markers (clear_markers s1) = Some stored /\
       list_items (heap (clear_markers s1)) stored = Ok []) /\
    list_items (heap (clear_markers s1)) snapshot = Ok [2%positive] /\
    mapM (marker_at (heap (clear_markers s1))) [2%positive] = Ok [still_marker].
Proof.
  apply (clear_markers_spares_snapshots (one_particle still_marker)
           [2%positive] [still_marker]).
  apply one_particle_set.
Defined.

End MarkerFacts.

(* ===================================================================== *)
(** * Facts about the dispatcher *)
(* ===================================================================== *)

Module DispatcherFacts.
Import DispatcherSpec.

Local Open Scope string_scope.

(** The constructor of the accelerated backend never raises, so the
    dispatcher always holds a backend object, initialised or not. *)
Lemma gpu_calculator_never_none (cl : GPU.opencl) (device : string) :
  Dispatcher._gpu_calculator (Dispatcher.new cl device) = Some (GPU._init_opencl cl).
Proof. reflexivity. Qed.

Lemma init_opencl_no_platform :
  GPU._initialized (GPU._init_opencl no_opencl) = false.
Proof. reflexivity. Qed.

(** The guard of [set_device] does reject the accelerated device on a
    dispatcher that holds no backend object; the constructor produces no
    such dispatcher. *)
Lemma set_device_gpu_none (budget : nat) (d : Dispatcher.calculator) :
  Dispatcher._gpu_calculator d = None ->
  Dispatcher.set_device budget d "gpu" = (false, d).
Proof.
  intros H. destruct budget; cbn [Dispatcher.set_device]; rewrite H; reflexivity.
Qed.

(** A dispatcher that holds a backend object, initialised or not, accepts
    the accelerated device and keeps the object. *)
Lemma set_device_gpu_accepted (budget : nat) (d : Dispatcher.calculator)
    (g : GPU.calculator) :
  Dispatcher._gpu_calculator d = Some g ->
  (Dispatcher.set_device budget d "gpu").1 = true /\
  Dispatcher._current_device (Dispatcher.set_device budget d "gpu").2 = "gpu" /\
  Dispatcher._gpu_calculator (Dispatcher.set_device budget d "gpu").2 = Some g.
Proof.
  revert d. induction budget as [ | n IH]; intros d Hd; cbn [Dispatcher.set_device].
  - rewrite Hd. cbn. auto.
  - rewrite Hd. cbn -[Dispatcher.set_device].
    split; [reflexivity | ]. apply IH. reflexivity.
Qed.

(** C1, what the code does.  Let the initialisation of OpenCL fail, so that
    the accelerated backend reports itself uninitialised.  On the
    dispatcher built by the constructor, whatever its device,
    [set_device("gpu")] returns [True], makes "gpu" the active device and
    routes the compute calls to the uninitialised backend. *)
Theorem set_device_gpu_accepted_when_unavailable (cl : GPU.opencl) (device : string)
    (budget : nat) :
  GPU._initialized (GPU._init_opencl cl) = false ->
  let d := Dispatcher.new cl device in
  (Dispatcher.set_device budget d "gpu").1 = true /\
  Dispatcher._current_device (Dispatcher.set_device budget d "gpu").2 = "gpu" /\
  Dispatcher.active_calculator (Dispatcher.set_device budget d "gpu").2
    = Dispatcher.Accelerated {| GPU._initialized := false |}.
Proof.
  intros Hinit d.
  destruct (set_device_gpu_accepted budget d (GPU._init_opencl cl)) as (Hr & Hdev & Hgpu).
  { apply gpu_calculator_never_none. }
  split; [exact Hr | split; [exact Hdev | ]].
  unfold Dispatcher.active_calculator. rewrite Hgpu, Hdev.
  rewrite bool_decide_eq_true_2 by reflexivity.
  destruct (GPU._init_opencl cl) as [b]. cbn [GPU._initialized] in Hinit.
  rewrite Hinit. reflexivity.
Qed.

Lemma set_device_gpu_accepted_when_unavailable_witness :
  let d := Dispatcher.new no_opencl "cpu" in
  Dispatcher._current_device d = "cpu" /\
  (Dispatcher.set_device 10 d "gpu").1 = true /\
  Dispatcher._current_device (Dispatcher.set_device 10 d "gpu").2 = "gpu" /\
  Dispatcher.active_calculator (Dispatcher.set_device 10 d "gpu").2
    = Dispatcher.Accelerated {| GPU._initialized := false |}.
Proof.
  split; [reflexivity | ].
  apply (set_device_gpu_accepted_when_unavailable no_opencl "cpu" 10).
  reflexivity.
Defined.

(** ** Which calls [set_device] accepts, and what an accepted call does *)

Lemma device_kind_spec (device : string) :
  bool_decide (device ∈ ["cpu"; "gpu"]) = true <-> device = "cpu" \/ device = "gpu".
Proof.
  rewrite bool_decide_eq_true. rewrite !elem_of_cons, elem_of_nil. tauto.
Qed.

Lemma set_device_outcome (budget : nat) (d : Dispatcher.calculator) (device : string) :
  (Dispatcher.set_device budget d device).1
    = bool_decide (device ∈ ["cpu"; "gpu"]) &&
      negb (bool_decide (device = "gpu") &&
            bool_decide (Dispatcher._gpu_calculator d = None)) /\
  ((Dispatcher.set_device budget d device).1 = false ->
   (Dispatcher.set_device budget d device).2 = d).
Proof.
  destruct budget; cbn [Dispatcher.set_device];
    destruct (bool_decide (device ∈ ["cpu"; "gpu"])); cbn [negb andb fst snd];
    try (split; reflexivity);
    destruct (bool_decide (device = "gpu") &&
              bool_decide (Dispatcher._gpu_calculator d = None));
    cbn [negb fst snd]; split; try reflexivity; discriminate.
Qed.

(** X11.  [set_device] accepts "cpu" always, "gpu" exactly when the
    dispatcher holds a backend object, and no other string; a rejected
    call changes nothing: neither the device, nor the configuration, nor
    the published events. *)
Theorem set_device_accepts_iff (budget : nat) (d : Dispatcher.calculator) (device : string) :
  ((Dispatcher.set_device budget d device).1 = true <->
   device = "cpu" \/ (device = "gpu" /\ Dispatcher._gpu_calculator d <> None)) /\
  ((Dispatcher.set_device budget d device).1 = false ->
   (Dispatcher.set_device budget d device).2 = d).
Proof.
  destruct (set_device_outcome budget d device) as [E Hrej].
  split; [ | exact Hrej]. rewrite E, andb_true_iff, negb_true_iff, andb_false_iff.
  rewrite device_kind_spec, !bool_decide_eq_false. split.
  - intros [[-> | ->] [H | H]]; auto; contradiction.
  - intros [-> | [-> H]]; split; auto.
Qed.

(** X13.  The two ways to change the device do not validate alike.  A
    device name other than "cpu" and "gpu" is rejected by [set_device],
    but a CONFIG_CHANGED event for "compute_device" installs any non-empty
    name that differs from the current one; the compute calls then go to
    the sequential backend. *)
Theorem config_event_installs_any_device (budget : nat) (d : Dispatcher.calculator)
    (new_device : string) :
  new_device ∉ ["cpu"; "gpu"] -> new_device <> "" ->
  new_device <> Dispatcher._current_device d ->
  Dispatcher.set_device budget d new_device = (false, d) /\
  Dispatcher._current_device
    (Dispatcher.handle_config_changed d (Some "compute_device") (Some new_device))
    = new_device /\
  Dispatcher.active_calculator
    (Dispatcher.handle_config_changed d (Some "compute_device") (Some new_device))
    = Dispatcher.Sequential.
Proof.
  intros Hk He Hc.
  assert (Hg : new_device <> "gpu").
  { intros ->. apply Hk. rewrite !elem_of_cons. auto. }
  split.
  - destruct budget; cbn [Dispatcher.set_device];
      rewrite (bool_decide_eq_false_2 _ Hk); reflexivity.
  - unfold Dispatcher.handle_config_changed.
    rewrite bool_decide_eq_true_2 by reflexivity.
    rewrite (bool_decide_eq_false_2 _ He), (bool_decide_eq_false_2 _ Hc),
      (bool_decide_eq_false_2 _ Hg).
    cbn [negb andb Dispatcher._current_device]. split; [reflexivity | ].
    unfold Dispatcher.active_calculator.
    cbn [Dispatcher._gpu_calculator Dispatcher._current_device].
    rewrite (bool_decide_eq_false_2 _ Hg).
    destruct (Dispatcher._gpu_calculator d); reflexivity.
Qed.

Lemma config_event_installs_any_device_witness :
  Dispatcher.set_device 10 (Dispatcher.new no_opencl "cpu") "tpu"
    = (false, Dispatcher.new no_opencl "cpu") /\
  Dispatcher._current_device
    (Dispatcher.handle_config_changed (Dispatcher.new no_opencl "cpu")
       (Some "compute_device") (Some "tpu"))
    = "tpu" /\
  Dispatcher.active_calculator
    (Dispatcher.handle_config_changed (Dispatcher.new no_opencl "cpu")
       (Some "compute_device") (Some "tpu"))
    = Dispatcher.Sequential.
Proof.
  apply (config_event_installs_any_device 10 (Dispatcher.new no_opencl "cpu") "tpu").
  - rewrite !elem_of_cons, elem_of_nil. intros [H | [H | []]]; discriminate.
  - discriminate.
  - discriminate.
Defined.

(** After an accepted [set_device("gpu")] the compute calls go to the
    backend object the dispatcher holds. *)
Lemma set_device_gpu_routes (budget : nat) (d : Dispatcher.calculator) (g : GPU.calculator) :
  Dispatcher._gpu_calculator d = Some g ->
  Dispatcher.active_calculator (Dispatcher.set_device budget d "gpu").2
    = Dispatcher.Accelerated g.
Proof.
  intros Hd. destruct (set_device_gpu_accepted budget d g Hd) as (_ & Hdev & Hgpu).
  unfold Dispatcher.active_calculator. rewrite Hgpu, Hdev.
  rewrite bool_decide_eq_true_2 by reflexivity. reflexivity.
Qed.

End DispatcherFacts.

(* ===================================================================== *)
(** * Facts about the grid manager *)
(* ===================================================================== *)

Module GridManagerFacts.
Import GridManager.

Local Open Scope string_scope.

(** A load that finds no file, or whose [np.load] raises, changes
    nothing. *)
Lemma load_grid_no_array (fs : files) (m : manager) (file_path : string) :
  (fs file_path = None \/ exists e, fs file_path = Some (Raise e)) ->
  load_grid fs m file_path = (false, m).
Proof.
  intros [H | [e H]]; unfold load_grid; rewrite H; reflexivity.
Qed.

(** C9.  A load of a stored array whose shape differs from the shape of the
    current buffer returns [False] and leaves the manager (buffer, state
    entries and published events) as it was. *)
Theorem load_grid_shape_mismatch (fs : files) (m : manager) (file_path : string)
    (grid loaded_grid : array) :
  _grid m = Some grid ->
  fs file_path = Some (Ok loaded_grid) ->
  arr_shape loaded_grid <> arr_shape grid ->
  load_grid fs m file_path = (false, m).
Proof.
  intros Hg Hf Hne. unfold load_grid, load_grid_locked. rewrite Hf, Hg.
  rewrite (bool_decide_eq_false_2 _ Hne). reflexivity.
Qed.

Lemma load_grid_shape_mismatch_witness :
  load_grid
    (fun _ => Some (Ok {| arr_shape := [3; 2; 2]%nat; arr_data := replicate 12 (Fin 0) |}))
    {| _grid := Some {| arr_shape := [2; 3; 2]%nat; arr_data := replicate 12 (Fin 1) |};
       grid_width := 3; grid_height := 2; grid_updated := false; published := [] |}
    "grid.npy"
  = (false,
     {| _grid := Some {| arr_shape := [2; 3; 2]%nat; arr_data := replicate 12 (Fin 1) |};
        grid_width := 3; grid_height := 2; grid_updated := false; published := [] |}).
Proof.
  apply (load_grid_shape_mismatch _ _ _
           {| arr_shape := [2; 3; 2]%nat; arr_data := replicate 12 (Fin 1) |}
           {| arr_shape := [3; 2; 2]%nat; arr_data := replicate 12 (Fin 0) |}).
  - reflexivity.
  - reflexivity.
  - simpl. discriminate.
Defined.

(** ** Loading and saving *)

Lemma shape_item_ok (shape : list nat) (i : nat) :
  (i < length shape)%nat -> exists n, shape !! i = Some n /\ shape_item shape i = Ok n.
Proof.
  intros Hi. destruct (lookup_lt_is_Some_2 shape i Hi) as [n Hn].
  exists n. unfold shape_item. rewrite Hn. auto.
Qed.

(** X15.  A load succeeds exactly when the file exists, [np.load] returns
    an array, the manager holds no buffer or one of the same shape, and the
    array has at least two dimensions.  A successful load installs the
    array as the buffer, takes the width from [shape[1]] and the height
    from [shape[0]], marks the grid updated and publishes one event. *)
Theorem load_grid_succeeds_iff (fs : files) (m : manager) (file_path : string) :
  ((load_grid fs m file_path).1 = true <->
   exists loaded_grid : array,
     fs file_path = Some (Ok loaded_grid) /\
     (_grid m = None \/ exists grid, _grid m = Some grid /\
                          arr_shape loaded_grid = arr_shape grid) /\
     (2 <= length (arr_shape loaded_grid))%nat) /\
  (forall (loaded_grid : array) (h w : nat),
     (load_grid fs m file_path).1 = true ->
     fs file_path = Some (Ok loaded_grid) ->
     arr_shape loaded_grid !! 0%nat = Some h -> arr_shape loaded_grid !! 1%nat = Some w ->
     (load_grid fs m file_path).2
     = {| _grid := Some loaded_grid; grid_width := w; grid_height := h;
          grid_updated := true;
          published := (published m
                          ++ [GRID_LOADED file_path (arr_shape loaded_grid)])%list |}).
Proof.
  unfold load_grid, load_grid_locked, shape_item.
  destruct (fs file_path) as [[a | e] | ] eqn:Ef; cbn [fst snd].
  2, 3: split; [split; [discriminate | intros (a & Ha & _); discriminate]
                | intros; discriminate].
  assert (Hdims : forall w h, arr_shape a !! 1%nat = Some w -> arr_shape a !! 0%nat = Some h ->
                    (2 <= length (arr_shape a))%nat).
  { intros w h Hw _. apply lookup_lt_Some in Hw. lia. }
  destruct (_grid m) as [grid | ] eqn:Eg.
  - destruct (bool_decide (arr_shape a = arr_shape grid)) eqn:Es; cbn [negb].
    + apply bool_decide_eq_true in Es.
      destruct (arr_shape a !! 1%nat) as [w | ] eqn:Ew.
      * destruct (arr_shape a !! 0%nat) as [h | ] eqn:Eh.
        -- cbn [fst snd try_except]. split.
           ++ split; [intros _ | reflexivity].
              exists a. split; [reflexivity | split; [right; eauto | eauto]].
           ++ intros a' h' w' _ [= <-] Hh Hw. rewrite Eh in Hh. rewrite Ew in Hw.
              injection Hh as <-. injection Hw as <-. reflexivity.
        -- apply lookup_ge_None in Eh. apply lookup_lt_Some in Ew. lia.
      * cbn [fst snd try_except]. split; [ | intros; discriminate].
        split; [discriminate | ]. intros (a' & [= <-] & _ & Hlen).
        apply lookup_ge_None in Ew. lia.
    + apply bool_decide_eq_false in Es. cbn [fst snd try_except].
      split; [ | intros; discriminate].
      split; [discriminate | ].
      intros (a' & [= <-] & [H | (g' & [= <-] & H)] & _); [discriminate | contradiction].
  - destruct (arr_shape a !! 1%nat) as [w | ] eqn:Ew.
    + destruct (arr_shape a !! 0%nat) as [h | ] eqn:Eh.
      * cbn [fst snd try_except]. split.
        -- split; [intros _ | reflexivity].
           exists a. split; [reflexivity | split; [left; reflexivity | eauto]].
        -- intros a' h' w' _ [= <-] Hh Hw. rewrite Eh in Hh. rewrite Ew in Hw.
           injection Hh as <-. injection Hw as <-. reflexivity.
      * apply lookup_ge_None in Eh. apply lookup_lt_Some in Ew. lia.
    + cbn [fst snd try_except]. split; [ | intros; discriminate].
      split; [discriminate | ]. intros (a' & [= <-] & _ & Hlen).
      apply lookup_ge_None in Ew. lia.
Qed.

(** X16.  A failing load is not always without effect.  When the shape
    test passes (no buffer yet, or a buffer of the same shape) and the
    array has fewer than two dimensions, [load_grid] returns [False] after
    it has installed the array as the buffer: the assignment precedes the
    reads of [shape[1]] and [shape[0]], whose IndexError is caught.  The
    state entries and the published events stay as they were. *)
Theorem load_grid_failure_replaces_buffer (fs : files) (m : manager) (file_path : string)
    (loaded_grid : array) :
  fs file_path = Some (Ok loaded_grid) ->
  (_grid m = None \/ exists grid, _grid m = Some grid /\
                       arr_shape loaded_grid = arr_shape grid) ->
  (length (arr_shape loaded_grid) < 2)%nat ->
  load_grid fs m file_path
  = (false, {| _grid := Some loaded_grid; grid_width := grid_width m;
               grid_height := grid_height m; grid_updated := grid_updated m;
               published := published m |}).
Proof.
  intros Hf Hshape Hlen. unfold load_grid, load_grid_locked. rewrite Hf.
  assert (Hm : match _grid m with
               | Some grid => negb (bool_decide (arr_shape loaded_grid = arr_shape grid))
               | None => false
               end = false).
  { destruct Hshape as [-> | (grid & -> & Hs)]; [reflexivity | ].
    rewrite (bool_decide_eq_true_2 _ Hs). reflexivity. }
  rewrite Hm. unfold shape_item.
  destruct (arr_shape loaded_grid !! 1%nat) as [w | ] eqn:Ew.
  - apply lookup_lt_Some in Ew. lia.
  - reflexivity.
Qed.

Lemma load_grid_failure_replaces_buffer_witness :
  load_grid (fun _ => Some (Ok {| arr_shape := [4]%nat; arr_data := replicate 4 (Fin 1) |}))
    {| _grid := None; grid_width := 640; grid_height := 480; grid_updated := false;
       published := [] |}
    "line.npy"
  = (false, {| _grid := Some {| arr_shape := [4]%nat; arr_data := replicate 4 (Fin 1) |};
               grid_width := 640; grid_height := 480; grid_updated := false;
               published := [] |}).
Proof.
  apply (load_grid_failure_replaces_buffer
           (fun _ => Some (Ok {| arr_shape := [4]%nat; arr_data := replicate 4 (Fin 1) |}))
           {| _grid := None; grid_width := 640; grid_height := 480; grid_updated := false;
              published := [] |}
           "line.npy" {| arr_shape := [4]%nat; arr_data := replicate 4 (Fin 1) |}).
  - reflexivity.
  - left. reflexivity.
  - simpl. lia.
Defined.

Lemma string_length_append (s t : string) :
  String.length (s ++ t) = (String.length s + String.length t)%nat.
Proof.
  induction s as [ | c s IH].
  - reflexivity.
  - change (S (String.length (s ++ t)) = S (String.length s + String.length t)).
    rewrite IH. reflexivity.
Qed.

(** X17.  Save, then load.  [save_grid] on a manager that holds a buffer
    of at least two dimensions writes the file [np.save] names (the path
    itself when it ends in ".npy", the path followed by ".npy" otherwise);
    loading that file succeeds and leaves the buffer as it was.  Loading
    the path as given fails when it lacks the suffix and no file of that
    name existed. *)
Theorem save_then_load (writable : string -> bool) (fs : files) (m : manager)
    (file_path : string) (grid : array) :
  _grid m = Some grid -> (2 <= length (arr_shape grid))%nat ->
  writable (npy_name file_path) = true ->
  exists fs' : files,
    save_grid writable fs m file_path
      = (true, fs', Some (GRID_SAVED file_path (arr_shape grid))) /\
    (load_grid fs' m (npy_name file_path)).1 = true /\
    _grid (load_grid fs' m (npy_name file_path)).2 = Some grid /\
    (endswith file_path ".npy" = true -> npy_name file_path = file_path) /\
    (endswith file_path ".npy" = false -> fs file_path = None ->
     load_grid fs' m file_path = (false, m)).
Proof.
  intros Hg Hdims Hw. unfold save_grid, np_save. rewrite Hg, Hw.
  eexists. split; [reflexivity | ].
  destruct (shape_item_ok (arr_shape grid) 1) as (w & _ & Ew); [lia | ].
  destruct (shape_item_ok (arr_shape grid) 0) as (h & _ & Eh); [lia | ].
  unfold load_grid, load_grid_locked. rewrite String.eqb_refl, Hg.
  rewrite (bool_decide_eq_true_2 (arr_shape grid = arr_shape grid)) by reflexivity.
  cbn [negb]. rewrite Ew, Eh. cbn [fst snd try_except _grid].
  split; [reflexivity | split; [reflexivity | ]].
  split.
  - intros E. unfold npy_name. rewrite E. reflexivity.
  - intros E Hnone.
    assert (Hne : String.eqb file_path (npy_name file_path) = false).
    { apply String.eqb_neq. intros Heq. unfold npy_name in Heq. rewrite E in Heq.
      apply (f_equal String.length) in Heq. rewrite string_length_append in Heq.
      cbn in Heq. lia. }
    rewrite Hne, Hnone. reflexivity.
Qed.

Lemma save_then_load_witness :
  exists fs' : files,
    save_grid (fun _ => true) (fun _ => None)
      {| _grid := Some {| arr_shape := [1; 1; 2]%nat; arr_data := [Fin 1; Fin 2] |};
         grid_width := 1; grid_height := 1; grid_updated := false; published := [] |}
      "grid"
    = (true, fs', Some (GRID_SAVED "grid" [1; 1; 2]%nat)) /\
    (load_grid fs'
       {| _grid := Some {| arr_shape := [1; 1; 2]%nat; arr_data := [Fin 1; Fin 2] |};
          grid_width := 1; grid_height := 1; grid_updated := false; published := [] |}
       (npy_name "grid")).1 = true /\
    _grid (load_grid fs'
       {| _grid := Some {| arr_shape := [1; 1; 2]%nat; arr_data := [Fin 1; Fin 2] |};
          grid_width := 1; grid_height := 1; grid_updated := false; published := [] |}
       (npy_name "grid")).2
    = Some {| arr_shape := [1; 1; 2]%nat; arr_data := [Fin 1; Fin 2] |} /\
    (endswith "grid" ".npy" = true -> npy_name "grid" = "grid") /\
    (endswith "grid" ".npy" = false -> (fun _ : string => @None (result array)) "grid" = None ->
     load_grid fs'
       {| _grid := Some {| arr_shape := [1; 1; 2]%nat; arr_data := [Fin 1; Fin 2] |};
          grid_width := 1; grid_height := 1; grid_updated := false; published := [] |}
       "grid"
     = (false,
        {| _grid := Some {| arr_shape := [1; 1; 2]%nat; arr_data := [Fin 1; Fin 2] |};
           grid_width := 1; grid_height := 1; grid_updated := false; published := [] |})).
Proof.
  apply (save_then_load (fun _ => true) (fun _ => None)
           {| _grid := Some {| arr_shape := [1; 1; 2]%nat; arr_data := [Fin 1; Fin 2] |};
              grid_width := 1; grid_height := 1; grid_updated := false; published := [] |}
           "grid" {| arr_shape := [1; 1; 2]%nat; arr_data := [Fin 1; Fin 2] |}).
  - reflexivity.
  - simpl. lia.
  - reflexivity.
Defined.

End GridManagerFacts.

(* ===================================================================== *)
(** * Facts about the particle set over the dispatcher *)
(* ===================================================================== *)

Module RoutedFacts.
Import MarkerSystem MarkerSpec MarkerFacts DispatcherSpec DispatcherFacts.

Section Kernels.

Variable seed_kernel :
  nat -> nat -> list (xreal * xreal * xreal) -> result (nat -> nat -> vec2).
Variable sample_kernel : ndarray -> list (xreal * xreal) -> result (nat -> vec2).

(** With the sequential backend active the routed methods are the ones of
    module [MarkerSystem]. *)
Lemma routed_sequential (d : Dispatcher.calculator) (s : state) (grid : ndarray)
    (dt gravity speed_factor cell_size : scalar) :
  Dispatcher.active_calculator d = Dispatcher.Sequential ->
  Routed.update_field_and_markers seed_kernel sample_kernel d s grid
    dt gravity speed_factor cell_size
  = MarkerSystem.update_field_and_markers s grid dt gravity speed_factor cell_size.
Proof.
  intros Hd.
  unfold Routed.update_field_and_markers, MarkerSystem.update_field_and_markers,
    Routed.batch_create_tiny_vectors_from_markers,
    MarkerSystem.batch_create_tiny_vectors_from_markers,
    Routed.update_markers, MarkerSystem.update_markers,
    Routed._fit_vectors_batch, MarkerSystem._fit_vectors_batch,
    Dispatcher.create_tiny_vectors_batch, Dispatcher.fit_vectors_at_positions_batch.
  rewrite Hd. reflexivity.
Qed.

(** X14.  What the accepted switch costs.  Let the initialisation of
    OpenCL have failed and [set_device("gpu")] have been called on the
    dispatcher.  Then every tick [update_field_and_markers] raises
    RuntimeError, whatever the OpenCL kernels would compute: with
    particles the batch seed raises, without particles the batch sample
    does. *)
Theorem tick_raises_after_switch_to_uninitialised_backend
    (cl : GPU.opencl) (device : string) (budget : nat)
    (s : state) (grid : ndarray) (dt gravity speed_factor cell_size : scalar)
    (items : list loc) (ms : list marker) :
  GPU._initialized (GPU._init_opencl cl) = false ->
  particle_set s items ms ->
  Routed.update_field_and_markers seed_kernel sample_kernel
    (Dispatcher.set_device budget (Dispatcher.new cl device) "gpu").2
    s grid dt gravity speed_factor cell_size
  = Raise RuntimeError.
Proof.
  intros Hinit Hs.
  pose proof (set_device_gpu_routes budget (Dispatcher.new cl device) (GPU._init_opencl cl)
                (gpu_calculator_never_none cl device)) as Hroute.
  set (d := (Dispatcher.set_device budget (Dispatcher.new cl device) "gpu").2) in *.
  unfold Routed.update_field_and_markers, Routed.batch_create_tiny_vectors_from_markers.
  pose proof Hs as (Hm & _ & Hd & _).
  rewrite (list_items_eq _ _ _ Hm). cbn [mbind result_bind Py.bind].
  rewrite (mapM_dicts (heap s) (fun m => (value (key_x m), value (key_y m), value (key_mag m)))
             items ms Hd).
  cbn [mbind result_bind Py.bind].
  destruct ms as [ | m ms]; cbn [map].
  - cbn [mbind result_bind Py.bind]. unfold Routed.update_markers.
    destruct (sync_markers_from_state_set s items [] Hs) as [(Hm' & _ & Hd' & _) _].
    unfold _collect_marker_positions.
    rewrite (list_items_eq _ _ _ Hm'). cbn [mbind result_bind Py.bind].
    rewrite (mapM_dicts _ (fun m => (key_x m, key_y m)) items [] Hd').
    cbn [mbind result_bind Py.bind map].
    unfold Routed._fit_vectors_batch, Dispatcher.fit_vectors_at_positions_batch.
    rewrite Hroute. unfold GPU.fit_vectors_at_positions_batch. rewrite Hinit.
    reflexivity.
  - unfold Dispatcher.create_tiny_vectors_batch. rewrite Hroute.
    unfold GPU.create_tiny_vectors_batch. rewrite Hinit. reflexivity.
Qed.

End Kernels.

Lemma tick_raises_after_switch_to_uninitialised_backend_witness :
  Routed.update_field_and_markers (fun _ _ _ => Ok (fun _ _ => (Fin 0, Fin 0)))
    (fun _ _ => Ok (fun _ => (Fin 0, Fin 0)))
    (Dispatcher.set_device 10 (Dispatcher.new no_opencl "cpu") "gpu").2
    (one_particle still_marker) (zeros 3 3)
    (py_float (Fin 1)) (py_float (Fin 0)) (py_float (Fin 1)) (py_float (Fin 1))
  = Raise RuntimeError.
Proof.
  apply (tick_raises_after_switch_to_uninitialised_backend
           (fun _ _ _ => Ok (fun _ _ => (Fin 0, Fin 0)))
           (fun _ _ => Ok (fun _ => (Fin 0, Fin 0)))
           no_opencl "cpu" 10 (one_particle still_marker) (zeros 3 3)
           (py_float (Fin 1)) (py_float (Fin 0)) (py_float (Fin 1)) (py_float (Fin 1))
           [2%positive] [still_marker]).
  - reflexivity.
  - apply one_particle_set.
Defined.

End RoutedFacts.

(* ===================================================================== *)
(** * Facts about the state manager *)
(* ===================================================================== *)

Module StateManagerFacts.
Import StateManager.

Section Values.

Context {V C : Type} `{PyNe V} `{EqDecision C}.

Implicit Types (m : manager V C) (v d : pyval V).

Lemma notify_keeps m (k : string) (old new : pyval V) :
  _state (_notify_listeners m k old new) = _state m /\
  _listeners (_notify_listeners m k old new) = _listeners m /\
  _change_history (_notify_listeners m k old new) = _change_history m /\
  _max_history_size (_notify_listeners m k old new) = _max_history_size m.
Proof. unfold _notify_listeners. destruct (_listeners m !! k); auto. Qed.

Lemma set_fields m (k : string) v (notify : bool) :
  _state (set m k v notify) = <[k := v]> (_state m) /\
  _listeners (set m k v notify) = _listeners m /\
  _max_history_size (set m k v notify) = _max_history_size m /\
  _change_history (set m k v notify)
  = (let history := _change_history m
                      ++ [{| key := k; old_value := get m k None; new_value := v |}] in
     if (_max_history_size m <? length history)%nat then tail history else history).
Proof.
  unfold set. cbv zeta.
  destruct (notify && py_ne (get m k None) v).
  - match goal with |- context [_notify_listeners ?m0 k ?o ?n] =>
      destruct (notify_keeps m0 k o n) as (-> & -> & -> & ->) end.
    cbn. auto.
  - cbn. auto.
Qed.

(** X18.  Set, then get.  After [set(key, value)] the key holds the value
    and is contained, every other key holds what it held, and the
    listeners are unchanged.  The listeners registered for the key are
    called exactly when [notify] is set and the old value (None for a key
    that was absent) [!=] the new one: once each, in the order of their
    registration, with the key, the old and the new value; no listener of
    another key is called. *)
Theorem set_then_get m (k : string) v (notify : bool) :
  (forall d, get (set m k v notify) k d = v) /\
  contains (set m k v notify) k = true /\
  (forall k' d, k' <> k -> get (set m k v notify) k' d = get m k' d) /\
  _listeners (set m k v notify) = _listeners m /\
  calls (set m k v notify)
  = calls m ++
    (if notify && py_ne (get m k None) v
     then map (fun cb => (cb, k, get m k None, v))
            (match _listeners m !! k with Some l => l | None => [] end)
     else []).
Proof.
  destruct (set_fields m k v notify) as (Es & El & _ & _).
  split; [ | split; [ | split; [ | split; [exact El | ]]]].
  - intros d. unfold get at 1. rewrite Es, lookup_insert_eq. reflexivity.
  - unfold contains. rewrite Es, lookup_insert_eq. apply bool_decide_eq_true. eauto.
  - intros k' d Hne. unfold get. rewrite Es, lookup_insert_ne by congruence. reflexivity.
  - unfold set. cbv zeta.
    destruct (notify && py_ne (get m k None) v).
    + unfold _notify_listeners. cbn [_listeners].
      destruct (_listeners m !! k); cbn [calls]; [reflexivity | ].
      rewrite app_nil_r. reflexivity.
    + cbn [calls]. rewrite app_nil_r. reflexivity.
Qed.

(** The last [n] entries of a list. *)
Lemma drop_tail_app {A} (n : nat) (l : list A) (x : A) :
  (length l <= n)%nat ->
  (if (n <? length (l ++ [x]))%nat then tail (l ++ [x]) else l ++ [x])
  = drop (length (l ++ [x]) - n) (l ++ [x]).
Proof.
  intros Hl. rewrite length_app. cbn [length].
  destruct (Nat.ltb_spec n (length l + 1)) as [Hlt | Hge].
  - replace (length l + 1 - n)%nat with 1%nat by lia.
    destruct (l ++ [x]); reflexivity.
  - replace (length l + 1 - n)%nat with 0%nat by lia. reflexivity.
Qed.

Lemma drop_drop_app {A} (n : nat) (l cs : list A) (x : A) :
  (length (drop (length (l ++ cs) - n) (l ++ cs)) <= n)%nat ->
  drop (length (drop (length (l ++ cs) - n) (l ++ cs) ++ [x]) - n)
    (drop (length (l ++ cs) - n) (l ++ cs) ++ [x])
  = drop (length (l ++ (cs ++ [x])) - n) (l ++ (cs ++ [x])).
Proof.
  intros _. rewrite app_assoc. set (a := l ++ cs).
  rewrite !length_app, length_drop. cbn [length].
  destruct (Nat.le_gt_cases (length a) n) as [Hle | Hgt].
  - replace (length a - n)%nat with 0%nat by lia. rewrite drop_0.
    replace (length a - 0 + 1 - n)%nat with (length a + 1 - n)%nat by lia. reflexivity.
  - replace (length a - (length a - n) + 1 - n)%nat with 1%nat by lia.
    replace (length a + 1 - n)%nat with (S (length a - n)) by lia.
    rewrite <- drop_app_le by lia. rewrite drop_drop.
    f_equal. lia.
Qed.

Lemma update_snoc m (updates : list (string * pyval V)) (k : string) v (notify : bool) :
  update m (updates ++ [(k, v)]) notify = set (update m updates notify) k v notify.
Proof. unfold update. rewrite foldl_snoc. reflexivity. Qed.

(** X19.  The history holds the latest changes.  Starting from a history
    within its bound, after [update] (a sequence of [set]) the history
    consists of the most recent [_max_history_size] entries of the old
    history followed by one change per item, in order, each with the key
    and the new value of its item; its length stays within the bound. *)
Theorem history_holds_latest_changes m (updates : list (string * pyval V))
    (notify : bool) :
  (length (_change_history m) <= _max_history_size m)%nat ->
  exists cs : list (StateChange V),
    Forall2 (fun c u => key c = u.1 /\ new_value c = u.2) cs updates /\
    _change_history (update m updates notify)
      = StateSpec.latest (_max_history_size m) (_change_history m ++ cs) /\
    (length (_change_history (update m updates notify)) <= _max_history_size m)%nat /\
    _max_history_size (update m updates notify) = _max_history_size m.
Proof.
  intros Hlen. unfold StateSpec.latest.
  induction updates as [ | [k v] updates IH] using rev_ind.
  - exists []. split; [constructor | ]. rewrite app_nil_r. cbn [update foldl].
    replace (length (_change_history m) - _max_history_size m)%nat with 0%nat by lia.
    rewrite drop_0. auto.
  - destruct IH as (cs & HF & Eh & Hb & Emax).
    rewrite update_snoc.
    destruct (set_fields (update m updates notify) k v notify) as (_ & _ & Emax' & Eh').
    cbv zeta in Eh'. rewrite Emax in Emax', Eh'.
    set (c := {| key := k; old_value := get (update m updates notify) k None;
                 new_value := v |}) in *.
    exists (cs ++ [c]). split.
    { apply Forall2_app; [exact HF | ]. constructor; [ | constructor]. split; reflexivity. }
    rewrite Eh', drop_tail_app by exact Hb.
    split; [ | split; [ | exact Emax']].
    + rewrite Eh. apply drop_drop_app. rewrite <- Eh. exact Hb.
    + rewrite length_drop, length_app. cbn [length]. lia.
Qed.

End Values.

Lemma history_holds_latest_changes_witness :
  exists cs : list (StateChange Z),
    Forall2 (fun c u => key c = u.1 /\ new_value c = u.2) cs
      [("gravity"%string, Some 1%Z); ("gravity"%string, Some 2%Z)] /\
    _change_history
      (update (new (V := Z) (C := nat))
         [("gravity"%string, Some 1%Z); ("gravity"%string, Some 2%Z)] true)
      = StateSpec.latest (_max_history_size (new (V := Z) (C := nat)))
          (_change_history (new (V := Z) (C := nat)) ++ cs) /\
    (length (_change_history
               (update (new (V := Z) (C := nat))
                  [("gravity"%string, Some 1%Z); ("gravity"%string, Some 2%Z)] true))
     <= _max_history_size (new (V := Z) (C := nat)))%nat /\
    _max_history_size
      (update (new (V := Z) (C := nat))
         [("gravity"%string, Some 1%Z); ("gravity"%string, Some 2%Z)] true)
    = _max_history_size (new (V := Z) (C := nat)).
Proof.
  apply (history_holds_latest_changes (new (V := Z) (C := nat))
           [("gravity"%string, Some 1%Z); ("gravity"%string, Some 2%Z)] true).
  simpl. lia.
Defined.

Section Values.

Context {V C : Type} `{PyNe V} `{EqDecision C}.

Implicit Types (m : manager V C) (v d : pyval V).

(** X20.  Remove.  [remove(key)] returns whether the key was contained.
    A contained key is gone afterwards ([get] answers with the default),
    the other keys keep their values, one change is appended to the
    history, which [remove] does not trim, and the listeners of the key
    are called exactly when the removed value is not None.  For a key
    that is not contained nothing changes. *)
Theorem remove_then_get m (k : string) :
  (remove m k).1 = contains m k /\
  contains (remove m k).2 k = false /\
  (forall d, get (remove m k).2 k d = d) /\
  (forall k' d, k' <> k -> get (remove m k).2 k' d = get m k' d) /\
  (forall old, _state m !! k = Some old ->
     _change_history (remove m k).2
       = _change_history m ++ [{| key := k; old_value := old; new_value := None |}] /\
     calls (remove m k).2
       = calls m ++
         match old with
         | Some _ => map (fun cb => (cb, k, old, None))
                       (match _listeners m !! k with Some l => l | None => [] end)
         | None => []
         end) /\
  (contains m k = false -> (remove m k).2 = m).
Proof.
  unfold remove, contains.
  destruct (_state m !! k) as [old | ] eqn:Ek.
  - set (m1 := {| _state := delete k (_state m); _listeners := _listeners m;
                  _change_history := _; _max_history_size := _; calls := calls m |}).
    assert (Hst : _state (match old with
                          | Some _ => _notify_listeners m1 k old None
                          | None => m1
                          end) = delete k (_state m)).
    { destruct old; [ | reflexivity].
      destruct (notify_keeps m1 k (Some v) None) as (-> & _). reflexivity. }
    cbn [fst snd].
    split; [symmetry; apply bool_decide_eq_true; eauto | ].
    split; [apply bool_decide_eq_false; rewrite Hst, lookup_delete_eq;
            intros [? ?]; discriminate | ].
    split; [intros d; unfold get; rewrite Hst, lookup_delete_eq; reflexivity | ].
    split; [intros k' d Hne; unfold get; rewrite Hst, lookup_delete_ne by congruence;
            reflexivity | ].
    split.
    + intros old' [= <-]. destruct old as [v | ].
      * destruct (notify_keeps m1 k (Some v) None) as (_ & _ & -> & _).
        split; [reflexivity | ].
        unfold _notify_listeners. cbn [_listeners m1].
        destruct (_listeners m !! k); cbn [calls]; [reflexivity | ].
        rewrite app_nil_r. reflexivity.
      * split; [reflexivity | ]. cbn [calls m1]. rewrite app_nil_r. reflexivity.
    + intros Hc. apply bool_decide_eq_false in Hc. exfalso. apply Hc. eauto.
  - cbn [fst snd].
    split; [symmetry; apply bool_decide_eq_false; intros [? ?]; discriminate | ].
    split; [apply bool_decide_eq_false; rewrite Ek; intros [? ?]; discriminate | ].
    split; [intros d; unfold get; rewrite Ek; reflexivity | ].
    split; [reflexivity | ].
    split; [intros old; discriminate | reflexivity].
Qed.

End Values.

End StateManagerFacts.

(* ===================================================================== *)
(** * Facts about the event bus *)
(* ===================================================================== *)

Module EventBusFacts.
Import EventBus EventBusSpec.

Section Registry.

Context {H D : Type} `{EqDecision H}.

Implicit Types (b : bus H D) (h : H) (t : EventType).

Lemma assign_same {A} (d : EventType -> A) t (l : A) : assign d t l t = l.
Proof. unfold assign. rewrite bool_decide_eq_true_2 by reflexivity. reflexivity. Qed.

Lemma assign_other {A} (d : EventType -> A) t t' (l : A) :
  t' <> t -> assign d t l t' = d t'.
Proof. intros Hne. unfold assign. rewrite bool_decide_eq_false_2 by exact Hne. reflexivity. Qed.

Lemma list_remove_first_in (x y : H) (l : list H) :
  y ∈ list_remove_first x l -> y ∈ l.
Proof.
  induction l as [ | z l IH]; cbn [list_remove_first]; [auto | ].
  destruct (bool_decide (x = z)).
  - intros Hy. apply elem_of_cons. auto.
  - rewrite !elem_of_cons. intros [-> | Hy]; auto.
Qed.

Lemma list_remove_first_other (x y : H) (l : list H) :
  y <> x -> y ∈ l -> y ∈ list_remove_first x l.
Proof.
  intros Hne. induction l as [ | z l IH]; cbn [list_remove_first]; [auto | ].
  rewrite elem_of_cons. destruct (bool_decide (x = z)) eqn:E.
  - apply bool_decide_eq_true in E. subst z. intros [-> | Hy]; [contradiction | exact Hy].
  - rewrite elem_of_cons. intros [-> | Hy]; auto.
Qed.

Lemma list_remove_first_nodup (x : H) (l : list H) :
  NoDup l -> NoDup (list_remove_first x l) /\ x ∉ list_remove_first x l.
Proof.
  induction 1 as [ | z l Hz Hnd IH]; cbn [list_remove_first].
  - split; [constructor | apply not_elem_of_nil].
  - destruct (bool_decide (x = z)) eqn:E.
    + apply bool_decide_eq_true in E. subst z. auto.
    + apply bool_decide_eq_false in E. destruct IH as [IH1 IH2]. split.
      * constructor; [ | exact IH1]. intros Hin. apply Hz.
        apply (list_remove_first_in x). exact Hin.
      * rewrite elem_of_cons. intros [-> | Hin]; [congruence | contradiction].
Qed.

Lemma list_remove_first_length (x : H) (l : list H) :
  x ∈ l -> S (length (list_remove_first x l)) = length l.
Proof.
  induction l as [ | z l IH]; cbn [list_remove_first length].
  - intros Hin. apply elem_of_nil in Hin. contradiction.
  - rewrite elem_of_cons. destruct (bool_decide (x = z)) eqn:E; [reflexivity | ].
    apply bool_decide_eq_false in E. intros [-> | Hin]; [congruence | ].
    cbn [length]. rewrite IH by exact Hin. reflexivity.
Qed.

(** X21.  Subscribing.  A handler is subscribed to an event type at most
    once: [subscribe] appends a new handler after the ones present and
    registers its filter, if one is given, for the event type; for a
    handler that is already subscribed it changes nothing, so that a
    filter passed with a repeated subscription is not registered.  The
    other event types are untouched, and no duplicates arise. *)
Theorem subscribe_once b t h (filter filter' : option (EventFilter D)) :
  h ∈ _handlers (subscribe b t h filter) t /\
  subscribe (subscribe b t h filter) t h filter' = subscribe b t h filter /\
  (h ∉ _handlers b t ->
     _handlers (subscribe b t h filter) t = _handlers b t ++ [h] /\
     _filters (subscribe b t h filter) t
       = _filters b t ++ match filter with Some f => [f] | None => [] end /\
     get_handler_count (subscribe b t h filter) t = S (get_handler_count b t)) /\
  (h ∈ _handlers b t -> subscribe b t h filter = b) /\
  (forall t', t' <> t ->
     _handlers (subscribe b t h filter) t' = _handlers b t' /\
     _filters (subscribe b t h filter) t' = _filters b t') /\
  (no_duplicates b -> no_duplicates (subscribe b t h filter)).
Proof.
  assert (Hin : h ∈ _handlers (subscribe b t h filter) t).
  { unfold subscribe. destruct (bool_decide (h ∈ _handlers b t)) eqn:E.
    - apply bool_decide_eq_true in E. exact E.
    - cbn [_handlers]. rewrite assign_same. apply elem_of_app. right.
      apply list_elem_of_singleton. reflexivity. }
  split; [exact Hin | ]. split.
  { unfold subscribe at 1. rewrite (bool_decide_eq_true_2 _ Hin). reflexivity. }
  split.
  { intros Hnew. unfold subscribe, get_handler_count.
    rewrite (bool_decide_eq_false_2 _ Hnew). cbn [_handlers _filters].
    rewrite assign_same. split; [reflexivity | ]. split.
    - destruct filter; [apply assign_same | rewrite app_nil_r; reflexivity].
    - rewrite length_app. cbn [length]. lia. }
  split.
  { intros Hold. unfold subscribe. rewrite (bool_decide_eq_true_2 _ Hold). reflexivity. }
  split.
  { intros t' Hne. unfold subscribe. destruct (bool_decide (h ∈ _handlers b t)); [auto | ].
    cbn [_handlers _filters]. rewrite assign_other by exact Hne.
    destruct filter; [rewrite assign_other by exact Hne | ]; auto. }
  intros Hnd t'. unfold subscribe. destruct (bool_decide (h ∈ _handlers b t)) eqn:E;
    [apply Hnd | ].
  apply bool_decide_eq_false in E. cbn [_handlers]. unfold assign.
  destruct (bool_decide (t' = t)); [ | apply Hnd].
  apply NoDup_app. split; [apply Hnd | ]. split.
  - intros x Hx Hx'. apply list_elem_of_singleton in Hx'. subst x. contradiction.
  - apply NoDup_singleton.
Qed.

(** X22.  Unsubscribing.  On a bus without duplicate subscriptions, after
    [unsubscribe] the handler is no longer subscribed to the event type,
    the other handlers are, in their order, and the count has gone down by
    one if the handler was subscribed.  The filters of the event type are
    dropped only when its last handler goes: as long as another handler
    remains, the filter that was registered with the departed handler stays
    in force. *)
Theorem unsubscribe_spec b t h :
  no_duplicates b ->
  (h ∉ _handlers (unsubscribe b t h) t) /\
  no_duplicates (unsubscribe b t h) /\
  (forall h', h' <> h ->
     (h' ∈ _handlers (unsubscribe b t h) t <-> h' ∈ _handlers b t)) /\
  (h ∈ _handlers b t ->
     S (get_handler_count (unsubscribe b t h) t) = get_handler_count b t) /\
  (_handlers (unsubscribe b t h) t <> [] ->
     _filters (unsubscribe b t h) t = _filters b t) /\
  (h ∈ _handlers b t -> _handlers (unsubscribe b t h) t = [] ->
     _filters (unsubscribe b t h) t = []) /\
  (forall t', t' <> t ->
     _handlers (unsubscribe b t h) t' = _handlers b t' /\
     _filters (unsubscribe b t h) t' = _filters b t').
Proof.
  intros Hnd. unfold unsubscribe, get_handler_count.
  destruct (bool_decide (h ∈ _handlers b t)) eqn:E.
  - apply bool_decide_eq_true in E.
    destruct (list_remove_first_nodup h (_handlers b t) (Hnd t)) as [Hnd' Hgone].
    cbn [_handlers _filters]. rewrite !assign_same.
    split; [exact Hgone | ]. split.
    { intros t'. cbn [_handlers]. unfold assign.
      destruct (bool_decide (t' = t)); [exact Hnd' | apply Hnd]. }
    split.
    { intros h' Hne. split; [apply list_remove_first_in | ].
      apply list_remove_first_other. exact Hne. }
    split; [intros _; apply list_remove_first_length; exact E | ].
    split.
    { intros Hrest. destruct (list_remove_first h (_handlers b t)); [congruence | reflexivity]. }
    split.
    { intros _ Hnone. rewrite Hnone. apply assign_same. }
    intros t' Hne. rewrite assign_other by exact Hne. split; [reflexivity | ].
    destruct (list_remove_first h (_handlers b t));
      [rewrite assign_other by exact Hne | ]; reflexivity.
  - apply bool_decide_eq_false in E.
    split; [exact E | ]. split; [exact Hnd | ].
    split; [intros; reflexivity | ].
    split; [intros Hin; contradiction | ].
    split; [reflexivity | ].
    split; [intros Hin; contradiction | ].
    intros; split; reflexivity.
Qed.

End Registry.

Lemma unsubscribe_spec_witness :
  (2%nat ∉ _handlers (unsubscribe (subscribe (subscribe (new (H := nat) (D := unit))
                                     CLEAR_GRID 1%nat None) CLEAR_GRID 2%nat None)
                        CLEAR_GRID 2%nat) CLEAR_GRID) /\
  _handlers (unsubscribe (subscribe (subscribe (new (H := nat) (D := unit))
                            CLEAR_GRID 1%nat None) CLEAR_GRID 2%nat None)
               CLEAR_GRID 2%nat) CLEAR_GRID = [1%nat].
Proof.
  split; [ | reflexivity].
  apply (unsubscribe_spec
           (subscribe (subscribe (new (H := nat) (D := unit)) CLEAR_GRID 1%nat None)
              CLEAR_GRID 2%nat None) CLEAR_GRID 2%nat).
  intros t. destruct t; vm_compute; repeat constructor;
    rewrite ?elem_of_cons, ?elem_of_nil; intuition discriminate.
Defined.

Section Publish.

Context {H D W : Type} `{EqDecision H}.

Variable handle : H -> (Event D -> W -> outcome W) -> Event D -> W -> outcome W.
Variable error_data : Event D -> exn -> D.
Variable async_data : Event D -> D.

Implicit Types (b : bus H D) (h : H) (event : Event D) (w : W).

Lemma passes_app (fs gs : list (EventFilter D)) event :
  passes (fs ++ gs) event
  = (accepted ← passes fs event; if accepted : bool then passes gs event else Ok false).
Proof.
  induction fs as [ | f fs IH]; cbn [app passes mbind result_bind Py.bind].
  - reflexivity.
  - destruct (f event) as [[ | ] | e]; cbn [mbind result_bind Py.bind]; auto.
Qed.

Lemma passes_answers (fs : list (EventFilter D)) event :
  (forall f, f ∈ fs -> exists accepted : bool, f event = Ok accepted) ->
  exists accepted : bool, passes fs event = Ok accepted.
Proof.
  induction fs as [ | f fs IH]; intros Hfs; cbn [passes].
  - eauto.
  - destruct (Hfs f) as [a ->]; [apply elem_of_cons; auto | ].
    cbn [mbind result_bind Py.bind]. destruct a; [ | eauto].
    apply IH. intros g Hg. apply Hfs. apply elem_of_cons. auto.
Qed.

(** X23.  A filter gates the event type, not the handler it came with.
    Let a new handler subscribe with a filter, on a bus whose filters for
    that event type do not raise.  An event of the type that the filter
    rejects is then dispatched to no handler at all, the handlers that
    subscribed earlier without a filter included: [publish] returns with
    the world untouched. *)
Theorem rejecting_filter_silences_all_handlers b h (f : EventFilter D) event w
    (budget : nat) :
  h ∉ _handlers b (type event) ->
  (forall g, g ∈ _filters b (type event) -> exists accepted : bool, g event = Ok accepted) ->
  f event = Ok false ->
  publish handle error_data async_data budget
    (subscribe b (type event) h (Some f)) event w
  = (w, None).
Proof.
  intros Hnew Hans Hrej. destruct budget as [ | budget]; [reflexivity | ].
  cbn [publish]. unfold subscribe. rewrite (bool_decide_eq_false_2 _ Hnew).
  cbn [_filters _handlers]. unfold assign at 1.
  rewrite bool_decide_eq_true_2 by reflexivity.
  rewrite passes_app. destruct (passes_answers _ event Hans) as [a ->].
  cbn [mbind result_bind Py.bind]. destruct a; [ | reflexivity].
  cbn [passes]. rewrite Hrej. reflexivity.
Qed.

(** X24.  [publish] contains what the handlers raise.  On a bus none of
    whose filters raises, [publish] returns normally for every event,
    whatever the handlers raise and whatever they publish in turn: a
    handler's exception is caught, and the error event and the follow-up
    event the bus publishes itself are dispatched under the same
    guarantee. *)
Theorem publish_never_raises b (budget : nat) event w :
  filters_answer b ->
  (publish handle error_data async_data budget b event w).2 = None.
Proof.
  intros Hans. revert event w.
  induction budget as [ | budget IH]; intros event w; [reflexivity | ].
  cbn [publish].
  destruct (passes_answers (_filters b (type event)) event) as [a ->].
  { intros f Hf. apply (Hans (type event)). exact Hf. }
  destruct a; [ | reflexivity].
  destruct (_async_enabled b &&
            negb (bool_decide (type event ∈ [ASYNC_EVENT_PROCESSED; APP_INITIALIZED])));
    [apply IH | reflexivity].
Qed.

End Publish.

Lemma rejecting_filter_silences_all_handlers_witness :
  publish (H := nat) (D := unit) (W := nat)
    (fun _ _ _ w => (S w, None)) (fun _ _ => tt) (fun _ => tt) 10
    (subscribe (subscribe new CLEAR_GRID 1%nat None) CLEAR_GRID 2%nat
       (Some (fun _ => Ok false)))
    {| type := CLEAR_GRID; data := None; source := None |} 0%nat
  = (0%nat, None).
Proof.
  apply (rejecting_filter_silences_all_handlers (H := nat) (D := unit) (W := nat)
           (fun _ _ _ w => (S w, None)) (fun _ _ => tt) (fun _ => tt)
           (subscribe new CLEAR_GRID 1%nat None) 2%nat (fun _ => Ok false)
           {| type := CLEAR_GRID; data := None; source := None |} 0%nat 10).
  - change (2%nat ∉ [1%nat]). intros Hin.
    apply list_elem_of_singleton in Hin. discriminate.
  - intros g Hg. change (g ∈ @nil (EventFilter unit)) in Hg.
    apply elem_of_nil in Hg. contradiction.
  - reflexivity.
Defined.

Lemma publish_never_raises_witness :
  (publish (H := nat) (D := unit) (W := nat)
     (fun _ _ _ w => (S w, Some RuntimeError)) (fun _ _ => tt) (fun _ => tt) 10
     (subscribe new CLEAR_GRID 1%nat None)
     {| type := CLEAR_GRID; data := None; source := None |} 0%nat).2
  = None.
Proof.
  apply (publish_never_raises (H := nat) (D := unit) (W := nat)
           (fun _ _ _ w => (S w, Some RuntimeError)) (fun _ _ => tt) (fun _ => tt)
           (subscribe new CLEAR_GRID 1%nat None) 10
           {| type := CLEAR_GRID; data := None; source := None |} 0%nat).
  intros t f event Hf. change (f ∈ @nil (EventFilter unit)) in Hf.
  apply elem_of_nil in Hf. contradiction.
Defined.

End EventBusFacts.

(* ------------------------------------------------------------------ *)
(** ** The configuration manager *)

Module ConfigManagerFacts.
Import StateManager (pyval, PyNe, py_ne).
Import (hints) StateManager.
Import ConfigManager ConfigSpec.

Lemma flat_idempotent (key : string) : flat (flat key) = flat key.
Proof.
  unfold flat. induction key as [ | c key IH]; cbn [replace]; [reflexivity | ].
  rewrite IH. f_equal.
  match goal with |- context [Ascii.eqb c ?dot] =>
    destruct (Ascii.eqb c dot) eqn:E; [reflexivity | rewrite E; reflexivity] end.
Qed.

Section Values.

Context {V C : Type} `{PyNe V} `{PyValue V} `{EqDecision C}.

Implicit Types (m : manager V C) (sm : StateManager.manager V C)
  (value d : pyval V) (o : ConfigOption V).

Lemma state_get_set sm (k : string) value (notify : bool) d :
  StateManager.get (StateManager.set sm k value notify) k d = value.
Proof.
  destruct (StateManagerFacts.set_fields sm k value notify) as (Es & _).
  unfold StateManager.get. rewrite Es, lookup_insert_eq. reflexivity.
Qed.

Lemma state_get_set_ne sm (k k' : string) value (notify : bool) d :
  k' <> k ->
  StateManager.get (StateManager.set sm k value notify) k' d = StateManager.get sm k' d.
Proof.
  intros Hne. destruct (StateManagerFacts.set_fields sm k value notify) as (Es & _).
  unfold StateManager.get. rewrite Es, lookup_insert_ne by congruence. reflexivity.
Qed.

Lemma state_get_absent sm (k : string) d :
  StateManager.contains sm k = false -> StateManager.get sm k d = d.
Proof.
  unfold StateManager.contains, StateManager.get. intros Hc.
  apply bool_decide_eq_false in Hc.
  destruct (StateManager._state sm !! k); [exfalso; apply Hc; eauto | reflexivity].
Qed.

Lemma save_fields m :
  _options (save m) = _options m /\
  _state_manager (save m) = _state_manager m /\
  published (save m) = published m.
Proof.
  unfold save. destruct (_config_file m) as [file | ]; [ | auto].
  destruct (String.eqb file ""); auto.
Qed.

Lemma set_known m (key : string) value o :
  _options m !! flat key = Some o ->
  exists m',
    set m key value = Some (_validate_value value o, m') /\
    (_validate_value value o = false -> m' = m) /\
    (_validate_value value o = true ->
       _options m' = _options m /\
       _state_manager m' = StateManager.set (_state_manager m) (flat key) value true /\
       published m'
       = published m ++
         (if py_ne (get m key value) value
          then [{| changed_key := key; changed_old_value := get m key value;
                   changed_new_value := value |}]
          else [])).
Proof.
  intros Eo. unfold set. cbv zeta. fold (flat key). rewrite Eo.
  cbn [mbind option_bind]. rewrite Eo. cbn [mbind option_bind].
  unfold get. fold (flat key). rewrite Eo. unfold option_value.
  destruct (_validate_value value o); cbn [negb].
  - eexists. split; [reflexivity | ]. split; [discriminate | ]. intros _.
    match goal with |- context [save ?m0] =>
      destruct (save_fields m0) as (-> & -> & ->) end.
    cbn [_options _state_manager published].
    split; [reflexivity | ]. split; [reflexivity | ].
    destruct (py_ne _ value); [reflexivity | ]. rewrite app_nil_r. reflexivity.
  - eexists. split; [reflexivity | ]. split; [reflexivity | discriminate].
Qed.

Lemma validate_string value o :
  type o = "string" -> _validate_value value o = is_a value str_.
Proof. intros E. unfold _validate_value. rewrite E. reflexivity. Qed.

Lemma set_fresh m (key : string) value :
  _options m !! flat key = None ->
  exists m1 o1,
    set m key value = set m1 key value /\
    _options m1 = <[flat key := o1]> (_options m) /\
    type o1 = "string" /\ ConfigManager.value o1 = value /\ default o1 = value /\
    options o1 = [] /\
    published m1 = published m /\
    (forall d, StateManager.get (_state_manager m1) (flat key) d
               = StateManager.get (_state_manager m) (flat key) value) /\
    (forall k d, k <> flat key ->
       StateManager.get (_state_manager m1) k d = StateManager.get (_state_manager m) k d).
Proof.
  intros Eo.
  exists (register_option m (flat key) value ("Dynamic option: " ++ key) "string"
            None None None).
  eexists. split; [ | split; [ | split; [ | split; [ | split; [ | split; [ | split; [ | split]]]]]]].
  - set (m1 := register_option m (flat key) value ("Dynamic option: " ++ key) "string"
                 None None None).
    assert (E1 : is_Some (_options m1 !! flat key)).
    { unfold m1, register_option. cbn [_options]. rewrite lookup_insert_eq. eauto. }
    destruct E1 as [o1 E1].
    unfold set. cbv zeta. fold (flat key). fold m1. rewrite Eo, E1.
    cbv beta iota. rewrite ?E1. reflexivity.
  - unfold register_option. cbn [_options]. rewrite Eo. reflexivity.
  - reflexivity.
  - reflexivity.
  - reflexivity.
  - reflexivity.
  - reflexivity.
  - intros d. unfold register_option. cbn [_state_manager].
    destruct (StateManager.contains (_state_manager m) (flat key)) eqn:Ec.
    + unfold StateManager.contains in Ec. apply bool_decide_eq_true in Ec.
      destruct Ec as [x Ex]. unfold StateManager.get. rewrite Ex. reflexivity.
    + rewrite state_get_set, state_get_absent by exact Ec. reflexivity.
  - intros k d Hne. unfold register_option. cbn [_state_manager].
    destruct (StateManager.contains (_state_manager m) (flat key)); [reflexivity | ].
    apply state_get_set_ne. exact Hne.
Qed.

(** X25.  An accepted value is read back.  When [set(key, value)] answers
    True, [get] returns the value under the key as given and under its flat
    spelling (dots replaced by underscores); the keys with another flat
    spelling read as before.  One [CONFIG_CHANGED] event, carrying the key
    as given, the value read before and the new value, is published when
    these two values differ ([!=]), none otherwise. *)
Theorem accepted_set_is_read_back m (key : string) value m' :
  set m key value = Some (true, m') ->
  (forall d, get m' key d = value) /\
  (forall d, get m' (flat key) d = value) /\
  (forall key' d, flat key' <> flat key -> get m' key' d = get m key' d) /\
  published m'
  = published m ++
    (if py_ne (get m key value) value
     then [{| changed_key := key; changed_old_value := get m key value;
              changed_new_value := value |}]
     else []).
Proof.
  intros Eset.
  assert (Hknown : forall m0 o, _options m0 !! flat key = Some o ->
            set m0 key value = Some (true, m') ->
            (forall d, get m' key d = value) /\
            (forall key' d, flat key' <> flat key -> get m' key' d = get m0 key' d) /\
            published m'
            = published m0 ++
              (if py_ne (get m0 key value) value
               then [{| changed_key := key; changed_old_value := get m0 key value;
                        changed_new_value := value |}]
               else [])).
  { intros m0 o Eo E0.
    destruct (set_known m0 key value o Eo) as (m2 & E2 & _ & Hacc).
    rewrite E2 in E0. injection E0 as Ev <-.
    destruct (Hacc Ev) as (Eopt & Est & Epub).
    split; [ | split; [ | exact Epub]].
    - intros d. unfold get. fold (flat key). rewrite Eopt, Eo, Est.
      apply state_get_set.
    - intros key' d Hne. unfold get. fold (flat key'). rewrite Eopt, Est.
      destruct (_options m0 !! flat key'); apply state_get_set_ne; exact Hne. }
  assert (Hflat : (forall d, get m' key d = value) -> forall d, get m' (flat key) d = value).
  { intros Hg d. specialize (Hg d). unfold get in *. fold (flat key) in Hg.
    fold (flat (flat key)). rewrite flat_idempotent. exact Hg. }
  destruct (_options m !! flat key) as [o | ] eqn:Eo.
  - destruct (Hknown m o Eo Eset) as (Hg & Ho & Hp). auto.
  - destruct (set_fresh m key value Eo)
      as (m1 & o1 & E1 & Eopt1 & _ & Ev1 & _ & _ & Epub1 & Hst & Hst').
    rewrite E1 in Eset.
    assert (Eo1 : _options m1 !! flat key = Some o1)
      by (rewrite Eopt1; apply lookup_insert_eq).
    destruct (Hknown m1 o1 Eo1 Eset) as (Hg & Ho & Hp).
    assert (Eget : get m1 key value = get m key value).
    { unfold get. fold (flat key). rewrite Eo1, Eo. apply Hst. }
    split; [exact Hg | ]. split; [auto | ]. split.
    + intros key' d Hne. rewrite (Ho key' d Hne). unfold get. fold (flat key').
      rewrite Eopt1, lookup_insert_ne by congruence.
      destruct (_options m !! flat key'); apply Hst'; exact Hne.
    + rewrite Hp, Epub1, Eget. reflexivity.
Qed.

(** X26.  A rejected value.  When [set(key, value)] answers False for a
    key that has an option, nothing has changed.  For a key without option
    the refusal comes after the registration: the value is not a str, and
    yet an option of type string with the value as its default now exists
    under the flat key, and [get] returns the refused value, unless the
    state manager held a value for the flat key before, which is then the
    one returned.  No event is published. *)
Theorem rejected_set m (key : string) value m' :
  set m key value = Some (false, m') ->
  (is_Some (_options m !! flat key) -> m' = m) /\
  (_options m !! flat key = None ->
     is_a value str_ = false /\
     (exists o, _options m' !! flat key = Some o /\
                type o = "string" /\ default o = value) /\
     (forall d, get m' key d = StateManager.get (_state_manager m) (flat key) value) /\
     (StateManager.contains (_state_manager m) (flat key) = false ->
        forall d, get m' key d = value)) /\
  published m' = published m.
Proof.
  intros Eset. destruct (_options m !! flat key) as [o | ] eqn:Eo.
  - destruct (set_known m key value o Eo) as (m2 & E2 & Hrej & _).
    rewrite E2 in Eset. injection Eset as Ev <-. rewrite (Hrej Ev).
    split; [reflexivity | ]. split; [discriminate | reflexivity].
  - destruct (set_fresh m key value Eo)
      as (m1 & o1 & E1 & Eopt1 & Et1 & Ev1 & Ed1 & _ & Epub1 & Hst & _).
    rewrite E1 in Eset.
    assert (Eo1 : _options m1 !! flat key = Some o1)
      by (rewrite Eopt1; apply lookup_insert_eq).
    destruct (set_known m1 key value o1 Eo1) as (m2 & E2 & Hrej & _).
    rewrite E2 in Eset. injection Eset as Ev <-. rewrite (Hrej Ev).
    rewrite (validate_string value o1 Et1) in Ev.
    assert (Hget : forall d, get m1 key d
                             = StateManager.get (_state_manager m) (flat key) value).
    { intros d. unfold get. fold (flat key). rewrite Eo1. apply Hst. }
    split; [intros [? ?]; discriminate | ]. split; [ | exact Epub1].
    intros _. split; [exact Ev | ]. split; [eauto | ]. split; [exact Hget | ].
    intros Hc d. rewrite Hget. apply state_get_absent. exact Hc.
Qed.

(** X27.  What [set] answers.  [set] never fails on the lookup of the
    option: for a key with an option it answers with the validation of the
    value against that option, for any other key it answers whether the
    value is a str.  The choices listed in [options] play no part in the
    validation: a string option accepts every str. *)
Theorem set_answers m (key : string) value :
  (exists m',
     set m key value
     = Some (match _options m !! flat key with
             | Some o => _validate_value value o
             | None => is_a value str_
             end, m')) /\
  (forall o, type o = "string" -> _validate_value value o = is_a value str_).
Proof.
  split; [ | intros o; apply validate_string].
  destruct (_options m !! flat key) as [o | ] eqn:Eo.
  - destruct (set_known m key value o Eo) as (m2 & E2 & _). eauto.
  - destruct (set_fresh m key value Eo) as (m1 & o1 & E1 & Eopt1 & Et1 & _).
    assert (Eo1 : _options m1 !! flat key = Some o1)
      by (rewrite Eopt1; apply lookup_insert_eq).
    destruct (set_known m1 key value o1 Eo1) as (m2 & E2 & _).
    rewrite (validate_string value o1 Et1) in E2. rewrite E1. eauto.
Qed.

(** X28.  Registering an option.  [register_option] files the option under
    the key as given, without flattening it.  For a new option with a flat
    key, [get] returns the value the state manager already holds for the
    key, and the default otherwise.  An option registered under a key with
    a dot is out of the reach of [get], which reads exactly as before.
    Registering an option again keeps its value and its default. *)
Theorem register_option_then_get m (key : string) (default : pyval V)
    (description type : string) (options : option (list (pyval V)))
    (min_value max_value : option V) :
  let m1 := register_option m key default description type options
              min_value max_value in
  (flat key = key -> _options m !! key = None ->
     forall d, get m1 key d = StateManager.get (_state_manager m) key default) /\
  (flat key <> key -> forall d, get m1 key d = get m key d) /\
  (forall o, _options m !! key = Some o ->
     exists o1, _options m1 !! key = Some o1 /\
                ConfigManager.value o1 = ConfigManager.value o /\
                ConfigManager.default o1 = ConfigManager.default o).
Proof.
  cbv zeta. split; [ | split].
  - intros Ef Eo d. unfold get. fold (flat key). rewrite Ef.
    unfold register_option. cbn [_options _state_manager].
    rewrite Eo, lookup_insert_eq. cbn [ConfigManager.value].
    destruct (StateManager.contains (_state_manager m) key) eqn:Ec.
    + unfold StateManager.contains in Ec. apply bool_decide_eq_true in Ec.
      destruct Ec as [x Ex]. unfold StateManager.get. rewrite Ex. reflexivity.
    + rewrite state_get_set, state_get_absent by exact Ec. reflexivity.
  - intros Hne d. unfold get. fold (flat key).
    unfold register_option. cbn [_options _state_manager].
    rewrite lookup_insert_ne by congruence.
    destruct (StateManager.contains (_state_manager m) key); [reflexivity | ].
    destruct (_options m !! flat key); apply state_get_set_ne; exact Hne.
  - intros o Eo. unfold register_option. cbn [_options]. rewrite Eo, lookup_insert_eq.
    destruct o. eexists. split; [reflexivity | ]. split; reflexivity.
Qed.

End Values.

Lemma accepted_set_is_read_back_witness :
  exists m' : manager Z nat,
    set (register_option
           {| _config_file := None; _options := ∅;
              _state_manager := StateManager.new; published := []; saved := [] |}
           "grid_width" (Some 640%Z) "Grid width" "number" None None None)
      "grid.width" (Some 800%Z)
    = Some (true, m') /\
    forall d, get m' "grid.width" d = Some 800%Z.
Proof.
  eexists. split; [vm_compute; reflexivity | ].
  apply (accepted_set_is_read_back
           (register_option
              {| _config_file := None; _options := ∅;
                 _state_manager := StateManager.new; published := []; saved := [] |}
              "grid_width" (Some 640%Z) "Grid width" "number" None None None)
           "grid.width" (Some 800%Z)).
  vm_compute. reflexivity.
Defined.

Lemma rejected_set_witness :
  exists m' : manager Z nat,
    set {| _config_file := None; _options := ∅;
           _state_manager := StateManager.new; published := []; saved := [] |}
      "test.value" (Some 42%Z)
    = Some (false, m') /\
    published m' = [].
Proof.
  eexists. split; [vm_compute; reflexivity | ].
  apply (rejected_set
           {| _config_file := None; _options := ∅;
              _state_manager := StateManager.new; published := []; saved := [] |}
           "test.value" (Some 42%Z)).
  vm_compute. reflexivity.
Defined.

End ConfigManagerFacts.

(* ------------------------------------------------------------------ *)
(** ** Picking a marker *)

Module ControllerFacts.
Import NumFacts MarkerSystem MarkerSpec MarkerFacts Controller.

Lemma xltb_trans (a b c : xreal) :
  xltb a b = true -> xltb b c = true -> xltb a c = true.
Proof.
  destruct a as [r | | | ], b as [s | | | ], c as [t | | | ];
    cbn [xltb]; try discriminate; try reflexivity.
  intros Hab Hbc.
  destruct (Rltb_spec r s) as [Hrs | ]; [ | discriminate].
  destruct (Rltb_spec s t) as [Hst | ]; [ | discriminate].
  apply Rltb_true. lra.
Qed.

Lemma xltb_asym (a b : xreal) : xltb a b = true -> xltb b a = false.
Proof.
  destruct a as [r | | | ], b as [s | | | ];
    cbn [xltb]; try discriminate; try reflexivity.
  intros Hab. destruct (Rltb_spec r s) as [Hrs | ]; [ | discriminate].
  apply Rltb_false. lra.
Qed.

(** What the loop returns: the first state survives, or a dict of the list
    has taken its place; nothing in the list is nearer than the result. *)
Lemma closest_spec (h : gmap loc pyobj) (gx gy : scalar) (markers : list loc) :
  forall (min_dist : scalar) (closest_marker : option loc) d cl,
    closest h gx gy markers min_dist closest_marker = Ok (d, cl) ->
    ((d = min_dist /\ cl = closest_marker) \/
     (exists l m, cl = Some l /\ l ∈ markers /\ marker_at h l = Ok m /\
                  d = distance m gx gy /\ xltb (value d) (value min_dist) = true)) /\
    (forall l m, l ∈ markers -> marker_at h l = Ok m ->
                 xltb (value (distance m gx gy)) (value d) = false).
Proof.
  induction markers as [ | marker markers IH]; intros min_dist closest_marker d cl.
  - cbn [closest]. intros [= <- <-]. split; [left; auto | ].
    intros l m Hl. apply elem_of_nil in Hl. contradiction.
  - cbn [closest]. destruct (marker_at h marker) as [m0 | e] eqn:Em0; [ | discriminate].
    cbn [mbind result_bind Py.bind].
    destruct (xltb (value (distance m0 gx gy)) (value min_dist)) eqn:Elt; intros Hc.
    + destruct (IH _ _ _ _ Hc) as (Hres & Hmin).
      assert (Hd : xltb (value (distance m0 gx gy)) (value d) = false).
      { destruct Hres as [(-> & _) | (l & m & _ & _ & _ & _ & Hlt)].
        - destruct (xltb (value (distance m0 gx gy)) (value (distance m0 gx gy))) eqn:E;
            [ | reflexivity].
          rewrite (xltb_asym _ _ E) in E. discriminate.
        - apply xltb_asym. exact Hlt. }
      split.
      * right. destruct Hres as [(-> & ->) | (l & m & -> & Hl & Hm & -> & Hlt)].
        -- exists marker, m0. repeat split; auto. apply elem_of_cons. auto.
        -- exists l, m. repeat split; auto; [apply elem_of_cons; auto | ].
           eapply xltb_trans; eassumption.
      * intros l m Hl Hm. apply elem_of_cons in Hl. destruct Hl as [-> | Hl].
        -- rewrite Em0 in Hm. injection Hm as <-. exact Hd.
        -- eapply Hmin; eassumption.
    + destruct (IH _ _ _ _ Hc) as (Hres & Hmin). split.
      * destruct Hres as [(-> & ->) | (l & m & -> & Hl & Hm & -> & Hlt)]; [left; auto | ].
        right. exists l, m. repeat split; auto. apply elem_of_cons. auto.
      * intros l m Hl Hm. apply elem_of_cons in Hl. destruct Hl as [-> | Hl];
          [ | eapply Hmin; eassumption].
        rewrite Em0 in Hm. injection Hm as <-.
        destruct Hres as [(-> & _) | (l & m & _ & _ & _ & -> & Hlt)]; [exact Elt | ].
        destruct (xltb (value (distance m0 gx gy)) (value (distance m gx gy))) eqn:E;
          [ | reflexivity].
        rewrite (xltb_trans _ _ _ E Hlt) in Elt. discriminate.
Qed.

Lemma distance_value (m : marker) (gx gy : scalar) :
  value (distance m gx gy) <> NInf.
Proof.
  unfold distance, pow_half. cbn [value]. unfold xpow_half.
  destruct (value (add _ _)) as [r | | | ]; try discriminate.
  destruct (Rltb r 0); discriminate.
Qed.

Lemma marker_at_alloc (h : gmap loc pyobj) (items : list loc) (l : loc) (m : marker) :
  marker_at (alloc h (PyList items)).2 l = Ok m <-> marker_at h l = Ok m.
Proof.
  destruct (alloc_fresh h (PyList items)) as [Hfresh ->]. unfold marker_at.
  destruct (decide (l = (alloc h (PyList items)).1)) as [-> | Hne].
  - rewrite lookup_insert_eq, Hfresh. split; discriminate.
  - rewrite lookup_insert_ne by congruence. reflexivity.
Qed.

Lemma closest_total (h : gmap loc pyobj) (gx gy : scalar) (markers : list loc) :
  Forall (fun l => exists m, marker_at h l = Ok m) markers ->
  forall min_dist closest_marker,
    exists d cl, closest h gx gy markers min_dist closest_marker = Ok (d, cl).
Proof.
  induction 1 as [ | marker markers [m Hm] _ IH]; intros min_dist closest_marker.
  - cbn [closest]. eauto.
  - cbn [closest]. rewrite Hm. cbn [mbind result_bind Py.bind].
    destruct (xltb _ _); apply IH.
Qed.

(** The body of [handle_mouse_left_press] after [get_markers]. *)
Lemma handle_mouse_left_press_eq c grid s mx my gx gy items :
  _screen_to_grid c mx my = Ok (gx, gy) ->
  off_grid grid gx gy = false ->
  list_items (heap s) (markers s) = Ok items ->
  let h1 := (alloc (heap s) (PyList items)).2 in
  (handle_mouse_left_press c grid s mx my).1
  = match items with
    | [] => None
    | _ =>
        match closest h1 gx gy items (py_float PInf) None with
        | Ok (min_dist, Some marker) =>
            if gtb min_dist (py_float (Fin 5)) then None else Some marker
        | _ => None
        end
    end /\
  markers (handle_mouse_left_press c grid s mx my).2 = markers s /\
  heap (handle_mouse_left_press c grid s mx my).2 = h1.
Proof.
  intros Esg Eoff Eitems h1. unfold handle_mouse_left_press.
  rewrite Esg, Eoff. unfold get_markers, list_copy. rewrite Eitems.
  cbn [mbind result_bind Py.bind].
  pose proof (lookup_alloc_new (heap s) (PyList items)) as Hnew. fold h1 in Hnew.
  destruct (alloc (heap s) (PyList items)) as [snapshot h] eqn:Ea.
  cbn [fst snd] in Hnew, h1. subst h1.
  cbn [mbind result_bind Py.bind fst snd heap markers].
  split; [ | split; reflexivity].
  unfold list_items. rewrite Hnew. cbn [mbind result_bind Py.bind].
  destruct items as [ | i0 items']; [reflexivity | ].
  destruct (closest h gx gy (i0 :: items') (py_float PInf) None) as [[d [marker | ]] | e];
    cbn [mbind result_bind Py.bind try_except]; [ | reflexivity | reflexivity].
  destruct (gtb d (py_float (Fin 5))); reflexivity.
Qed.

Lemma distance_below_inf (m : marker) (gx gy : scalar) :
  xltb (value (distance m gx gy)) PInf = true ->
  exists d : R, value (distance m gx gy) = Fin d.
Proof.
  intros Hlt. pose proof (distance_value m gx gy) as Hn.
  destruct (value (distance m gx gy)) as [d | | | ];
    [eauto | discriminate | contradiction | discriminate].
Qed.

(** X29.  The marker a click picks.  When [handle_mouse_left_press]
    returns a marker, the click lies on the grid, the marker is one of the
    dicts of the particle set itself (a reference, not a copy), its
    distance to the click in grid coordinates is at most 5, and no marker
    of the set is strictly nearer.  The particle set keeps its list and
    its objects. *)
Theorem picked_marker_is_nearest c grid s mx my (l : loc) :
  (handle_mouse_left_press c grid s mx my).1 = Some l ->
  exists gx gy (items : list loc) (m : marker) (d : R),
    _screen_to_grid c mx my = Ok (gx, gy) /\
    off_grid grid gx gy = false /\
    list_items (heap s) (markers s) = Ok items /\
    l ∈ items /\
    marker_at (heap s) l = Ok m /\
    value (distance m gx gy) = Fin d /\
    (d <= 5)%R /\
    (forall l' m', l' ∈ items -> marker_at (heap s) l' = Ok m' ->
       xltb (value (distance m' gx gy)) (Fin d) = false) /\
    markers (handle_mouse_left_press c grid s mx my).2 = markers s /\
    (forall l' o, heap s !! l' = Some o ->
       heap (handle_mouse_left_press c grid s mx my).2 !! l' = Some o).
Proof.
  intros Hh.
  destruct (_screen_to_grid c mx my) as [[gx gy] | e] eqn:Esg;
    [ | unfold handle_mouse_left_press in Hh; rewrite Esg in Hh; discriminate].
  destruct (off_grid grid gx gy) eqn:Eoff;
    [unfold handle_mouse_left_press in Hh; rewrite Esg, Eoff in Hh; discriminate | ].
  destruct (list_items (heap s) (markers s)) as [items | e] eqn:Eitems;
    [ | unfold handle_mouse_left_press, get_markers, list_copy in Hh;
        rewrite Esg, Eoff, Eitems in Hh; discriminate].
  destruct (handle_mouse_left_press_eq c grid s mx my gx gy items Esg Eoff Eitems)
    as (E1 & Em & Eh).
  rewrite E1 in Hh. clear E1.
  set (h1 := (alloc (heap s) (PyList items)).2) in *.
  assert (Hne : items <> []) by (intros ->; discriminate).
  destruct (closest h1 gx gy items (py_float PInf) None) as [[dmin [marker | ]] | e] eqn:Ec;
    [ | destruct items; discriminate | destruct items; discriminate].
  destruct (gtb dmin (py_float (Fin 5))) eqn:Eg; [destruct items; discriminate | ].
  assert (marker = l) as -> by (destruct items; congruence).
  destruct (closest_spec h1 gx gy items _ _ _ _ Ec) as (Hres & Hmin).
  destruct Hres as [(_ & [=]) | (l' & m & [= <-] & Hl & Hm & -> & Hlt)].
  destruct (distance_below_inf m gx gy Hlt) as [d Ed].
  exists gx, gy, items, m, d.
  split; [first [exact Esg | reflexivity] | ]. split; [first [exact Eoff | reflexivity] | ].
  split; [first [exact Eitems | reflexivity] | ].
  split; [exact Hl | ]. split; [apply (marker_at_alloc (heap s) items); exact Hm | ].
  split; [exact Ed | ]. split.
  { unfold gtb in Eg. rewrite Ed in Eg. cbn [value py_float xltb] in Eg.
    destruct (Rltb_spec 5 d) as [ | Hge]; [discriminate | lra]. }
  split.
  { intros l' m' Hl' Hm'. rewrite <- Ed. apply (Hmin l' m' Hl').
    apply marker_at_alloc. exact Hm'. }
  split; [exact Em | ].
  intros l' o Ho. rewrite Eh. apply lookup_alloc_old. exact Ho.
Qed.

(** X30.  A marker in reach is picked.  For a click on the grid whose grid
    coordinates are of moderate size (at most [2^20] in absolute value),
    on a particle set all of whose markers have finite positions of
    moderate size (so that no squared difference overflows): if some
    marker lies at a distance of at most 5 from the click in grid
    coordinates, [handle_mouse_left_press] returns a marker. *)
Theorem marker_in_reach_is_picked c grid s mx my gx gy (cx cy : R)
    (items : list loc) (l0 : loc) (m0 : marker) (d0 : R) :
  _screen_to_grid c mx my = Ok (gx, gy) ->
  off_grid grid gx gy = false ->
  value gx = Fin cx -> value gy = Fin cy ->
  GridSpec.moderate cx -> GridSpec.moderate cy ->
  list_items (heap s) (markers s) = Ok items ->
  Forall (fun l => exists m, marker_at (heap s) l = Ok m /\ moderate_position m) items ->
  l0 ∈ items ->
  marker_at (heap s) l0 = Ok m0 ->
  value (distance m0 gx gy) = Fin d0 ->
  (d0 <= 5)%R ->
  exists l, (handle_mouse_left_press c grid s mx my).1 = Some l.
Proof.
  intros Esg Eoff _ _ _ _ Eitems Hdicts0 Hl0 Hm0 Ed0 Hd0.
  assert (Hdicts : Forall (fun l => exists m, marker_at (heap s) l = Ok m) items).
  { eapply Forall_impl; [exact Hdicts0 | ]. intros l (m & Hm & _). eauto. }
  destruct (handle_mouse_left_press_eq c grid s mx my gx gy items Esg Eoff Eitems)
    as (-> & _ & _).
  set (h1 := (alloc (heap s) (PyList items)).2).
  assert (Hdicts1 : Forall (fun l => exists m, marker_at h1 l = Ok m) items).
  { eapply Forall_impl; [exact Hdicts | ]. intros l [m Hm]. exists m.
    apply marker_at_alloc. exact Hm. }
  destruct (closest_total h1 gx gy items Hdicts1 (py_float PInf) None) as (d & cl & Ec).
  destruct (closest_spec h1 gx gy items _ _ _ _ Ec) as (Hres & Hmin).
  assert (Hm1 : marker_at h1 l0 = Ok m0) by (apply marker_at_alloc; exact Hm0).
  specialize (Hmin l0 m0 Hl0 Hm1). rewrite Ed0 in Hmin.
  destruct items as [ | i0 items']; [apply elem_of_nil in Hl0; contradiction | ].
  rewrite Ec.
  destruct Hres as [(-> & _) | (l & m & -> & _ & _ & -> & Hlt)]; [discriminate | ].
  destruct (distance_below_inf m gx gy Hlt) as [r Er]. rewrite Er in Hmin.
  cbn [xltb] in Hmin. destruct (Rltb_spec d0 r) as [ | Hge]; [discriminate | ].
  unfold gtb. rewrite Er. cbn [value py_float xltb].
  rewrite Rltb_false by lra. eauto.
Qed.

(** A click one pixel right of and below the centre of the default
    view, over a particle at [(1, 1)] on a grid of 3 by 3 cells. *)
Lemma sample_click_grid :
  _screen_to_grid ControllerSpec.default_camera (py_float (Fin 401)) (py_float (Fin 301))
  = Ok (py_float (Fin 1), py_float (Fin 1)).
Proof.
  unfold _screen_to_grid, ControllerSpec.default_camera, truediv, sub, add, binop.
  cbn [viewport_width viewport_height cam_zoom cam_x cam_y cell_size
       is_numpy value py_float orb negb andb xis_zero].
  rewrite (Reqb_false 2 0) by lra. rewrite (Reqb_false 1 0) by lra.
  cbn [mbind result_bind Py.bind xdiv xsub xadd xopp value is_numpy orb negb andb
       xis_zero].
  rewrite ?(Reqb_false 2 0), ?(Reqb_false 1 0) by lra.
  cbn [mbind result_bind Py.bind xdiv xsub xadd xopp value is_numpy orb negb andb
       xis_zero].
  rewrite ?(Reqb_false 2 0), ?(Reqb_false 1 0) by lra.
  cbn [mbind result_bind Py.bind xdiv xsub xadd xopp value is_numpy orb negb andb
       xis_zero].
  rewrite ?(Reqb_false 2 0), ?(Reqb_false 1 0) by lra.
  cbn [mbind result_bind Py.bind].
  unfold py_float. repeat f_equal; lra.
Qed.

Lemma sample_click_on_grid :
  off_grid (zeros 3 3) (py_float (Fin 1)) (py_float (Fin 1)) = false.
Proof.
  unfold off_grid, xgeb, of_nat. cbn [zeros width height value py_float xltb INR].
  rewrite (Rltb_false 1 0) by lra. rewrite (Rltb_true 1 (1 + 1 + 1)) by lra.
  reflexivity.
Qed.

Lemma sample_click_distance :
  value (distance still_marker (py_float (Fin 1)) (py_float (Fin 1))) = Fin 0.
Proof.
  unfold distance, pow_half, square, add, sub, binop, still_marker, xsquare.
  cbn [value py_float key_x key_y xsub xadd xopp xmul xpow_half].
  rewrite Rltb_false by lra. f_equal.
  match goal with |- sqrt ?a = _ => replace a with 0%R by lra end.
  apply sqrt_0.
Qed.

Lemma sample_click_picks :
  (handle_mouse_left_press ControllerSpec.default_camera (zeros 3 3)
     (one_particle still_marker) (py_float (Fin 401)) (py_float (Fin 301))).1
  = Some 2%positive.
Proof.
  destruct (handle_mouse_left_press_eq ControllerSpec.default_camera (zeros 3 3)
              (one_particle still_marker) (py_float (Fin 401)) (py_float (Fin 301))
              (py_float (Fin 1)) (py_float (Fin 1)) [2%positive]
              sample_click_grid sample_click_on_grid eq_refl) as (-> & _ & _).
  cbn [closest].
  rewrite (proj2 (marker_at_alloc (heap (one_particle still_marker)) [2%positive]
                    2%positive still_marker) eq_refl).
  cbn [mbind result_bind Py.bind]. rewrite sample_click_distance.
  cbn [value py_float xltb]. unfold gtb. rewrite sample_click_distance.
  cbn [value py_float xltb]. rewrite Rltb_false by lra. reflexivity.
Qed.

Lemma picked_marker_is_nearest_witness :
  exists l : loc,
    (handle_mouse_left_press ControllerSpec.default_camera (zeros 3 3)
       (one_particle still_marker) (py_float (Fin 401)) (py_float (Fin 301))).1
    = Some l /\
    exists gx gy (items : list loc) (m : marker) (d : R),
      _screen_to_grid ControllerSpec.default_camera (py_float (Fin 401))
        (py_float (Fin 301)) = Ok (gx, gy) /\
      off_grid (zeros 3 3) gx gy = false /\
      list_items (heap (one_particle still_marker)) (markers (one_particle still_marker))
      = Ok items /\
      l ∈ items /\
      marker_at (heap (one_particle still_marker)) l = Ok m /\
      value (distance m gx gy) = Fin d /\
      (d <= 5)%R /\
      (forall l' m', l' ∈ items ->
         marker_at (heap (one_particle still_marker)) l' = Ok m' ->
         xltb (value (distance m' gx gy)) (Fin d) = false) /\
      markers (handle_mouse_left_press ControllerSpec.default_camera (zeros 3 3)
                 (one_particle still_marker) (py_float (Fin 401))
                 (py_float (Fin 301))).2
      = markers (one_particle still_marker) /\
      (forall l' o, heap (one_particle still_marker) !! l' = Some o ->
         heap (handle_mouse_left_press ControllerSpec.default_camera (zeros 3 3)
                 (one_particle still_marker) (py_float (Fin 401))
                 (py_float (Fin 301))).2 !! l' = Some o).
Proof.
  exists 2%positive. split; [exact sample_click_picks | ].
  apply (picked_marker_is_nearest ControllerSpec.default_camera (zeros 3 3)
           (one_particle still_marker) (py_float (Fin 401)) (py_float (Fin 301))
           2%positive).
  exact sample_click_picks.
Defined.

Lemma marker_in_reach_is_picked_witness :
  exists l : loc,
    (handle_mouse_left_press ControllerSpec.default_camera (zeros 3 3)
       (one_particle still_marker) (py_float (Fin 401)) (py_float (Fin 301))).1
    = Some l.
Proof.
  apply (marker_in_reach_is_picked ControllerSpec.default_camera (zeros 3 3)
           (one_particle still_marker) (py_float (Fin 401)) (py_float (Fin 301))
           (py_float (Fin 1)) (py_float (Fin 1)) 1 1 [2%positive] 2%positive
           still_marker 0).
  - exact sample_click_grid.
  - exact sample_click_on_grid.
  - reflexivity.
  - reflexivity.
  - apply CPUFacts.moderate_bounds; lra.
  - apply CPUFacts.moderate_bounds; lra.
  - reflexivity.
  - apply Forall_cons_2; [ | apply Forall_nil_2].
    exists still_marker. split; [reflexivity | ].
    exists 1%R, 1%R. split; [reflexivity | ].
    split; apply CPUFacts.moderate_bounds; lra.
  - apply list_elem_of_singleton. reflexivity.
  - reflexivity.
  - exact sample_click_distance.
  - lra.
Defined.

End ControllerFacts.
